(** * Lunar Lander: terrain construction, collision detection and scoring

    A shallow embedding of the terrain builder ([GameInitialization.c]) and
    of the collision and scoring functions ([GameFunctions.c]), followed by
    the properties established about them.

    Conventions of the embedding.
    - C [int] values are integers of [Z].  The numbers read from the file are
      taken to fit an [int]; every [int] the modelled functions then compute
      is a difference, sum or quotient of coordinates that are non-negative,
      so no [int] operation overflows.
    - [Uint16] values are integers of [Z] kept in [0, 65535]; every store into a
      [Uint16] object goes through [to_Uint16].
    - C [float] is IEEE binary32 and C [double] is IEEE binary64, both with
      round-to-nearest-even, as given by [SpecFloat] of the standard library.
    - A C array is a total map from indices to cells.  The two scratch arrays
      of [buildHeightMap] are automatic variables without initialiser: their
      initial contents are arguments of the model.
    - The singly linked lists of [Vertex] and [Flat] are lists; a [NULL]
      pointer that the code dereferences is the result [Crash], and so is a
      pointer that the code follows after reading it from a field nothing
      has written: the behaviour is undefined from there on. *)

From Stdlib Require Import ZArith List String Ascii Bool Lia Sorted.
From Stdlib Require Import Floats.SpecFloat.
Import ListNotations.
Local Open Scope Z_scope.

(** ** Machine integers *)

Definition to_Uint16 (z : Z) : Z := z mod 65536.
Definition to_Uint32 (z : Z) : Z := z mod 4294967296.
Definition is_Uint16 (z : Z) : Prop := 0 <= z < 65536.

(** The value x86-64 produces for a floating-point to [int] conversion whose
    operand is not a number or does not fit ([INT_MIN]). *)
Definition INT_MIN : Z := - 2147483648.
Definition INT_MAX : Z := 2147483647.

(** ** Floating point *)

Module Float32.
Definition prec : Z := 24.
Definition emax : Z := 128.

Definition of_int (z : Z) : spec_float := binary_normalize prec emax z 0 false.
Definition add : spec_float -> spec_float -> spec_float := SFadd prec emax.
Definition mul : spec_float -> spec_float -> spec_float := SFmul prec emax.
Definition div : spec_float -> spec_float -> spec_float := SFdiv prec emax.
Definition eqb : spec_float -> spec_float -> bool := SFeqb.

Definition zero : spec_float := S754_zero false.
(** [-1.0f] *)
Definition minus_one : spec_float := S754_finite true 8388608 (-23).
End Float32.

Module Float64.
Definition prec : Z := 53.
Definition emax : Z := 1024.

(** The conversion of a [float] to [double] is exact. *)
Definition of_float (f : spec_float) : spec_float :=
  match f with
  | S754_finite s m e => binary_normalize prec emax (cond_Zopp s (Zpos m)) e s
  | _ => f
  end.

Definition sqrt : spec_float -> spec_float := SFsqrt prec emax.
Definition ltb : spec_float -> spec_float -> bool := SFltb.
Definition one : spec_float := binary_normalize prec emax 1 0 false.

(** [ceil], read as an integer.  Infinities and NaN, whose conversion to an
    integer type C leaves undefined, are given the value 0. *)
Definition ceil (f : spec_float) : Z :=
  match f with
  | S754_finite s m e =>
      let n := cond_Zopp s (Zpos m) in
      if 0 <=? e then n * 2 ^ e else - ((- n) / 2 ^ (- e))
  | _ => 0
  end.

(** [(int) d]: truncation toward zero; [INT_MIN] when the operand is
    infinite, not a number, or out of the range of [int]. *)
Definition to_int (f : spec_float) : Z :=
  match f with
  | S754_zero _ => 0
  | S754_finite s m e =>
      let n := cond_Zopp s (Zpos m) in
      let t := if 0 <=? e then n * 2 ^ e else Z.quot n (2 ^ (- e)) in
      if (INT_MIN <=? t) && (t <=? INT_MAX) then t else INT_MIN
  | _ => INT_MIN
  end.
End Float64.

(** ** Constants ([GameInitialization.h], [GameFunctions.h]) *)

Definition EXIT_BADFILE_FAIL : Z := 4.
Definition EXIT_EMPTYFILE_FAIL : Z := 5.
Definition EXIT_MAP_FAIL : Z := 6.

Definition LEVEL_WIDTH : Z := 900.
Definition LANDER_LENGTH : Z := 20.
Definition FUEL_START : Z := 1000.
Definition TOP_SCORE_TIER : Z := 5.
Definition FLAT_LAND_BASE : Z := 24.
Definition FLAT_LAND_INCREMENT : Z := 8.
Definition LANDING_THRESHOLD : Z := 1.
Definition SCORE_FOR_LANDING : Z := 100.
Definition CRASH_FUEL_COST : Z := 200.

(** ** Game objects ([GameObjects.h]) *)

Module Vertex.
Record t : Type := mk { X : Z; Y : Z }.
End Vertex.

Module Flat.
Record t : Type := mk { X : Z; Y : Z; length : Z; scoreModifier : Z }.
End Flat.

Module Lander.
Record t : Type := mk {
  realX : spec_float;
  realY : spec_float;
  X : Z;
  Y : Z;
  length : Z;
  height : Z;
  vertVelocity : spec_float;
  horVelocity : spec_float
}.
End Lander.

Module Terrain.
Record t : Type := mk {
  firstVertex : list Vertex.t;
  firstFlat : list Flat.t;
  heightMap : list Z
}.
End Terrain.

Module GameState.
Record t : Type := mk {
  lander : Lander.t;
  levelWidth : Z;
  levelHeight : Z;
  terrain : Terrain.t;
  timeStart : Z;
  timeElapsed : Z;
  score : Z;
  fuel : Z
}.

Definition set_score (v : Z) (s : t) : t :=
  mk (lander s) (levelWidth s) (levelHeight s) (terrain s)
     (timeStart s) (timeElapsed s) v (fuel s).
Definition set_fuel (v : Z) (s : t) : t :=
  mk (lander s) (levelWidth s) (levelHeight s) (terrain s)
     (timeStart s) (timeElapsed s) (score s) v.
Definition set_timeStart (v : Z) (s : t) : t :=
  mk (lander s) (levelWidth s) (levelHeight s) (terrain s)
     v (timeElapsed s) (score s) (fuel s).
End GameState.

(** Result of a function that may leave through [exit] or fault. *)
Inductive outcome (A : Type) : Type :=
| Ok (a : A)
| Exit (code : Z)
| Crash.
Arguments Ok {A} a.
Arguments Exit {A} code.
Arguments Crash {A}.

Definition bind {A B : Type} (o : outcome A) (k : A -> outcome B) : outcome B :=
  match o with
  | Ok a => k a
  | Exit c => Exit c
  | Crash => Crash
  end.

Notation "x <- o ;; k" := (bind o (fun x => k))
  (at level 61, o at next level, right associativity).

(** ** Landing strips ([findLandingStrips]) *)

(** The score modifier stored for a strip of the given (already [Uint16])
    length.  The field is a [Uint16]: the subtraction is done on [int] and
    stored modulo 65536 before the two clamps look at it. *)
Definition scoreModifier_of_length (length : Z) : Z :=
  let m :=
    if length <? FLAT_LAND_BASE then to_Uint16 (TOP_SCORE_TIER + 1)
    else to_Uint16 (TOP_SCORE_TIER
                    - Z.quot (length - FLAT_LAND_BASE) FLAT_LAND_INCREMENT) in
  let m := if m <? 1 then 1 else m in
  let m := if m >? TOP_SCORE_TIER then 0 else m in
  m.

Definition make_flat (current end_ : Vertex.t) : Flat.t :=
  let length := to_Uint16 (Vertex.X end_ - Vertex.X current) in
  Flat.mk (Vertex.X current) (Vertex.Y current) length
          (scoreModifier_of_length length).

(** The outer loop walks [current]; the inner loop walks [end] to the last
    vertex of the run of equal [Y]; the outer loop resumes from [end]. *)
Fixpoint findLandingStrips_from (current : Vertex.t) (rest : list Vertex.t)
  {struct rest} : list Flat.t :=
  match rest with
  | [] => []
  | next :: rest1 =>
      if Vertex.Y current =? Vertex.Y next then
        (fix scan (end_ : Vertex.t) (r : list Vertex.t) {struct r}
           : list Flat.t :=
           match r with
           | [] => [make_flat current end_]
           | n :: r' =>
               if Vertex.Y n =? Vertex.Y end_ then scan n r'
               else make_flat current end_ :: findLandingStrips_from end_ r
           end) next rest1
      else findLandingStrips_from next rest1
  end.

(** The [Flat] that [main] hands over in [terrain.firstFlat]
    ([Project03_01.c]): [X = 0], [Y = 0], [length = 0] and
    [scoreModifier = -1], stored in a [Uint16]. *)
Definition firstFlat_of_main : Flat.t := Flat.mk 0 0 0 (to_Uint16 (-1)).

(** The function starts by storing -1 in the [X] of that first [Flat].
    With a [NULL] vertex list it returns at once and leaves that [Flat] in
    [firstFlat].  Otherwise the strips are written from that [Flat] on, and
    the last test looks at [prev], the [Flat] filled last, or the first one
    when none was filled: when its [X] is -1, [firstFlat] is set to [NULL]. *)
Definition findLandingStrips (firstVertex : list Vertex.t) : list Flat.t :=
  match firstVertex with
  | [] =>
      [Flat.mk (-1) (Flat.Y firstFlat_of_main) (Flat.length firstFlat_of_main)
               (Flat.scoreModifier firstFlat_of_main)]
  | first :: rest =>
      let flats := findLandingStrips_from first rest in
      let prev :=
        last flats
             (Flat.mk (-1) (Flat.Y firstFlat_of_main)
                      (Flat.length firstFlat_of_main)
                      (Flat.scoreModifier firstFlat_of_main)) in
      if Flat.X prev =? -1 then [] else flats
  end.

(** ** Reading the vertex file ([readVertexList]) *)

(** [fscanf (file, "%d %d\n", &X, &Y)] on the unread part of the file.
    White space is what [isspace] accepts in the C locale. *)
Definition isspace (c : ascii) : bool :=
  let n := Z.of_nat (nat_of_ascii c) in
  (n =? 32) || ((9 <=? n) && (n <=? 13)).

Definition digit_of (c : ascii) : option Z :=
  let n := Z.of_nat (nat_of_ascii c) in
  if (48 <=? n) && (n <=? 57) then Some (n - 48) else None.

Fixpoint skip_space (s : string) : string :=
  match s with
  | String c s' => if isspace c then skip_space s' else s
  | EmptyString => s
  end.

(** The digits after the first one. *)
Fixpoint scan_digits (acc : Z) (s : string) : Z * string :=
  match s with
  | String c s' =>
      match digit_of c with
      | Some d => scan_digits (10 * acc + d) s'
      | None => (acc, s)
      end
  | EmptyString => (acc, s)
  end.

Definition scan_unsigned (s : string) : option (Z * string) :=
  match s with
  | String c s' =>
      match digit_of c with
      | Some d => Some (scan_digits d s')
      | None => None
      end
  | EmptyString => None
  end.

(** The conversion [%d]: leading white space, an optional sign, digits. *)
Definition scan_d (s : string) : option (Z * string) :=
  match skip_space s with
  | String c s' =>
      if Ascii.eqb c "-" then
        match scan_unsigned s' with
        | Some (n, r) => Some (- n, r)
        | None => None
        end
      else if Ascii.eqb c "+" then scan_unsigned s'
      else scan_unsigned (String c s')
  | EmptyString => None
  end.

(** [Some] exactly when the call returns 2. *)
Definition fscanf_d_d (s : string) : option (Z * Z * string) :=
  match scan_d s with
  | Some (x, s1) =>
      match scan_d (skip_space s1) with
      | Some (y, s2) => Some (x, y, skip_space s2)
      | None => None
      end
  | None => None
  end.

(** State of the reading loop: [prevX] and the list built so far, [current]
    being its last node ([NULL] when the list is empty). *)
Definition read_state : Type := (Z * list Vertex.t)%type.

(** The two branches that reject a pair call [freeVertexList (first)]
    before [exit (EXIT_BADFILE_FAIL)], on a list that is not closed yet.
    With at most one vertex in the list, [first->next] is still the [NULL]
    that [main] stored there, and [freeVertexList] dereferences it.  With
    more, its walk reaches the [next] field of the vertex allocated last,
    which nothing has written, and follows it.  Either way [exit] is not
    reached in a defined way. *)
Definition reject_pair : outcome read_state := Crash.

(** One pass through the body of the [while] for the pair just read. *)
Definition read_vertex (levelWidth : Z) (st : read_state) (X Y : Z)
  : outcome read_state :=
  let '(prevX, vs) := st in
  if (X <? 0) || (Y <? 0) || (X >=? levelWidth) then reject_pair
  else if X <? prevX then reject_pair
  else if prevX =? -1 then
    if negb (X =? 0)
    then Ok (X, [Vertex.mk 0 0; Vertex.mk X Y])
    else Ok (X, [Vertex.mk X Y])
  else Ok (prevX, vs ++ [Vertex.mk X Y]).

(** The [while] loop; each turn consumes at least one character, so the
    length of the file bounds the number of turns. *)
Fixpoint read_loop (fuel : nat) (levelWidth : Z) (file : string)
  (st : read_state) : outcome read_state :=
  match fuel with
  | O => Ok st
  | S fuel' =>
      match fscanf_d_d file with
      | Some (X, Y, file') =>
          st' <- read_vertex levelWidth st X Y ;;
          read_loop fuel' levelWidth file' st'
      | None => Ok st
      end
  end.

(** What follows the loop: the empty-file check and the closing vertex. *)
Definition close_vertex_list (levelWidth : Z) (vs : list Vertex.t)
  : outcome (list Vertex.t) :=
  match vs with
  | [] => Exit EXIT_EMPTYFILE_FAIL
  | first :: _ =>
      let current := last vs first in
      if negb (Vertex.X current =? levelWidth - 1)
         || negb (Vertex.Y current =? Vertex.Y first)
      then Ok (vs ++ [Vertex.mk (levelWidth - 1) (Vertex.Y first)])
      else Ok vs
  end.

Definition readVertexList (file : string) (levelWidth : Z)
  : outcome (list Vertex.t) :=
  st <- read_loop (S (String.length file)) levelWidth file (-1, []) ;;
  close_vertex_list levelWidth (snd st).

(** ** Slopes and fractional heights *)

Definition array : Type := Z -> spec_float.

Definition store (a : array) (i : Z) (v : spec_float) : array :=
  fun j => if j =? i then v else a j.

(** [for (x = lo; x < hi; x++) a[x] = v;] *)
Fixpoint fill (n : nat) (a : array) (x : Z) (v : spec_float) : array :=
  match n with
  | O => a
  | S n' => fill n' (store a x v) (x + 1) v
  end.

Definition fill_range (a : array) (lo hi : Z) (v : spec_float) : array :=
  fill (Z.to_nat (hi - lo)) a lo v.

Definition slope_between (current next : Vertex.t) : spec_float :=
  Float32.div (Float32.of_int (Vertex.Y next - Vertex.Y current))
              (Float32.of_int (Vertex.X next - Vertex.X current)).

(** What [buildSlopeMap] does once the end of a vertical run is reached at
    [current], whose successor [next] has another [X]. *)
Definition end_of_run (levelWidth maxY : Z) (current next : Vertex.t)
  (maps : array * array) : array * array :=
  let '(slopeMap, fHeightMap) := maps in
  let fHeightMap := store fHeightMap (Vertex.X current) (Float32.of_int maxY) in
  let slopeMap := store slopeMap (Vertex.X current) Float32.zero in
  let fHeightMap :=
    if Vertex.X current <? levelWidth - 1
    then store fHeightMap (Vertex.X current + 1) Float32.minus_one
    else fHeightMap in
  let slope := slope_between current next in
  (fill_range slopeMap (Vertex.X current + 1) (Vertex.X next) slope,
   fHeightMap).

(** The outer loop ([buildSlopeMap_from], at [current] with [rest] after it)
    and the inner loop over a vertical run ([buildSlopeMap_run]).  The arrays
    are the pair [(slopeMap, fHeightMap)].  The inner loop tests
    [current->X == current->next->X] without testing [current->next]: a run
    that reaches the end of the list faults. *)
Fixpoint buildSlopeMap_from (levelWidth : Z) (current : Vertex.t)
  (rest : list Vertex.t) (maps : array * array) {struct rest}
  : outcome (array * array) :=
  match rest with
  | [] => Ok maps
  | next :: rest1 =>
      if Vertex.X current =? Vertex.X next then
        let maxY :=
          if Vertex.Y current >=? Vertex.Y next
          then Vertex.Y current else Vertex.Y next in
        buildSlopeMap_run levelWidth maxY next rest1 maps
      else
        let slope := slope_between current next in
        buildSlopeMap_from levelWidth next rest1
          (fill_range (fst maps) (Vertex.X current) (Vertex.X next) slope,
           snd maps)
  end
with buildSlopeMap_run (levelWidth maxY : Z) (current : Vertex.t)
  (rest : list Vertex.t) (maps : array * array) {struct rest}
  : outcome (array * array) :=
  match rest with
  | [] => Crash
  | next :: rest1 =>
      if Vertex.X current =? Vertex.X next then
        buildSlopeMap_run levelWidth
          (if Vertex.Y next >? maxY then Vertex.Y next else maxY)
          next rest1 maps
      else
        buildSlopeMap_from levelWidth next rest1
          (end_of_run levelWidth maxY current next maps)
  end.

Definition buildSlopeMap (slopeMap fHeightMap : array)
  (first : list Vertex.t) (levelWidth : Z) : outcome (array * array) :=
  match first with
  | [] => Crash
  | current :: rest => buildSlopeMap_from levelWidth current rest
                         (slopeMap, fHeightMap)
  end.

Definition undefined_slope_at (levelWidth x : Z) (slopeMap fHeightMap : array)
  : bool :=
  Float32.eqb (slopeMap x) Float32.zero
  && (x <? levelWidth - 1)
  && Float32.eqb (fHeightMap (x + 1)) Float32.minus_one.

(** The [for] loop of [buildFHeightMap] from column [x] on.  A turn advances
    [x] by one or by two; [fuel] counts the turns. *)
Fixpoint buildFHeightMap_loop (fuel : nat) (levelWidth x : Z)
  (slopeMap fHeightMap : array) : array :=
  match fuel with
  | O => fHeightMap
  | S fuel' =>
      if x <? levelWidth then
        if undefined_slope_at levelWidth x slopeMap fHeightMap then
          buildFHeightMap_loop fuel' levelWidth (x + 2) slopeMap
            (store fHeightMap (x + 1)
               (Float32.add (fHeightMap x) (slopeMap (x + 1))))
        else
          buildFHeightMap_loop fuel' levelWidth (x + 1) slopeMap
            (store fHeightMap x
               (Float32.add (fHeightMap (x - 1)) (slopeMap (x - 1))))
      else fHeightMap
  end.

Definition buildFHeightMap (fHeightMap slopeMap : array)
  (first : list Vertex.t) (levelWidth : Z) : outcome array :=
  match first with
  | [] => Crash
  | v :: _ =>
      if negb (Vertex.X v =? 0) then Exit EXIT_MAP_FAIL
      else
        Ok (buildFHeightMap_loop (Z.to_nat levelWidth) levelWidth 1 slopeMap
              (store fHeightMap 0 (Float32.of_int (Vertex.Y v))))
  end.

(** ** The height map ([buildHeightMap]) *)

(** Columns [x], [x + 1], ... ([n] of them), each rounded up and stored as a
    [Uint16].  (A value outside the range of [Uint16], whose conversion C
    leaves undefined, is reduced modulo 65536.) *)
Fixpoint round_columns (n : nat) (x : Z) (fHeightMap : array) : list Z :=
  match n with
  | O => []
  | S n' =>
      to_Uint16 (Float64.ceil (Float64.of_float (fHeightMap x)))
      :: round_columns n' (x + 1) fHeightMap
  end.

(** What [buildHeightMap] does with the vertex list once it is read. *)
Definition heightMap_of_vertices (first : list Vertex.t) (levelWidth : Z)
  (fHeightMap0 slopeMap0 : array) : outcome (list Z) :=
  maps <- buildSlopeMap slopeMap0 fHeightMap0 first levelWidth ;;
  fHeightMap <- buildFHeightMap (snd maps) (fst maps) first levelWidth ;;
  Ok (round_columns (Z.to_nat levelWidth) 0 fHeightMap).

(** [fHeightMap0] and [slopeMap0] are the contents the two automatic arrays
    happen to have on entry.  The result is the vertex list together with
    the [levelWidth] cells written into [heightMap]. *)
Definition buildHeightMap (file : string) (levelWidth : Z)
  (fHeightMap0 slopeMap0 : array) : outcome (list Vertex.t * list Z) :=
  first <- readVertexList file levelWidth ;;
  heightMap <- heightMap_of_vertices first levelWidth fHeightMap0 slopeMap0 ;;
  Ok (first, heightMap).

(** The terrain part of [initializeGameState]. *)
Definition buildTerrain (file : string) (levelWidth : Z)
  (fHeightMap0 slopeMap0 : array) : outcome Terrain.t :=
  r <- buildHeightMap file levelWidth fHeightMap0 slopeMap0 ;;
  Ok (Terrain.mk (fst r) (findLandingStrips (fst r)) (snd r)).

(** ** Collisions and scoring ([GameFunctions.c]) *)

(** [heightMap[x]]; the array has [levelWidth] cells, and a read outside of
    it, which C leaves undefined, yields 0 here. *)
Definition heightAt (heightMap : list Z) (x : Z) : Z :=
  nth (Z.to_nat x) heightMap 0.

Definition getVelocity (state : GameState.t) : spec_float :=
  let l := GameState.lander state in
  Float64.sqrt
    (Float64.of_float
       (Float32.add
          (Float32.mul (Lander.vertVelocity l) (Lander.vertVelocity l))
          (Float32.mul (Lander.horVelocity l) (Lander.horVelocity l)))).

Definition isLandingSpeed (state : GameState.t) : bool :=
  Float64.to_int (getVelocity state) <=? LANDING_THRESHOLD.

Definition isFlatLand (state : GameState.t) (x1 x2 x3 : Z) : bool :=
  let hm := Terrain.heightMap (GameState.terrain state) in
  (heightAt hm x1 =? heightAt hm x2) && (heightAt hm x1 =? heightAt hm x3).

(** The sounds handed to the mixer. *)
Inductive Sound : Type := Ding | Boom.

(** What a call of [collisionDetected] leaves behind: the returned flag, the
    contents of the [landingType] buffer, and the sounds it played. *)
Record detection : Type := mkDetection {
  detected : bool;
  landingType : Z;
  played : list Sound
}.

(** The block run by each of the three tests once its sample is at or below
    the terrain; [withSound] tells whether that copy of the block plays the
    sound (the copies for the left and middle samples do, the third does not). *)
Definition register_collision (state : GameState.t) (leftX middleX rightX : Z)
  (withSound : bool) : detection :=
  if isLandingSpeed state && isFlatLand state leftX middleX rightX
  then mkDetection true 1 (if withSound then [Ding] else [])
  else mkDetection true 2 (if withSound then [Boom] else []).

(** The three locals [leftX], [middleX] and [rightX]. *)
Definition leftX (state : GameState.t) : Z :=
  Lander.X (GameState.lander state).
Definition middleX (state : GameState.t) : Z :=
  Z.rem (leftX state + Z.quot (Lander.length (GameState.lander state)) 2)
        (GameState.levelWidth state).
Definition rightX (state : GameState.t) : Z :=
  Z.rem (leftX state + Lander.length (GameState.lander state))
        (GameState.levelWidth state).

(** The two nested tests made on a sample. *)
Definition sample_hit (state : GameState.t) (x : Z) : bool :=
  (x >=? 0) && (x <? GameState.levelWidth state)
  && (Lander.Y (GameState.lander state)
      <=? heightAt (Terrain.heightMap (GameState.terrain state)) x).

(** [landingType] is the content of the caller's buffer before the call. *)
Definition collisionDetected (state : GameState.t) (landingType : Z)
  : detection :=
  let leftX := leftX state in
  let middleX := middleX state in
  let rightX := rightX state in
  if sample_hit state leftX
  then register_collision state leftX middleX rightX true
  else if sample_hit state middleX
  then register_collision state leftX middleX rightX true
  else if sample_hit state rightX
  then register_collision state leftX middleX rightX false
  else mkDetection false landingType [].

Definition gameOver (state : GameState.t) : bool :=
  (GameState.fuel state <=? 0) || (GameState.fuel state >? FUEL_START).

(** [showCollisionMessage] draws the message and waits for the player;
    [timeWaiting] is the time the wait took, as measured by the two calls of
    [SDL_GetTicks].  When it returns (the wait can also end the process), its
    only effect on the state is on [timeStart]. *)
Definition showCollisionMessage (timeWaiting : Z) (state : GameState.t)
  : GameState.t :=
  GameState.set_timeStart
    (to_Uint32 (GameState.timeStart state + timeWaiting)) state.

(** The search of [applyCollision] along the list of strips. *)
Fixpoint find_flat (currentFlat : list Flat.t) (landerX : Z)
  : option Flat.t :=
  match currentFlat with
  | [] => None
  | f :: next =>
      if Flat.X f + Flat.length f <? landerX
      then find_flat next landerX
      else Some f
  end.

Definition applyCollision (timeWaiting : Z) (state : GameState.t)
  (landingType : Z) : GameState.t :=
  if landingType =? 1 then
    let modifier :=
      match find_flat (Terrain.firstFlat (GameState.terrain state))
                      (Lander.X (GameState.lander state)) with
      | Some f => Flat.scoreModifier f
      | None => 0
      end in
    showCollisionMessage timeWaiting
      (GameState.set_score
         (to_Uint16 (GameState.score state + SCORE_FOR_LANDING * modifier))
         state)
  else if landingType =? 2 then
    showCollisionMessage timeWaiting
      (GameState.set_fuel
         (to_Uint16 (GameState.fuel state - CRASH_FUEL_COST)) state)
  else state.

(** ** Reference definitions, following the wording of the specification *)

(** The score tier the specification gives to a strip of a given length. *)
Definition tier_of_spec (length : Z) : Z :=
  if length <? 24 then 0 else Z.max 1 (5 - (length - 24) / 8).

(** The three sample columns as the specification words them: each one
    reduced modulo [levelWidth]. *)
Definition samples_of_spec (state : GameState.t) : list Z :=
  let l := GameState.lander state in
  let w := GameState.levelWidth state in
  [ Lander.X l mod w;
    (Lander.X l + Lander.length l / 2) mod w;
    (Lander.X l + Lander.length l) mod w ].

(** The samples the code consults, in order, each with the flag telling
    whether the block guarded by that sample plays a sound. *)
Definition samples_of_code (state : GameState.t) : list (Z * bool) :=
  let l := GameState.lander state in
  let w := GameState.levelWidth state in
  (if Lander.X l <? w then [(Lander.X l, true)] else [])
  ++ [ ((Lander.X l + Lander.length l / 2) mod w, true);
       ((Lander.X l + Lander.length l) mod w, false) ].

Definition at_or_below_terrain (state : GameState.t) (x : Z) : bool :=
  Lander.Y (GameState.lander state)
  <=? heightAt (Terrain.heightMap (GameState.terrain state)) x.

(** Detection as the specification words it: the first sample, in the order
    left, middle, right, at which the lander is at or below the terrain. *)
Definition first_hit_of_spec (state : GameState.t) : option Z :=
  find (at_or_below_terrain state) (samples_of_spec state).

(** The greatest [Y] among the vertices of a list that have the given [X]. *)
Definition max_Y_at (x : Z) (vs : list Vertex.t) : Z :=
  fold_right Z.max 0
    (map Vertex.Y (filter (fun v => Vertex.X v =? x) vs)).

(** Vertices, and strips, in the order of their [X]. *)
Definition vertices_in_order (vs : list Vertex.t) : Prop :=
  StronglySorted (fun a b => Vertex.X a <= Vertex.X b) vs.
Definition flats_in_order (fs : list Flat.t) : Prop :=
  StronglySorted (fun a b => Flat.X a <= Flat.X b) fs.

(** The greatest [Y] among a vertex and those after it. *)
Definition greatest_Y (first : Vertex.t) (others : list Vertex.t) : Z :=
  fold_left Z.max (map Vertex.Y others) (Vertex.Y first).

(** The cells left of column [b] are as they were in [maps]. *)
Definition cells_below_kept (b : Z) (maps : array * array)
  (o : outcome (array * array)) : Prop :=
  match o with
  | Ok r => forall j, j < b -> fst r j = fst maps j /\ snd r j = snd maps j
  | _ => True
  end.

(** ** What the fractional heights owe to the scratch arrays

    [buildSlopeMap] only writes into the two arrays.  Started on arrays that
    hold the marker [unrecorded] everywhere, it leaves the marker exactly in
    the cells it has not written; the definitions below read, on the arrays
    it leaves, which cells of the scratch arrays [buildFHeightMap] will
    consult. *)

Definition unrecorded : array := fun _ => S754_nan.

Definition recorded (v : spec_float) : bool :=
  match v with
  | S754_nan => false
  | _ => true
  end.

(** The columns [lo], [lo + 1], ..., [n] of them. *)
Fixpoint columns (n : nat) (lo : Z) : list Z :=
  match n with
  | O => []
  | S n' => lo :: columns n' (lo + 1)
  end.

(** Column [j] has slope zero and the cell after it was never written: the
    test for an undefined slope compares a scratch cell with -1. *)
Definition compares_scratch (slopeMap fHeightMap : array) (j : Z) : bool :=
  Float32.eqb (slopeMap j) Float32.zero && negb (recorded (fHeightMap (j + 1))).

(** Column [j] is harmless: its slope is not zero, or the cell after it was
    not written, or was written with something else than -1, or it was
    written with -1 next to a recorded height, away from the last column. *)
Definition column_ok (levelWidth : Z) (slopeMap fHeightMap : array) (j : Z)
  : bool :=
  negb (Float32.eqb (slopeMap j) Float32.zero)
  || negb (recorded (fHeightMap (j + 1)))
  || negb (Float32.eqb (fHeightMap (j + 1)) Float32.minus_one)
  || (recorded (fHeightMap j) && (j + 1 <? levelWidth - 1)).

Definition well_recorded (levelWidth : Z) (slopeMap fHeightMap : array)
  : bool :=
  forallb (fun j => recorded (slopeMap j))
          (columns (Z.to_nat (levelWidth - 1)) 0)
  && forallb (column_ok levelWidth slopeMap fHeightMap)
             (columns (Z.to_nat (levelWidth - 2)) 1).

Definition compared_cells (levelWidth : Z) (slopeMap fHeightMap : array)
  : list Z :=
  map (fun j => j + 1)
      (filter (compares_scratch slopeMap fHeightMap)
              (columns (Z.to_nat (levelWidth - 2)) 1)).

(** The scratch cells compared with -1 when the height map is built from the
    given vertices; [None] when the arrays left by [buildSlopeMap] are not
    well recorded, or when it faults. *)
Definition scratch_cells_compared (first : list Vertex.t) (levelWidth : Z)
  : option (list Z) :=
  match buildSlopeMap unrecorded unrecorded first levelWidth with
  | Ok (slopeMap, fHeightMap) =>
      if well_recorded levelWidth slopeMap fHeightMap
      then Some (compared_cells levelWidth slopeMap fHeightMap)
      else None
  | _ => None
  end.

(** Two arrays obtained from [a0] and [a0'] by the same stores: in each
    cell they hold the same value, or what [a0] and [a0'] held there. *)
Definition same_stores (a0 a0' a a' : array) : Prop :=
  forall j, a j = a' j \/ (a j = a0 j /\ a' j = a0' j).

Definition same_stores2 (m0 m0' m m' : array * array) : Prop :=
  same_stores (fst m0) (fst m0') (fst m) (fst m')
  /\ same_stores (snd m0) (snd m0') (snd m) (snd m').

Definition same_outcome (m0 m0' : array * array)
  (o o' : outcome (array * array)) : Prop :=
  match o, o' with
  | Ok r, Ok r' => same_stores2 m0 m0' r r'
  | Crash, Crash => True
  | _, _ => False
  end.

(** Column [j], if its slope is zero, tests false for an undefined slope in
    both of two runs of [buildFHeightMap], or has the same height and the
    same cell after it in both and is not next to the last column. *)
Definition harmless (levelWidth : Z) (slopeMap fH fH' : array) (j : Z)
  : Prop :=
  Float32.eqb (slopeMap j) Float32.zero = true ->
  (Float32.eqb (fH (j + 1)) Float32.minus_one = false
   /\ Float32.eqb (fH' (j + 1)) Float32.minus_one = false)
  \/ (fH j = fH' j /\ fH (j + 1) = fH' (j + 1) /\ j + 1 < levelWidth - 1).

(** ** Files and states used as concrete inputs *)

Definition nl : string := String (ascii_of_nat 10) EmptyString.

(** ["0 0\n899 0\n"] *)
Definition flat_file : string := "0 0" ++ nl ++ "899 0" ++ nl.
(** ["0 0\n72 0\n100 50\n"]: a strip of length 72 followed by a slope. *)
Definition strip72_file : string := "0 0" ++ nl ++ "72 0" ++ nl ++ "100 50" ++ nl.
(** ["5 3\n10 8\n7 2\n"]: the third vertex lies left of the second. *)
Definition unordered_file : string := "5 3" ++ nl ++ "10 8" ++ nl ++ "7 2" ++ nl.
(** ["0 5\n0 9\n"]: a vertical run in column 0 whose greatest [Y] is 9. *)
Definition cliff_at_origin_file : string := "0 5" ++ nl ++ "0 9" ++ nl.
(** ["0 0\n100 7\n"]: no two vertices share an [X]. *)
Definition hill_file : string := "0 0" ++ nl ++ "100 7" ++ nl.
(** ["0 0\n10 20\n10 5\n"]: a cliff going down from 20 to 5 in column 10. *)
Definition drop_file : string := "0 0" ++ nl ++ "10 20" ++ nl ++ "10 5" ++ nl.

(** ["0 0\n500 10\n540 10\n100 20\n130 20\n"]: a level stretch from
    column 500 to 540, then one from column 100 to 130. *)
Definition two_plateaus_file : string :=
  "0 0" ++ nl ++ "500 10" ++ nl ++ "540 10" ++ nl ++ "100 20" ++ nl
  ++ "130 20" ++ nl.

(** ["0 0\n899 5\n"]: the last vertex is in the last column, with another
    [Y] than the first. *)
Definition closing_cliff_file : string := "0 0" ++ nl ++ "899 5" ++ nl.

Definition zeros : array := fun _ => Float32.zero.

(** [1.5f] *)
Definition one_and_a_half : spec_float := S754_finite false 12582912 (-23).

Definition lander_at (X Y : Z) (horVelocity vertVelocity : spec_float)
  : Lander.t :=
  Lander.mk (Float32.of_int X) (Float32.of_int Y) X Y LANDER_LENGTH 25
            vertVelocity horVelocity.

Definition state_of (l : Lander.t) (flats : list Flat.t) (heightMap : list Z)
  (score fuel : Z) : GameState.t :=
  GameState.mk l LEVEL_WIDTH 500 (Terrain.mk [] flats heightMap) 0 0 score fuel.

(** Flat ground at height 100 everywhere; the lander touches it at column
    100, moving sideways at speed 1.5. *)
Definition fast_touchdown : GameState.t :=
  state_of (lander_at 100 100 one_and_a_half Float32.zero) []
           (repeat 100 900) 0 FUEL_START.

(** Terrain of height 10 in column 0 and 0 elsewhere; the lander's [X] is
    [levelWidth] itself, at height 5. *)
Definition beyond_the_edge : GameState.t :=
  state_of (lander_at 900 5 Float32.zero Float32.zero) []
           (10 :: repeat 0 899) 0 FUEL_START.

(** A lander at column 100, over the second of three strips (columns 90 to
    122, score modifier 4), with a score of 300. *)
Definition landed_on_strip : GameState.t :=
  state_of (lander_at 100 50 Float32.zero Float32.zero)
           [Flat.mk 10 50 24 5; Flat.mk 90 50 32 4; Flat.mk 200 50 24 5]
           (repeat 50 900) 300 FUEL_START.

(** A lander on the one strip (columns 90 to 122, score modifier 4), at
    rest, with a score of 65300. *)
Definition high_score_landing : GameState.t :=
  state_of (lander_at 100 50 Float32.zero Float32.zero)
           [Flat.mk 90 50 32 4] (repeat 50 900) 65300 FUEL_START.

(** A lander with 150 units of fuel left. *)
Definition low_on_fuel : GameState.t :=
  state_of (lander_at 100 50 one_and_a_half Float32.zero) []
           (repeat 50 900) 300 150.

(** ** The rest of the game: clock, keys, resets, labels and clean-up *)

(** *** More machine types and constants *)

(** [(int) u] for a [Uint32] [u] and [(Sint16) i] for an [int] [i]: the
    value modulo the width, read as a signed number. *)
Definition to_int32 (z : Z) : Z :=
  (z + 2147483648) mod 4294967296 - 2147483648.
Definition to_Sint16 (z : Z) : Z := (z + 32768) mod 65536 - 32768.

Module Double.
Definition of_int (z : Z) : spec_float :=
  binary_normalize Float64.prec Float64.emax z 0 false.
Definition add : spec_float -> spec_float -> spec_float :=
  SFadd Float64.prec Float64.emax.
Definition sub : spec_float -> spec_float -> spec_float :=
  SFsub Float64.prec Float64.emax.
(** The [double] nearest to the decimal [n / d] with which a constant such
    as [0.04] is written. *)
Definition of_ratio (n d : Z) : spec_float :=
  SFdiv Float64.prec Float64.emax (of_int n) (of_int d).
(** [(float) d], rounded to nearest. *)
Definition to_float (d : spec_float) : spec_float :=
  match d with
  | S754_finite s m e =>
      binary_normalize Float32.prec Float32.emax (cond_Zopp s (Zpos m)) e s
  | _ => d
  end.
End Double.

Definition WINDOW_WIDTH : Z := 900.
Definition WINDOW_HEIGHT : Z := 500.
Definition LEVEL_HEIGHT : Z := 500.
Definition LANDER_HEIGHT : Z := 25.
Definition LANDER_X_START : Z := 100.
Definition LANDER_Y_START : Z := 375.
Definition LANDER_VX_START : Z := 0.
Definition LANDER_VY_START : Z := 0.
Definition UP_THRUST_POWER : spec_float := Double.of_ratio 4 100.
Definition LEFT_THRUST_POWER : spec_float := Double.of_ratio 1 10.
Definition RIGHT_THRUST_POWER : spec_float := Double.of_ratio 1 10.
Definition THRUST_FUEL_COST : Z := 1.
Definition TEXT_Y_DELTA : Z := 12.
Definition SCORE_MOD_FLASH_TIME : Z := 500.

(** *** The clock and the altitude ([getMinutes], [getSeconds],
    [getAltitude]) *)

Definition getMinutes (state : GameState.t) : Z :=
  let t := to_int32 (GameState.timeElapsed state) in
  let t := Z.quot t 60000 in
  Z.rem t 100.

Definition getSeconds (state : GameState.t) : Z :=
  let t := to_int32 (GameState.timeElapsed state) in
  let t := Z.quot t 1000 in
  Z.rem t 60.

Definition getAltitude (state : GameState.t) : Z :=
  let l := GameState.lander state in
  let middleX :=
    Z.rem (Lander.X l + Z.quot (Lander.length l) 2)
          (GameState.levelWidth state) in
  Lander.Y l - heightAt (Terrain.heightMap (GameState.terrain state)) middleX.

(** *** Keys and events ([handleKey], [handleEvents]) *)

Inductive Key : Type := SDLK_UP | SDLK_RIGHT | SDLK_LEFT | SDLK_other.
Inductive Event : Type := SDL_QUIT | SDL_KEYDOWN (sym : Key) | SDL_other.

Definition set_lander (l : Lander.t) (s : GameState.t) : GameState.t :=
  GameState.mk l (GameState.levelWidth s) (GameState.levelHeight s)
    (GameState.terrain s) (GameState.timeStart s) (GameState.timeElapsed s)
    (GameState.score s) (GameState.fuel s).

Definition set_vertVelocity (v : spec_float) (l : Lander.t) : Lander.t :=
  Lander.mk (Lander.realX l) (Lander.realY l) (Lander.X l) (Lander.Y l)
    (Lander.length l) (Lander.height l) v (Lander.horVelocity l).

Definition set_horVelocity (v : spec_float) (l : Lander.t) : Lander.t :=
  Lander.mk (Lander.realX l) (Lander.realY l) (Lander.X l) (Lander.Y l)
    (Lander.length l) (Lander.height l) (Lander.vertVelocity l) v.

(** [v += power] and [v -= power] on a [float] [v] with a [double]
    constant: the operation is done on [double]s and stored as a [float]. *)
Definition float_plus_double (v power : spec_float) : spec_float :=
  Double.to_float (Double.add (Float64.of_float v) power).
Definition float_minus_double (v power : spec_float) : spec_float :=
  Double.to_float (Double.sub (Float64.of_float v) power).

(** The block shared by the three arrow keys: when there is fuel, change the
    velocity, take the fuel and play the thrust sound (the second component
    counts the sounds played). *)
Definition thrust (change : Lander.t -> Lander.t) (state : GameState.t)
  : GameState.t * nat :=
  if GameState.fuel state >=? THRUST_FUEL_COST then
    (GameState.set_fuel
       (to_Uint16 (GameState.fuel state - THRUST_FUEL_COST))
       (set_lander (change (GameState.lander state)) state),
     1%nat)
  else (state, 0%nat).

Definition handleKey (state : GameState.t) (sym : Key) : GameState.t * nat :=
  match sym with
  | SDLK_UP =>
      thrust (fun l => set_vertVelocity
                         (float_plus_double (Lander.vertVelocity l)
                                            UP_THRUST_POWER) l) state
  | SDLK_RIGHT =>
      thrust (fun l => set_horVelocity
                         (float_minus_double (Lander.horVelocity l)
                                             RIGHT_THRUST_POWER) l) state
  | SDLK_LEFT =>
      thrust (fun l => set_horVelocity
                         (float_plus_double (Lander.horVelocity l)
                                            LEFT_THRUST_POWER) l) state
  | SDLK_other => (state, 0%nat)
  end.

(** What [handleEvents] leaves: the flag [run], the state, the events still
    in the queue, and the number of thrust sounds played. *)
Record handled : Type := mkHandled {
  run : bool;
  after : GameState.t;
  pending : list Event;
  thrusts : nat
}.

(** [queue] holds the events [SDL_PollEvent] will hand out, in order. *)
Fixpoint handleEvents_loop (queue : list Event) (state : GameState.t)
  (sounds : nat) : handled :=
  match queue with
  | [] => mkHandled true state [] sounds
  | SDL_QUIT :: queue' => mkHandled false state queue' sounds
  | SDL_KEYDOWN sym :: queue' =>
      let '(state', n) := handleKey state sym in
      handleEvents_loop queue' state' (sounds + n)
  | SDL_other :: queue' => handleEvents_loop queue' state sounds
  end.

Definition handleEvents (queue : list Event) (state : GameState.t) : handled :=
  handleEvents_loop queue state 0.

(** *** The focus point and the resets ([hardReset], [softReset]) *)

(** The fields of [GameState] that place the window on the level. *)
Module Camera.
Record t : Type := mk {
  focusPointX : Z;
  focusPointY : Z;
  realFocusPointX : spec_float;
  realFocusPointY : spec_float
}.
End Camera.

(** The game: the fields of [GameState.t] together with the focus point. *)
Definition game : Type := (GameState.t * Camera.t)%type.

(** The lander and the focus point as both resets leave them. *)
Definition respawned_lander : Lander.t :=
  let realX := Float32.of_int LANDER_X_START in
  let realY := Float32.of_int LANDER_Y_START in
  Lander.mk realX realY
    (to_Uint16 (Float64.to_int realX)) (to_Uint16 (Float64.to_int realY))
    LANDER_LENGTH LANDER_HEIGHT
    (Float32.of_int LANDER_VY_START) (Float32.of_int LANDER_VX_START).

Definition reset_camera : Camera.t :=
  let realFocusPointX := Float32.of_int 0 in
  let realFocusPointY := Float32.of_int WINDOW_HEIGHT in
  Camera.mk (to_Sint16 (Float64.to_int realFocusPointX))
            (to_Uint16 (Float64.to_int realFocusPointY))
            realFocusPointX realFocusPointY.

Definition hardReset (g : game) : game :=
  let s := fst g in
  (GameState.mk respawned_lander (GameState.levelWidth s)
     (GameState.levelHeight s) (GameState.terrain s)
     (to_Uint32 (-1)) 0 0 FUEL_START,
   reset_camera).

Definition softReset (g : game) : game :=
  (set_lander respawned_lander (fst g), reset_camera).

(** The part of [initializeGameState] after the terrain is built. *)
Definition initial_game (terrain : Terrain.t) : game :=
  (GameState.mk
     (Lander.mk (Float32.of_int LANDER_X_START) (Float32.of_int LANDER_Y_START)
        (to_Uint16 LANDER_X_START) (to_Uint16 LANDER_Y_START)
        LANDER_LENGTH LANDER_HEIGHT
        (Float32.of_int LANDER_VY_START) (Float32.of_int LANDER_VX_START))
     LEVEL_WIDTH LEVEL_HEIGHT terrain (to_Uint32 (-1)) 0 0 FUEL_START,
   Camera.mk (to_Sint16 0) (to_Uint16 WINDOW_HEIGHT)
             (Float32.of_int 0) (Float32.of_int WINDOW_HEIGHT)).

Definition initializeGameState (fileName : string)
  (fHeightMap0 slopeMap0 : array) : outcome game :=
  terrain <- buildTerrain fileName LEVEL_WIDTH fHeightMap0 slopeMap0 ;;
  Ok (initial_game terrain).

(** The collision block of the loop of [main]: the check, then
    [applyCollision], then one of the two resets.  The result carries the
    contents of the [landingType] variable of [main]. *)
Definition resolve_collision (timeWaiting : Z) (g : game) (landingType : Z)
  : game :=
  let s := applyCollision timeWaiting (fst g) landingType in
  if gameOver s then hardReset (s, snd g) else softReset (s, snd g).

Definition collision_block (timeWaiting : Z) (g : game) (landingType0 : Z)
  : game * Z :=
  let d := collisionDetected (fst g) landingType0 in
  if detected d
  then (resolve_collision timeWaiting g (landingType d), landingType d)
  else (g, landingType d).

(** *** The score labels ([drawScoreModifiers]) *)

(** A label: where it is drawn and the modifier printed after the [x]. *)
Record label : Type := mkLabel { drawX : Z; drawY : Z; shown : Z }.

Fixpoint score_labels (g : game) (current : list Flat.t) : list label :=
  match current with
  | [] => []
  | f :: next =>
      if Flat.scoreModifier f >? 0 then
        let drawX :=
          Flat.X f + Z.quot (Flat.length f) 2 - 8
          - Camera.focusPointX (snd g) in
        let drawX :=
          if drawX <? 0 then drawX + GameState.levelWidth (fst g)
          else drawX in
        let drawY :=
          Camera.focusPointY (snd g) - (Flat.Y f - TEXT_Y_DELTA) in
        mkLabel drawX drawY (Flat.scoreModifier f) :: score_labels g next
      else score_labels g next
  end.

Definition drawScoreModifiers (g : game) : list label :=
  if GameState.timeElapsed (fst g) mod (SCORE_MOD_FLASH_TIME * 2)
     <? SCORE_MOD_FLASH_TIME
  then score_labels g (Terrain.firstFlat (GameState.terrain (fst g)))
  else [].

(** *** Releasing the lists ([freeVertexList], [freeFlatList],
    [cleanAndExit]) *)

(** Both return the nodes they free; the first node is static and is never
    freed.  [freeVertexList] reads [first->next->next] without a test, so it
    faults on a list of one vertex; [freeFlatList] reads [first->next], so it
    faults on [NULL], the empty list. *)
Definition freeVertexList (first : list Vertex.t)
  : outcome (list Vertex.t) :=
  match first with
  | [] => Crash
  | _ :: [] => Crash
  | _ :: rest => Ok rest
  end.

Definition freeFlatList (first : list Flat.t) : outcome (list Flat.t) :=
  match first with
  | [] => Crash
  | _ :: rest => Ok rest
  end.

(** The two lists are released, then the process exits with the code. *)
Definition cleanAndExit (terrain : Terrain.t) (errorCode : Z) : outcome unit :=
  _ <- freeVertexList (Terrain.firstVertex terrain) ;;
  _ <- freeFlatList (Terrain.firstFlat terrain) ;;
  Exit errorCode.

(** ** The pairs of a file and the list they stand for *)

(** The pairs the successive calls of [fscanf] return. *)
Fixpoint scan_pairs (fuel : nat) (file : string) : list (Z * Z) :=
  match fuel with
  | O => []
  | S fuel' =>
      match fscanf_d_d file with
      | Some (X, Y, file') => (X, Y) :: scan_pairs fuel' file'
      | None => []
      end
  end.

Definition pairs_of_file (file : string) : list (Z * Z) :=
  scan_pairs (S (String.length file)) file.

(** The reading loop on the pairs. *)
Fixpoint read_pairs (levelWidth : Z) (pairs : list (Z * Z)) (st : read_state)
  : outcome read_state :=
  match pairs with
  | [] => Ok st
  | (X, Y) :: pairs' =>
      st' <- read_vertex levelWidth st X Y ;;
      read_pairs levelWidth pairs' st'
  end.

(** A pair the loop lets through: coordinates not negative, [X] below the
    width and not below the [X] of the first pair. *)
Definition pair_passes (levelWidth firstX : Z) (p : Z * Z) : bool :=
  (0 <=? fst p) && (0 <=? snd p) && (fst p <? levelWidth)
  && (firstX <=? fst p).

Definition vertex_of_pair (p : Z * Z) : Vertex.t := Vertex.mk (fst p) (snd p).

(** The vertex list for the pairs of an accepted file: a leading (0,0) when
    the first pair is not in column 0, the pairs in file order, and the
    closing vertex when the last pair is not in the last column at the
    height of the first vertex. *)
Definition vertices_of_pairs (levelWidth : Z) (pairs : list (Z * Z))
  : list Vertex.t :=
  match pairs with
  | [] => []
  | p0 :: _ =>
      let body :=
        (if fst p0 =? 0 then [] else [Vertex.mk 0 0])
        ++ map vertex_of_pair pairs in
      let firstY := if fst p0 =? 0 then snd p0 else 0 in
      let pl := last pairs p0 in
      if negb (fst pl =? levelWidth - 1) || negb (snd pl =? firstY)
      then body ++ [Vertex.mk (levelWidth - 1) firstY]
      else body
  end.

(** The last two vertices of the list are in the same column. *)
Fixpoint ends_with_vertical_run (current : Vertex.t) (rest : list Vertex.t)
  : bool :=
  match rest with
  | [] => false
  | next :: rest' =>
      match rest' with
      | [] => Vertex.X current =? Vertex.X next
      | _ => ends_with_vertical_run next rest'
      end
  end.

Definition list_ends_with_vertical_run (vs : list Vertex.t) : bool :=
  match vs with
  | [] => false
  | first :: rest => ends_with_vertical_run first rest
  end.

(** ** Events and vertices, counted *)

(** The events [handleEvents] takes from the queue ahead of the first
    [SDL_QUIT], and the events behind that [SDL_QUIT]. *)
Fixpoint before_quit (queue : list Event) : list Event :=
  match queue with
  | [] => []
  | SDL_QUIT :: _ => []
  | e :: queue' => e :: before_quit queue'
  end.

Fixpoint after_quit (queue : list Event) : list Event :=
  match queue with
  | [] => []
  | SDL_QUIT :: queue' => queue'
  | _ :: queue' => after_quit queue'
  end.

Definition is_quit (e : Event) : bool :=
  match e with SDL_QUIT => true | _ => false end.

(** A press of one of the three arrow keys. *)
Definition is_arrow (e : Event) : bool :=
  match e with
  | SDL_KEYDOWN SDLK_UP | SDL_KEYDOWN SDLK_RIGHT | SDL_KEYDOWN SDLK_LEFT => true
  | _ => false
  end.

Definition arrows_before_quit (queue : list Event) : Z :=
  Z.of_nat (List.length (filter is_arrow (before_quit queue))).

(** Two vertices next to each other in the list have the same [Y]. *)
Fixpoint level_pair_from (current : Vertex.t) (rest : list Vertex.t) : bool :=
  match rest with
  | [] => false
  | next :: rest' =>
      (Vertex.Y current =? Vertex.Y next) || level_pair_from next rest'
  end.

Definition has_level_pair (vs : list Vertex.t) : bool :=
  match vs with
  | [] => false
  | first :: rest => level_pair_from first rest
  end.

(** *** The outline of the terrain ([drawTerrain]) *)

Module Int.
Definition max (first second : Z) : Z :=
  if first >=? second then first else second.
End Int.

(** A line handed to [SDL_RenderDrawLine], by its end points in window
    coordinates. *)
Record line : Type := mkLine { x1 : Z; y1 : Z; x2 : Z; y2 : Z }.

(** The line from [prev] to [current]; [shift] is 0 in the first drawing
    loop and [levelWidth] in the second. *)
Definition line_between (g : game) (shift : Z) (prev current : Vertex.t)
  : line :=
  mkLine (Vertex.X prev - Camera.focusPointX (snd g) + shift)
         (Camera.focusPointY (snd g) - Vertex.Y prev)
         (Vertex.X current - Camera.focusPointX (snd g) + shift)
         (Camera.focusPointY (snd g) - Vertex.Y current).

(** The first loop: past the vertices whose [X] is not beyond the focus
    point; [prev] is [None] for [NULL]. *)
Fixpoint drawTerrain_skip (focusPointX : Z) (prev : option Vertex.t)
  (current : list Vertex.t) : option Vertex.t * list Vertex.t :=
  match current with
  | [] => (prev, [])
  | c :: next =>
      if Vertex.X c <=? focusPointX
      then drawTerrain_skip focusPointX (Some c) next
      else (prev, current)
  end.

(** The two drawing loops: a line from [prev] to [current] as long as there
    is a [current] and [goes_on prev] holds. *)
Fixpoint drawTerrain_lines (g : game) (shift : Z) (goes_on : Vertex.t -> bool)
  (prev : Vertex.t) (current : list Vertex.t) : list line :=
  match current with
  | [] => []
  | c :: next =>
      if goes_on prev
      then line_between g shift prev c
           :: drawTerrain_lines g shift goes_on c next
      else []
  end.

(** The lines drawn, in order.  A level of width 0, with which the [%]
    faults, is given the outcome [Crash].  ([firstVertex] is not empty once
    the first loop has stopped at a vertex.) *)
Definition drawTerrain (g : game) : outcome (list line) :=
  let state := fst g in
  let focusPointX := Camera.focusPointX (snd g) in
  let firstVertex := Terrain.firstVertex (GameState.terrain state) in
  match drawTerrain_skip focusPointX None firstVertex, firstVertex with
  | (_, []), _ => Ok []
  | _, [] => Ok []
  | (prev, current), first :: after_first =>
      let prev := match prev with Some p => p | None => first end in
      let rightEdge :=
        Int.max (focusPointX + WINDOW_WIDTH) (GameState.levelWidth state) in
      let lines :=
        drawTerrain_lines g 0 (fun p => Vertex.X p <=? rightEdge)
                          prev current in
      if GameState.levelWidth state =? 0 then Crash
      else
        let rightEdge :=
          Z.rem (focusPointX + WINDOW_WIDTH) (GameState.levelWidth state) in
        if rightEdge <=? focusPointX
        then Ok (lines
                 ++ drawTerrain_lines g (GameState.levelWidth state)
                      (fun p => Vertex.X p <? rightEdge) first after_first)
        else Ok lines
  end.

(** One line for each pair of neighbours, in window coordinates for a focus
    point in column 0. *)
Fixpoint outline (focusPointY : Z) (prev : Vertex.t)
  (current : list Vertex.t) : list line :=
  match current with
  | [] => []
  | c :: next =>
      mkLine (Vertex.X prev) (focusPointY - Vertex.Y prev)
             (Vertex.X c) (focusPointY - Vertex.Y c)
      :: outline focusPointY c next
  end.

(** ** Small integers as floats *)

(** The [int] [y], converted to [float], is zero or positive, reads back as
    [y] once rounded up and stored as a [Uint16], and divides 0 into the
    slope +0 (when it is not 0 itself). *)
Definition exact_as_float (y : Z) : bool :=
  match Float32.of_int y with
  | S754_zero false => y =? 0
  | S754_finite false _ _ =>
      (to_Uint16 (Float64.ceil (Float64.of_float (Float32.of_int y))) =? y)
      && match Float32.div (Float32.of_int 0) (Float32.of_int y) with
         | S754_zero false => true
         | _ => false
         end
  | _ => false
  end.

(** * Properties *)

(** ** Machine integers *)

Lemma to_Uint16_id (z : Z) : is_Uint16 z -> to_Uint16 z = z.
Proof. unfold is_Uint16, to_Uint16. intros H. apply Z.mod_small. exact H. Qed.

Lemma to_Uint16_range (z : Z) : is_Uint16 (to_Uint16 z).
Proof. unfold is_Uint16, to_Uint16. apply Z.mod_pos_bound. lia. Qed.

(** ** Score tiers *)

(** What the code stores, on the whole range of a [Uint16] length: the
    specification's tier below 72, and 0 from 72 on, where the difference
    [5 - (length - 24) / 8] is negative and wraps around before the clamps. *)
Lemma scoreModifier_of_length_cases (length : Z) :
  is_Uint16 length ->
  scoreModifier_of_length length
  = if length <? 72 then tier_of_spec length else 0.
Proof.
  unfold is_Uint16, scoreModifier_of_length, tier_of_spec, to_Uint16,
    FLAT_LAND_BASE, FLAT_LAND_INCREMENT, TOP_SCORE_TIER.
  intros H. rewrite !Z.gtb_ltb.
  destruct (Z.ltb_spec length 24) as [E24|E24].
  - destruct (Z.ltb_spec length 72); [reflexivity | lia].
  - rewrite Z.quot_div_nonneg by lia.
    pose proof (Z.div_mod (length - 24) 8 ltac:(lia)) as Hdm.
    pose proof (Z.mod_pos_bound (length - 24) 8 ltac:(lia)) as Hm.
    set (q := (length - 24) / 8) in *.
    destruct (Z.ltb_spec length 72) as [E72|E72].
    + rewrite (Z.mod_small (5 - q) 65536) by lia.
      destruct (Z.ltb_spec (5 - q) 1).
      * change (5 <? 1) with false. cbv iota. lia.
      * destruct (Z.ltb_spec 5 (5 - q)); lia.
    + replace ((5 - q) mod 65536) with (65541 - q)
        by (apply (Z.mod_unique (5 - q) 65536 (-1)); lia).
      destruct (Z.ltb_spec (65541 - q) 1); [lia|].
      destruct (Z.ltb_spec 5 (65541 - q)); [reflexivity | lia].
Qed.

Lemma scoreModifier_of_length_bounds (length : Z) :
  is_Uint16 length -> 0 <= scoreModifier_of_length length <= 5.
Proof.
  intros H. rewrite scoreModifier_of_length_cases by exact H.
  unfold tier_of_spec.
  destruct (length <? 72) eqn:E72; [|lia].
  destruct (length <? 24) eqn:E24; [lia|].
  apply Z.ltb_lt in E72. apply Z.ltb_ge in E24.
  pose proof (Z.div_pos (length - 24) 8 ltac:(lia) ltac:(lia)).
  lia.
Qed.

(** Every strip found runs from a vertex to a later one, starts at or after
    the vertex the search started from, and the strips come in the order of
    their [X] when the vertices do. *)
Lemma findLandingStrips_from_spec (n : nat) :
  forall (rest : list Vertex.t) (current : Vertex.t),
  (List.length rest <= n)%nat ->
  Forall (fun f => exists a b, f = make_flat a b)
         (findLandingStrips_from current rest)
  /\ (vertices_in_order (current :: rest) ->
      Forall (fun f => Vertex.X current <= Flat.X f)
             (findLandingStrips_from current rest)
      /\ flats_in_order (findLandingStrips_from current rest)).
Proof.
  induction n as [|n IH]; intros rest current Hlen.
  - destruct rest; [|cbn [List.length] in Hlen; lia].
    cbn [findLandingStrips_from]. repeat split; constructor.
  - destruct rest as [|next rest1].
    + cbn [findLandingStrips_from]. repeat split; constructor.
    + cbn [List.length] in Hlen. cbn [findLandingStrips_from].
      destruct (Vertex.Y current =? Vertex.Y next).
      * assert (Hscan : forall (r : list Vertex.t) (end_ : Vertex.t),
                 (List.length r <= n)%nat ->
                 let fs :=
                   (fix scan (end_ : Vertex.t) (r : list Vertex.t) {struct r}
                      : list Flat.t :=
                      match r with
                      | [] => [make_flat current end_]
                      | n0 :: r' =>
                          if Vertex.Y n0 =? Vertex.Y end_ then scan n0 r'
                          else make_flat current end_
                               :: findLandingStrips_from end_ r
                      end) end_ r in
                 Forall (fun f => exists a b, f = make_flat a b) fs
                 /\ (Vertex.X current <= Vertex.X end_ ->
                     vertices_in_order (end_ :: r) ->
                     Forall (fun f => Vertex.X current <= Flat.X f) fs
                     /\ flats_in_order fs)).
        { induction r as [|n0 r' IHr]; intros end_ Hr; cbv zeta.
          - split; [repeat constructor; eauto|].
            intros _ _. split; repeat constructor. cbn. lia.
          - destruct (Vertex.Y n0 =? Vertex.Y end_).
            + cbn [List.length] in Hr.
              destruct (IHr n0 ltac:(lia)) as [H1 H2]. split; [exact H1|].
              intros Hle Hord. apply StronglySorted_inv in Hord as [Hord' Hall].
              apply Forall_inv in Hall. apply H2; [lia|exact Hord'].
            + destruct (IH (n0 :: r') end_ Hr) as [H1 H2].
              split; [constructor; [eauto|exact H1]|].
              intros Hle Hord. destruct (H2 Hord) as [H3 H4].
              assert (H5 : Forall (fun f => Vertex.X current <= Flat.X f)
                             (findLandingStrips_from end_ (n0 :: r'))).
              { eapply Forall_impl; [|exact H3]. cbn beta. intros f Hf. lia. }
              split.
              * constructor; [cbn; lia|exact H5].
              * constructor; [exact H4|exact H5]. }
        destruct (Hscan rest1 next ltac:(lia)) as [H1 H2].
        split; [exact H1|].
        intros Hord. apply StronglySorted_inv in Hord as [Hord' Hall].
        apply Forall_inv in Hall. apply H2; [lia|exact Hord'].
      * destruct (IH rest1 next ltac:(lia)) as [H1 H2]. split; [exact H1|].
        intros Hord. apply StronglySorted_inv in Hord as [Hord' Hall].
        apply Forall_inv in Hall. destruct (H2 Hord') as [H3 H4].
        split; [|exact H4].
        eapply Forall_impl; [|exact H3]. cbn beta. intros f Hf. lia.
Qed.

(** On a vertex list that is not [NULL], [firstFlat] ends up with the
    strips found, or with [NULL]. *)
Lemma findLandingStrips_cases (first : Vertex.t) (rest : list Vertex.t) :
  findLandingStrips (first :: rest) = findLandingStrips_from first rest
  \/ findLandingStrips (first :: rest) = [].
Proof.
  unfold findLandingStrips. cbv zeta.
  destruct (Flat.X _ =? -1); [right|left]; reflexivity.
Qed.

Lemma findLandingStrips_in_order (vs : list Vertex.t) :
  vertices_in_order vs -> flats_in_order (findLandingStrips vs).
Proof.
  destruct vs as [|first rest]; [intros _; repeat constructor|].
  intros H.
  destruct (findLandingStrips_cases first rest) as [-> | ->]; [|constructor].
  apply (findLandingStrips_from_spec (List.length rest) rest first
           (Nat.le_refl _)), H.
Qed.

Lemma findLandingStrips_tiers (vs : list Vertex.t) :
  vs <> [] ->
  Forall (fun f => is_Uint16 (Flat.length f)
                   /\ Flat.scoreModifier f
                      = (if Flat.length f <? 72
                         then tier_of_spec (Flat.length f) else 0)
                   /\ 0 <= Flat.scoreModifier f <= 5)
         (findLandingStrips vs).
Proof.
  destruct vs as [|first rest]; [intros H; contradiction|]. intros _.
  destruct (findLandingStrips_cases first rest) as [-> | ->]; [|constructor].
  destruct (findLandingStrips_from_spec (List.length rest) rest first
              (Nat.le_refl _)) as [H _].
  eapply Forall_impl; [|exact H]. cbn beta.
  intros f [a [b ->]]. unfold make_flat. cbn [Flat.length Flat.scoreModifier].
  pose proof (to_Uint16_range (Vertex.X b - Vertex.X a)) as Hr.
  split; [exact Hr|split].
  - apply scoreModifier_of_length_cases, Hr.
  - apply scoreModifier_of_length_bounds, Hr.
Qed.

(** C1. The file ["0 0\n72 0\n100 50\n"] is read as the vertices (0,0),
    (72,0), (100,50), (899,0); its one strip, from (0,0) to (72,0), has
    length 72, for which the specification's tier is 1, and the code stores
    the score modifier 0. *)
Theorem strip_of_length_72_scores_zero :
  readVertexList strip72_file 900
  = Ok [Vertex.mk 0 0; Vertex.mk 72 0; Vertex.mk 100 50; Vertex.mk 899 0]
  /\ findLandingStrips
       [Vertex.mk 0 0; Vertex.mk 72 0; Vertex.mk 100 50; Vertex.mk 899 0]
     = [Flat.mk 0 0 72 0]
  /\ tier_of_spec 72 = 1.
Proof. repeat split; vm_compute; reflexivity. Qed.

(** ** Reading the file *)

(** Each successful call of [fscanf] consumes at least one character, so
    the reading loop ends before its fuel does. *)
Lemma skip_space_length (s : string) :
  (String.length (skip_space s) <= String.length s)%nat.
Proof.
  induction s as [|c s IH]; cbn [skip_space String.length].
  - apply Nat.le_refl.
  - destruct (isspace c); cbn [String.length]; [|apply Nat.le_refl].
    apply Nat.le_trans with (String.length s); [exact IH|apply Nat.le_succ_diag_r].
Qed.

Lemma scan_digits_length (s : string) : forall acc : Z,
  (String.length (snd (scan_digits acc s)) <= String.length s)%nat.
Proof.
  induction s as [|c s IH]; intros acc; cbn [scan_digits].
  - apply Nat.le_refl.
  - destruct (digit_of c); cbn [snd String.length]; [|apply Nat.le_refl].
    apply Nat.le_trans with (String.length s); [apply IH|apply Nat.le_succ_diag_r].
Qed.

Lemma scan_unsigned_length (s r : string) (n : Z) :
  scan_unsigned s = Some (n, r) ->
  (String.length r < String.length s)%nat.
Proof.
  destruct s as [|c s]; cbn [scan_unsigned]; [discriminate|].
  destruct (digit_of c) as [d|]; [|discriminate].
  intros [= H]. pose proof (scan_digits_length s d) as Hl.
  rewrite H in Hl. cbn [snd String.length] in *. apply Nat.lt_succ_r, Hl.
Qed.

Lemma scan_d_length (s r : string) (n : Z) :
  scan_d s = Some (n, r) -> (String.length r < String.length s)%nat.
Proof.
  unfold scan_d. pose proof (skip_space_length s) as Hs.
  destruct (skip_space s) as [|c s']; [discriminate|].
  cbn [String.length] in Hs.
  destruct (Ascii.eqb c "-").
  - destruct (scan_unsigned s') as [[m r']|] eqn:E; [|discriminate].
    intros [= _ <-]. apply scan_unsigned_length in E. lia.
  - destruct (Ascii.eqb c "+"); intros E; apply scan_unsigned_length in E;
      cbn [String.length] in E; lia.
Qed.

Lemma fscanf_d_d_length (s s' : string) (x y : Z) :
  fscanf_d_d s = Some (x, y, s') ->
  (String.length s' < String.length s)%nat.
Proof.
  unfold fscanf_d_d.
  destruct (scan_d s) as [[x1 s1]|] eqn:E1; [|discriminate].
  destruct (scan_d (skip_space s1)) as [[y1 s2]|] eqn:E2; [|discriminate].
  intros [= _ _ <-].
  apply scan_d_length in E1. apply scan_d_length in E2.
  pose proof (skip_space_length s1). pose proof (skip_space_length s2). lia.
Qed.

Lemma read_loop_fuel (levelWidth : Z) (fuel : nat) :
  forall (fuel' : nat) (file : string) (st : read_state),
  (String.length file < fuel)%nat ->
  (String.length file < fuel')%nat ->
  read_loop fuel levelWidth file st = read_loop fuel' levelWidth file st.
Proof.
  induction fuel as [|fuel IH]; intros fuel' file st H H'; [lia|].
  destruct fuel' as [|fuel']; [lia|]. cbn [read_loop].
  destruct (fscanf_d_d file) as [[[X Y] file']|] eqn:E; [|reflexivity].
  apply fscanf_d_d_length in E.
  destruct (read_vertex levelWidth st X Y); cbn [bind]; try reflexivity.
  apply IH; lia.
Qed.

(** The comparison [X < prevX] is made against the [X] of the first vertex
    read: the reading loop assigns [prevX] only while it is still -1. *)
Lemma read_vertex_keeps_prevX (levelWidth prevX X Y : Z)
  (vs vs' : list Vertex.t) (prevX' : Z) :
  prevX <> -1 ->
  read_vertex levelWidth (prevX, vs) X Y = Ok (prevX', vs') ->
  prevX' = prevX /\ vs' = vs ++ [Vertex.mk X Y].
Proof.
  unfold read_vertex. intros Hp.
  destruct ((X <? 0) || (Y <? 0) || (X >=? levelWidth)); [discriminate|].
  destruct (X <? prevX); [discriminate|].
  destruct (Z.eqb_spec prevX (-1)); [contradiction|].
  intros [= <- <-]. split; reflexivity.
Qed.

(** C2. In the file ["5 3\n10 8\n7 2\n"] the third vertex has [X = 7],
    less than the 10 of the vertex before it.  The file is not rejected: it
    is read as the vertices (0,0), (5,3), (10,8), (7,2), (899,0), and a
    terrain is built from them, whatever the scratch arrays contain. *)
Theorem unordered_file_is_accepted (fHeightMap0 slopeMap0 : array) :
  readVertexList unordered_file 900
  = Ok [Vertex.mk 0 0; Vertex.mk 5 3; Vertex.mk 10 8; Vertex.mk 7 2;
        Vertex.mk 899 0]
  /\ exists t : Terrain.t,
       buildTerrain unordered_file 900 fHeightMap0 slopeMap0 = Ok t
       /\ Terrain.firstVertex t
          = [Vertex.mk 0 0; Vertex.mk 5 3; Vertex.mk 10 8; Vertex.mk 7 2;
             Vertex.mk 899 0]
       /\ List.length (Terrain.heightMap t) = 900%nat.
Proof.
  split; [vm_compute; reflexivity|].
  eexists. split; [reflexivity|].
  split; vm_compute; reflexivity.
Qed.

(** ** Collision detection *)

(** C3. On flat ground, a lander that touches the terrain while moving at
    speed 1.5 (the double [getVelocity] returns compares greater than 1) is
    given the landing type 1, a proper landing: [isLandingSpeed] truncates
    the speed to an [int] before comparing it with the threshold. *)
Theorem touchdown_at_speed_1_5_is_a_landing (landingType0 : Z) :
  Float64.ltb Float64.one (getVelocity fast_touchdown) = true
  /\ map (heightAt (Terrain.heightMap (GameState.terrain fast_touchdown)))
         (samples_of_spec fast_touchdown)
     = [100; 100; 100]
  /\ collisionDetected fast_touchdown landingType0
     = mkDetection true 1 [Ding].
Proof. repeat split; vm_compute; reflexivity. Qed.

(** The landing type written by a registered collision. *)
Lemma register_collision_landingType (state : GameState.t)
  (leftX middleX rightX : Z) (withSound : bool) :
  detected (register_collision state leftX middleX rightX withSound) = true
  /\ landingType (register_collision state leftX middleX rightX withSound)
     = if isLandingSpeed state && isFlatLand state leftX middleX rightX
       then 1 else 2.
Proof.
  unfold register_collision.
  destruct (isLandingSpeed state && isFlatLand state leftX middleX rightX);
    split; reflexivity.
Qed.

(** C10. The [landingType] buffer after a call holds what it held before
    the call when the function returns false, and 1 or 2 when it returns
    true; the value 0 is never written. *)
Theorem landingType_buffer_after_call (state : GameState.t) (landingType0 : Z) :
  let r := collisionDetected state landingType0 in
  landingType r
  = if detected r
    then (if isLandingSpeed state
             && isFlatLand state (leftX state) (middleX state) (rightX state)
          then 1 else 2)
    else landingType0.
Proof.
  cbv zeta. unfold collisionDetected.
  destruct (sample_hit state (leftX state));
    [|destruct (sample_hit state (middleX state));
      [|destruct (sample_hit state (rightX state)); [|reflexivity]]].
  all: match goal with
       | |- context [register_collision ?s ?a ?b ?c ?w] =>
           destruct (register_collision_landingType s a b c w) as [-> ->]
       end; reflexivity.
Qed.

(** The middle and right samples are reduced modulo the level width. *)
Lemma middleX_mod (state : GameState.t) :
  0 < GameState.levelWidth state ->
  0 <= Lander.X (GameState.lander state) ->
  0 <= Lander.length (GameState.lander state) ->
  middleX state
  = (Lander.X (GameState.lander state)
     + Lander.length (GameState.lander state) / 2)
    mod GameState.levelWidth state.
Proof.
  intros Hw Hx Hl. unfold middleX, leftX.
  rewrite Z.quot_div_nonneg by lia.
  apply Z.rem_mod_nonneg; [|lia].
  pose proof (Z.div_pos (Lander.length (GameState.lander state)) 2 Hl).
  lia.
Qed.

Lemma rightX_mod (state : GameState.t) :
  0 < GameState.levelWidth state ->
  0 <= Lander.X (GameState.lander state) ->
  0 <= Lander.length (GameState.lander state) ->
  rightX state
  = (Lander.X (GameState.lander state) + Lander.length (GameState.lander state))
    mod GameState.levelWidth state.
Proof.
  intros Hw Hx Hl. unfold rightX, leftX.
  apply Z.rem_mod_nonneg; lia.
Qed.

(** A sample that lies in [0, levelWidth) is hit exactly when the lander is
    at or below the terrain there. *)
Lemma sample_hit_in_range (state : GameState.t) (x : Z) :
  0 <= x < GameState.levelWidth state ->
  sample_hit state x = at_or_below_terrain state x.
Proof.
  intros [H0 Hw]. unfold sample_hit, at_or_below_terrain.
  rewrite Z.geb_leb.
  destruct (Z.leb_spec 0 x); [|lia].
  destruct (Z.ltb_spec x (GameState.levelWidth state)); [|lia].
  reflexivity.
Qed.

(** The left sample is guarded, not reduced.  At [beyond_the_edge] the
    lander's [X] is 900 = [levelWidth], a value the game itself never stores
    there: the code skips the left sample, finds the middle and right ones
    (columns 10 and 20) clear, and reports no collision, where the left
    sample reduced modulo the width would be column 0, under the terrain. *)
Lemma left_sample_beyond_the_edge :
  samples_of_spec beyond_the_edge = [0; 10; 20]
  /\ first_hit_of_spec beyond_the_edge = Some 0
  /\ collisionDetected beyond_the_edge 0 = mkDetection false 0 [].
Proof. repeat split; vm_compute; reflexivity. Qed.

(** For any [lander.X >= 0] the samples are, in this order: the left one,
    [lander.X] itself, consulted only when it is less than [levelWidth]; the
    middle one, [(lander.X + length / 2) mod levelWidth]; the right one,
    [(lander.X + length) mod levelWidth].  The call registers a collision at
    the first of them where [lander.Y <= heightMap[x]], without looking at
    the later ones, and reports none when there is no such sample. *)
Lemma collisionDetected_samples (state : GameState.t) (landingType0 : Z) :
  0 < GameState.levelWidth state ->
  0 <= Lander.X (GameState.lander state) ->
  0 <= Lander.length (GameState.lander state) ->
  collisionDetected state landingType0
  = match find (fun s => at_or_below_terrain state (fst s))
               (samples_of_code state) with
    | Some (_, withSound) =>
        register_collision state (leftX state) (middleX state) (rightX state)
                           withSound
    | None => mkDetection false landingType0 []
    end
  /\ (Lander.X (GameState.lander state) < GameState.levelWidth state ->
      map fst (samples_of_code state) = samples_of_spec state).
Proof.
  intros Hw Hx Hl.
  pose proof (middleX_mod state Hw Hx Hl) as Hm.
  pose proof (rightX_mod state Hw Hx Hl) as Hr.
  assert (Hmr : 0 <= middleX state < GameState.levelWidth state)
    by (rewrite Hm; apply Z.mod_pos_bound; exact Hw).
  assert (Hrr : 0 <= rightX state < GameState.levelWidth state)
    by (rewrite Hr; apply Z.mod_pos_bound; exact Hw).
  split.
  - unfold collisionDetected, samples_of_code.
    rewrite (sample_hit_in_range state (middleX state) Hmr).
    rewrite (sample_hit_in_range state (rightX state) Hrr).
    rewrite <- Hm, <- Hr.
    destruct (Z.ltb_spec (Lander.X (GameState.lander state))
                         (GameState.levelWidth state)) as [Hlt|Hge].
    + rewrite (sample_hit_in_range state (leftX state))
        by (unfold leftX; lia).
      cbn [app find fst]. fold (leftX state).
      destruct (at_or_below_terrain state (leftX state)); [reflexivity|].
      destruct (at_or_below_terrain state (middleX state)); [reflexivity|].
      destruct (at_or_below_terrain state (rightX state)); reflexivity.
    + assert (Hskip : sample_hit state (leftX state) = false).
      { unfold sample_hit, leftX.
        destruct (Z.ltb_spec (Lander.X (GameState.lander state))
                             (GameState.levelWidth state)); [lia|].
        rewrite andb_false_r. reflexivity. }
      rewrite Hskip. cbn [app find fst].
      destruct (at_or_below_terrain state (middleX state)); [reflexivity|].
      destruct (at_or_below_terrain state (rightX state)); reflexivity.
  - intros Hlt. unfold samples_of_code, samples_of_spec.
    destruct (Z.ltb_spec (Lander.X (GameState.lander state))
                         (GameState.levelWidth state)); [|lia].
    cbn [app map fst].
    rewrite (Z.mod_small (Lander.X (GameState.lander state))) by lia.
    reflexivity.
Qed.

(** C4. For a lander inside the level, [0 <= lander.X < levelWidth] (where
    [initializeGameState], the two resets and the wrap-around of [applyTick]
    keep it), the three columns the code computes are those of the
    specification: [lander.X], [lander.X + length / 2] and
    [lander.X + length], each reduced modulo [levelWidth].  The call consults
    them in the order left, middle, right and registers a collision at the
    first one where [lander.Y <= heightMap[x]], whatever the later ones are;
    it reports no collision, and leaves the buffer alone, when there is no
    such sample.  In particular the right sample is read at
    [(lander.X + length) mod levelWidth]. *)
Theorem collision_at_first_of_three_samples (state : GameState.t)
  (landingType0 : Z) :
  0 < GameState.levelWidth state ->
  0 <= Lander.X (GameState.lander state) < GameState.levelWidth state ->
  0 <= Lander.length (GameState.lander state) ->
  samples_of_spec state = [leftX state; middleX state; rightX state]
  /\ collisionDetected state landingType0
     = (if at_or_below_terrain state (leftX state)
        then register_collision state (leftX state) (middleX state)
                                (rightX state) true
        else if at_or_below_terrain state (middleX state)
        then register_collision state (leftX state) (middleX state)
                                (rightX state) true
        else if at_or_below_terrain state (rightX state)
        then register_collision state (leftX state) (middleX state)
                                (rightX state) false
        else mkDetection false landingType0 [])
  /\ (detected (collisionDetected state landingType0) = true
      <-> exists x, first_hit_of_spec state = Some x)
  /\ rightX state
     = (Lander.X (GameState.lander state)
        + Lander.length (GameState.lander state))
       mod GameState.levelWidth state.
Proof.
  intros Hw Hx Hl.
  pose proof (middleX_mod state Hw ltac:(lia) Hl) as Hm.
  pose proof (rightX_mod state Hw ltac:(lia) Hl) as Hr.
  assert (Hlr : 0 <= leftX state < GameState.levelWidth state)
    by (unfold leftX; exact Hx).
  assert (Hmr : 0 <= middleX state < GameState.levelWidth state)
    by (rewrite Hm; apply Z.mod_pos_bound; exact Hw).
  assert (Hrr : 0 <= rightX state < GameState.levelWidth state)
    by (rewrite Hr; apply Z.mod_pos_bound; exact Hw).
  assert (Hsamples : samples_of_spec state
                     = [leftX state; middleX state; rightX state]).
  { unfold samples_of_spec. cbv zeta. rewrite <- Hm, <- Hr.
    rewrite (Z.mod_small (Lander.X (GameState.lander state))) by lia.
    reflexivity. }
  assert (Hcode : collisionDetected state landingType0
     = (if at_or_below_terrain state (leftX state)
        then register_collision state (leftX state) (middleX state)
                                (rightX state) true
        else if at_or_below_terrain state (middleX state)
        then register_collision state (leftX state) (middleX state)
                                (rightX state) true
        else if at_or_below_terrain state (rightX state)
        then register_collision state (leftX state) (middleX state)
                                (rightX state) false
        else mkDetection false landingType0 [])).
  { unfold collisionDetected. cbv zeta.
    rewrite (sample_hit_in_range state (leftX state) Hlr).
    rewrite (sample_hit_in_range state (middleX state) Hmr).
    rewrite (sample_hit_in_range state (rightX state) Hrr).
    reflexivity. }
  split; [exact Hsamples|]. split; [exact Hcode|]. split; [|exact Hr].
  rewrite Hcode. unfold first_hit_of_spec. rewrite Hsamples. cbn [find].
  destruct (at_or_below_terrain state (leftX state));
    [|destruct (at_or_below_terrain state (middleX state));
      [|destruct (at_or_below_terrain state (rightX state))]].
  - split; [intros _; eexists; reflexivity|intros _].
    apply register_collision_landingType.
  - split; [intros _; eexists; reflexivity|intros _].
    apply register_collision_landingType.
  - split; [intros _; eexists; reflexivity|intros _].
    apply register_collision_landingType.
  - split; [discriminate|]. intros [x Hx']. discriminate.
Qed.

Lemma collision_at_first_of_three_samples_witness :
  samples_of_spec landed_on_strip = [100; 110; 120]
  /\ collisionDetected landed_on_strip 7 = mkDetection true 1 [Ding]
  /\ first_hit_of_spec landed_on_strip = Some 100.
Proof.
  destruct (collision_at_first_of_three_samples landed_on_strip 7)
    as [H1 [H2 _]].
  - vm_compute. reflexivity.
  - vm_compute. split; [discriminate|reflexivity].
  - vm_compute. discriminate.
  - split; [rewrite H1; vm_compute; reflexivity|].
    split; [rewrite H2; vm_compute; reflexivity|].
    vm_compute. reflexivity.
Defined.

(** ** Scoring *)

(** The search returns the first strip, in list order, whose right end is
    not left of the lander. *)
Lemma find_flat_first (pre post : list Flat.t) (f : Flat.t) (landerX : Z) :
  Forall (fun g => Flat.X g + Flat.length g < landerX) pre ->
  landerX <= Flat.X f + Flat.length f ->
  find_flat (pre ++ f :: post) landerX = Some f.
Proof.
  intros Hpre Hf. induction Hpre as [|g pre Hg _ IH]; cbn [app find_flat].
  - destruct (Z.ltb_spec (Flat.X f + Flat.length f) landerX); [lia|reflexivity].
  - destruct (Z.ltb_spec (Flat.X g + Flat.length g) landerX); [exact IH|lia].
Qed.

Lemma find_flat_none (flats : list Flat.t) (landerX : Z) :
  Forall (fun g => Flat.X g + Flat.length g < landerX) flats ->
  find_flat flats landerX = None.
Proof.
  intros H. induction H as [|g flats Hg _ IH]; cbn [find_flat].
  - reflexivity.
  - destruct (Z.ltb_spec (Flat.X g + Flat.length g) landerX); [exact IH|lia].
Qed.

(** With landing type 1 (landed), whatever the order of the list, the strip
    selected is the first one of the list whose [X + length] is at least the
    lander's [X]; the score, a [Uint16], is increased by 100 times its score
    modifier modulo 65536; with modifier 0, or with no such strip, the score
    is unchanged.  The fuel is unchanged. *)
Lemma landing_awards_first_matching_strip
  (timeWaiting : Z) (state : GameState.t) :
  is_Uint16 (GameState.score state) ->
  let flats := Terrain.firstFlat (GameState.terrain state) in
  let landerX := Lander.X (GameState.lander state) in
  let state' := applyCollision timeWaiting state 1 in
  (forall (pre post : list Flat.t) (f : Flat.t),
      flats = pre ++ f :: post ->
      Forall (fun g => Flat.X g + Flat.length g < landerX) pre ->
      landerX <= Flat.X f + Flat.length f ->
      GameState.score state'
      = to_Uint16 (GameState.score state + 100 * Flat.scoreModifier f)
      /\ (GameState.score state + 100 * Flat.scoreModifier f < 65536 ->
          0 <= Flat.scoreModifier f ->
          GameState.score state'
          = GameState.score state + 100 * Flat.scoreModifier f)
      /\ (Flat.scoreModifier f = 0 ->
          GameState.score state' = GameState.score state))
  /\ (Forall (fun g => Flat.X g + Flat.length g < landerX) flats ->
      GameState.score state' = GameState.score state)
  /\ GameState.fuel state' = GameState.fuel state.
Proof.
  intros Hs flats landerX state'. subst state'.
  unfold applyCollision. change (1 =? 1) with true. cbv iota.
  fold flats landerX.
  unfold showCollisionMessage, GameState.set_timeStart, GameState.set_score.
  cbn [GameState.score GameState.fuel].
  split; [|split].
  - intros pre post f Hsplit Hpre Hf.
    rewrite Hsplit, (find_flat_first pre post f landerX Hpre Hf).
    unfold SCORE_FOR_LANDING.
    split; [reflexivity|split].
    + intros Hfit Hpos. apply to_Uint16_id. unfold is_Uint16 in *. lia.
    + intros ->. rewrite Z.mul_0_r, Z.add_0_r. apply to_Uint16_id, Hs.
  - intros Hnone. rewrite (find_flat_none flats landerX Hnone).
    rewrite Z.mul_0_r, Z.add_0_r. apply to_Uint16_id, Hs.
  - reflexivity.
Qed.

(** What the search returns: the strip after the longest prefix of strips
    that end left of the lander. *)
Lemma find_flat_spec (flats : list Flat.t) (landerX : Z) :
  match find_flat flats landerX with
  | Some f =>
      exists pre post,
        flats = pre ++ f :: post
        /\ Forall (fun g => Flat.X g + Flat.length g < landerX) pre
        /\ landerX <= Flat.X f + Flat.length f
  | None => Forall (fun g => Flat.X g + Flat.length g < landerX) flats
  end.
Proof.
  induction flats as [|g flats IH]; cbn [find_flat]; [constructor|].
  destruct (Z.ltb_spec (Flat.X g + Flat.length g) landerX) as [Hg|Hg].
  - destruct (find_flat flats landerX) as [f|].
    + destruct IH as [pre [post [-> [Hpre Hf]]]].
      exists (g :: pre), post. repeat split; [constructor; assumption|exact Hf].
    + constructor; assumption.
  - exists [], flats. repeat split; [constructor|exact Hg].
Qed.

Lemma flats_in_order_after (pre post : list Flat.t) (f : Flat.t) :
  flats_in_order (pre ++ f :: post) ->
  Forall (fun g => Flat.X f <= Flat.X g) post.
Proof.
  unfold flats_in_order. induction pre as [|p pre IH]; cbn [app]; intros H.
  - apply StronglySorted_inv in H. apply H.
  - apply StronglySorted_inv in H. apply IH, H.
Qed.

(** C7 (amended). With landing type 1 (landed) and the strips in the order
    of their [X] (as [findLandingStrips] leaves them for a vertex list in
    that order), the strip selected is the first one in that order whose
    [X + length] is at least the lander's [X]: it is a strip of the list with
    that property, and no strip with that property starts left of it.  The
    score, a [Uint16], becomes the sum of the score and 100 times the score
    modifier of that strip, modulo 65536.  With modifier 0, or with no such
    strip, the score is unchanged.  The fuel is unchanged. *)
Theorem landing_awards_first_strip_in_x_order
  (timeWaiting : Z) (state : GameState.t) :
  is_Uint16 (GameState.score state) ->
  flats_in_order (Terrain.firstFlat (GameState.terrain state)) ->
  let flats := Terrain.firstFlat (GameState.terrain state) in
  let landerX := Lander.X (GameState.lander state) in
  let state' := applyCollision timeWaiting state 1 in
  match find_flat flats landerX with
  | Some f =>
      In f flats
      /\ landerX <= Flat.X f + Flat.length f
      /\ (forall g, In g flats -> landerX <= Flat.X g + Flat.length g ->
                    Flat.X f <= Flat.X g)
      /\ GameState.score state'
         = (GameState.score state + 100 * Flat.scoreModifier f) mod 65536
      /\ (Flat.scoreModifier f = 0 ->
          GameState.score state' = GameState.score state)
  | None =>
      (forall g, In g flats -> Flat.X g + Flat.length g < landerX)
      /\ GameState.score state' = GameState.score state
  end
  /\ GameState.fuel state' = GameState.fuel state.
Proof.
  intros Hs Hord flats landerX state'. subst state'.
  unfold applyCollision. change (1 =? 1) with true. cbv iota.
  fold flats landerX.
  unfold showCollisionMessage, GameState.set_timeStart, GameState.set_score.
  cbn [GameState.score GameState.fuel].
  split; [|reflexivity].
  pose proof (find_flat_spec flats landerX) as Hfind.
  destruct (find_flat flats landerX) as [f|].
  - destruct Hfind as [pre [post [Hsplit [Hpre Hf]]]].
    split; [rewrite Hsplit; apply in_or_app; right; left; reflexivity|].
    split; [exact Hf|]. split; [|split].
    + intros g Hg Hreach. rewrite Hsplit in Hg.
      apply in_app_or in Hg. destruct Hg as [Hg|[<-|Hg]].
      * rewrite Forall_forall in Hpre. specialize (Hpre g Hg). lia.
      * lia.
      * fold flats in Hord. rewrite Hsplit in Hord.
        pose proof (flats_in_order_after pre post f Hord) as Hafter.
        rewrite Forall_forall in Hafter. apply Hafter, Hg.
    + reflexivity.
    + intros ->. rewrite Z.mul_0_r, Z.add_0_r. apply to_Uint16_id, Hs.
  - split.
    + intros g Hg. rewrite Forall_forall in Hfind. apply Hfind, Hg.
    + rewrite Z.mul_0_r, Z.add_0_r. apply to_Uint16_id, Hs.
Qed.

Lemma landing_awards_first_strip_in_x_order_witness :
  find_flat (Terrain.firstFlat (GameState.terrain landed_on_strip))
            (Lander.X (GameState.lander landed_on_strip))
  = Some (Flat.mk 90 50 32 4)
  /\ GameState.score (applyCollision 1234 landed_on_strip 1) = 700.
Proof.
  pose proof (landing_awards_first_strip_in_x_order 1234 landed_on_strip)
    as H.
  assert (Hfind : find_flat
                    (Terrain.firstFlat (GameState.terrain landed_on_strip))
                    (Lander.X (GameState.lander landed_on_strip))
                  = Some (Flat.mk 90 50 32 4))
    by (vm_compute; reflexivity).
  cbv zeta in H. rewrite Hfind in H.
  destruct H as [[_ [_ [_ [Hscore _]]]] _].
  - vm_compute. split; [discriminate|reflexivity].
  - repeat (constructor; [|repeat (constructor; [cbn; lia|]); constructor]).
    constructor.
  - split; [exact Hfind|]. rewrite Hscore. vm_compute. reflexivity.
Defined.

(** The file ["0 0\n500 10\n540 10\n100 20\n130 20\n"], which the reader
    lets through, gives the strip that starts in column 500 ahead of the one
    that starts in column 100; for a lander in column 105 the search then
    returns the former, the first of the list. *)
Lemma strips_out_of_x_order :
  readVertexList two_plateaus_file 900
  = Ok [Vertex.mk 0 0; Vertex.mk 500 10; Vertex.mk 540 10; Vertex.mk 100 20;
        Vertex.mk 130 20; Vertex.mk 899 0]
  /\ findLandingStrips
       [Vertex.mk 0 0; Vertex.mk 500 10; Vertex.mk 540 10; Vertex.mk 100 20;
        Vertex.mk 130 20; Vertex.mk 899 0]
     = [Flat.mk 500 10 40 3; Flat.mk 100 20 30 5]
  /\ find_flat [Flat.mk 500 10 40 3; Flat.mk 100 20 30 5] 105
     = Some (Flat.mk 500 10 40 3).
Proof. repeat split; vm_compute; reflexivity. Qed.

(** At [high_score_landing] the lander has landed (landing type 1) on the
    one strip, of score modifier 4, with a score of 65300: the score becomes
    164, not 65700. *)
Lemma landing_award_wraps_the_score :
  collisionDetected high_score_landing 0 = mkDetection true 1 [Ding]
  /\ find_flat (Terrain.firstFlat (GameState.terrain high_score_landing))
               (Lander.X (GameState.lander high_score_landing))
     = Some (Flat.mk 90 50 32 4)
  /\ GameState.score high_score_landing + 100 * 4 = 65700
  /\ GameState.score (applyCollision 0 high_score_landing 1) = 164.
Proof. repeat split; vm_compute; reflexivity. Qed.

(** C8. With landing type 2 (crashed), the fuel, a [Uint16], becomes
    [fuel - 200] modulo 65536: [fuel - 200] from 200 on, and
    [fuel + 65336] below 200.  The score is unchanged.  After that the game
    is over exactly when the fuel is 0 or greater than 1000. *)
Theorem crash_costs_fuel_without_floor
  (timeWaiting : Z) (state : GameState.t) :
  is_Uint16 (GameState.fuel state) ->
  let state' := applyCollision timeWaiting state 2 in
  GameState.fuel state' = (GameState.fuel state - 200) mod 65536
  /\ (200 <= GameState.fuel state ->
      GameState.fuel state' = GameState.fuel state - 200)
  /\ (GameState.fuel state < 200 ->
      GameState.fuel state' = GameState.fuel state + 65336)
  /\ GameState.score state' = GameState.score state
  /\ (gameOver state' = true <->
      GameState.fuel state' = 0 \/ GameState.fuel state' > 1000).
Proof.
  intros Hf state'. subst state'.
  unfold applyCollision. change (2 =? 1) with false. change (2 =? 2) with true.
  cbv iota.
  unfold showCollisionMessage, GameState.set_timeStart, GameState.set_fuel,
    gameOver, to_Uint16, CRASH_FUEL_COST, FUEL_START.
  cbn [GameState.score GameState.fuel].
  unfold is_Uint16 in Hf.
  pose proof (Z.mod_pos_bound (GameState.fuel state - 200) 65536 ltac:(lia))
    as Hb.
  split; [reflexivity|split; [|split; [|split]]].
  - intros H. apply Z.mod_small. lia.
  - intros H. symmetry.
    apply (Z.mod_unique (GameState.fuel state - 200) 65536 (-1)); lia.
  - reflexivity.
  - rewrite Z.gtb_ltb, orb_true_iff, Z.leb_le, Z.ltb_lt. lia.
Qed.

Lemma crash_costs_fuel_without_floor_witness :
  GameState.fuel (applyCollision 1234 low_on_fuel 2) = 65486
  /\ gameOver (applyCollision 1234 low_on_fuel 2) = true.
Proof.
  destruct (crash_costs_fuel_without_floor 1234 low_on_fuel)
    as [_ [_ [Hwrap [_ Hover]]]];
    [vm_compute; split; [discriminate|reflexivity]|].
  assert (Hfuel : GameState.fuel (applyCollision 1234 low_on_fuel 2) = 65486)
    by (rewrite Hwrap; [reflexivity | vm_compute; reflexivity]).
  split; [exact Hfuel|].
  apply Hover. right. rewrite Hfuel. reflexivity.
Defined.

(** ** Terrain *)

(** *** Arrays *)

Lemma store_same (a : array) (i : Z) (v : spec_float) : store a i v i = v.
Proof. unfold store. rewrite Z.eqb_refl. reflexivity. Qed.

Lemma store_other (a : array) (i j : Z) (v : spec_float) :
  j <> i -> store a i v j = a j.
Proof. unfold store. intros H. destruct (Z.eqb_spec j i); [contradiction|reflexivity]. Qed.

Lemma fill_spec (n : nat) : forall (a : array) (x : Z) (v : spec_float) (j : Z),
  fill n a x v j = if (x <=? j) && (j <? x + Z.of_nat n) then v else a j.
Proof.
  induction n as [|n IH]; intros a x v j.
  - cbn [fill]. destruct (Z.leb_spec x j); destruct (Z.ltb_spec j (x + Z.of_nat 0)); try reflexivity; lia.
  - cbn [fill]. rewrite IH. unfold store.
    destruct (Z.leb_spec (x + 1) j); destruct (Z.ltb_spec j (x + 1 + Z.of_nat n));
    destruct (Z.leb_spec x j); destruct (Z.ltb_spec j (x + Z.of_nat (S n)));
    destruct (Z.eqb_spec j x); cbn [andb]; try reflexivity; lia.
Qed.

Lemma In_columns (n : nat) : forall (lo j : Z),
  In j (columns n lo) <-> lo <= j < lo + Z.of_nat n.
Proof.
  induction n as [|n IH]; intros lo j; cbn [columns In].
  - lia.
  - rewrite IH. lia.
Qed.

(** *** The frame of [buildSlopeMap] *)

Lemma same_stores_start (a0 a0' : array) : same_stores a0 a0' a0 a0'.
Proof. intros j. right. split; reflexivity. Qed.

Lemma same_stores_store (a0 a0' a a' : array) (i : Z) (v : spec_float) :
  same_stores a0 a0' a a' -> same_stores a0 a0' (store a i v) (store a' i v).
Proof.
  intros H j. unfold store.
  destruct (Z.eqb_spec j i); [left; reflexivity|apply H].
Qed.

Lemma same_stores_fill (a0 a0' : array) (n : nat) :
  forall (a a' : array) (x : Z) (v : spec_float),
  same_stores a0 a0' a a' -> same_stores a0 a0' (fill n a x v) (fill n a' x v).
Proof.
  induction n as [|n IH]; intros a a' x v H; cbn [fill].
  - exact H.
  - apply IH, same_stores_store, H.
Qed.

Lemma same_stores2_end_of_run (m0 m0' m m' : array * array)
  (levelWidth maxY : Z) (current next : Vertex.t) :
  same_stores2 m0 m0' m m' ->
  same_stores2 m0 m0' (end_of_run levelWidth maxY current next m)
                      (end_of_run levelWidth maxY current next m').
Proof.
  destruct m as [sM fH], m' as [sM' fH']. intros [Hs Hf].
  unfold end_of_run, fill_range, same_stores2. cbn [fst snd] in *.
  split.
  - apply same_stores_fill, same_stores_store, Hs.
  - destruct (Vertex.X current <? levelWidth - 1);
      repeat apply same_stores_store; exact Hf.
Qed.

Lemma buildSlopeMap_loops_frame (m0 m0' : array * array) (levelWidth : Z)
  (rest : list Vertex.t) :
  (forall current m m', same_stores2 m0 m0' m m' ->
     same_outcome m0 m0' (buildSlopeMap_from levelWidth current rest m)
                         (buildSlopeMap_from levelWidth current rest m'))
  /\ (forall maxY current m m', same_stores2 m0 m0' m m' ->
     same_outcome m0 m0' (buildSlopeMap_run levelWidth maxY current rest m)
                         (buildSlopeMap_run levelWidth maxY current rest m')).
Proof.
  induction rest as [|next rest1 [IHfrom IHrun]]; split.
  - intros current m m' H. exact H.
  - intros maxY current m m' H. exact I.
  - intros current m m' H. cbn [buildSlopeMap_from].
    destruct (Vertex.X current =? Vertex.X next).
    + apply IHrun, H.
    + apply IHfrom. destruct H as [Hs Hf]. split; cbn [fst snd].
      * apply same_stores_fill, Hs.
      * exact Hf.
  - intros maxY current m m' H. cbn [buildSlopeMap_run].
    destruct (Vertex.X current =? Vertex.X next).
    + apply IHrun, H.
    + apply IHfrom, same_stores2_end_of_run, H.
Qed.

(** Whatever the scratch arrays hold, [buildSlopeMap] faults or not alike,
    and a cell that is recorded in the run on [unrecorded] arrays is
    written, with the same value, in every other run. *)
Lemma buildSlopeMap_recorded (first : list Vertex.t) (levelWidth : Z)
  (slopeMap0 fHeightMap0 slopeMapN fHeightMapN : array) :
  buildSlopeMap unrecorded unrecorded first levelWidth
  = Ok (slopeMapN, fHeightMapN) ->
  exists slopeMap fHeightMap,
    buildSlopeMap slopeMap0 fHeightMap0 first levelWidth
    = Ok (slopeMap, fHeightMap)
    /\ (forall j, slopeMap j = slopeMapN j
                  \/ (slopeMapN j = S754_nan /\ slopeMap j = slopeMap0 j))
    /\ (forall j, fHeightMap j = fHeightMapN j
                  \/ (fHeightMapN j = S754_nan /\ fHeightMap j = fHeightMap0 j)).
Proof.
  unfold buildSlopeMap. destruct first as [|current rest]; [discriminate|].
  intros HN.
  destruct (buildSlopeMap_loops_frame (slopeMap0, fHeightMap0)
              (unrecorded, unrecorded) levelWidth rest) as [Hfrom _].
  specialize (Hfrom current (slopeMap0, fHeightMap0) (unrecorded, unrecorded)).
  rewrite HN in Hfrom.
  destruct (buildSlopeMap_from levelWidth current rest (slopeMap0, fHeightMap0))
    as [[slopeMap fHeightMap]| |].
  - destruct Hfrom as [Hs Hf]; [split; apply same_stores_start|].
    cbn [fst snd] in Hs, Hf.
    exists slopeMap, fHeightMap. split; [reflexivity|]. split; intros j.
    + destruct (Hs j) as [E|[E1 E2]]; [left; exact E|right; split; [exact E2|exact E1]].
    + destruct (Hf j) as [E|[E1 E2]]; [left; exact E|right; split; [exact E2|exact E1]].
  - exfalso. apply Hfrom. split; apply same_stores_start.
  - exfalso. apply Hfrom. split; apply same_stores_start.
Qed.

(** *** The loop of [buildFHeightMap] *)

Lemma undefined_slope_at_last (levelWidth x : Z) (slopeMap fHeightMap : array) :
  levelWidth - 1 <= x ->
  undefined_slope_at levelWidth x slopeMap fHeightMap = false.
Proof.
  intros H. unfold undefined_slope_at.
  destruct (Z.ltb_spec x (levelWidth - 1)); [lia|].
  destruct (Float32.eqb (slopeMap x) Float32.zero); reflexivity.
Qed.

(** The loop started at column [x] leaves the columns below [x] alone. *)
Lemma buildFHeightMap_loop_below (levelWidth : Z) (slopeMap : array)
  (fuel : nat) : forall (x : Z) (fHeightMap : array) (j : Z),
  j < x ->
  buildFHeightMap_loop fuel levelWidth x slopeMap fHeightMap j = fHeightMap j.
Proof.
  induction fuel as [|fuel IH]; intros x fHeightMap j Hj; cbn [buildFHeightMap_loop].
  - reflexivity.
  - destruct (x <? levelWidth); [|reflexivity].
    destruct (undefined_slope_at levelWidth x slopeMap fHeightMap);
      rewrite IH by lia; apply store_other; lia.
Qed.

(** Once the fuel covers the columns left, more fuel changes nothing. *)
Lemma buildFHeightMap_loop_fuel (levelWidth : Z) (slopeMap : array)
  (fuel : nat) : forall (more : nat) (x : Z) (fHeightMap : array),
  levelWidth <= x + Z.of_nat fuel ->
  buildFHeightMap_loop (fuel + more) levelWidth x slopeMap fHeightMap
  = buildFHeightMap_loop fuel levelWidth x slopeMap fHeightMap.
Proof.
  induction fuel as [|fuel IH]; intros more x fHeightMap H.
  - cbn [Nat.add buildFHeightMap_loop]. destruct more; [reflexivity|].
    cbn [buildFHeightMap_loop].
    destruct (Z.ltb_spec x levelWidth); [lia|reflexivity].
  - cbn [Nat.add buildFHeightMap_loop].
    destruct (x <? levelWidth); [|reflexivity].
    destruct (undefined_slope_at levelWidth x slopeMap fHeightMap);
      apply IH; lia.
Qed.

Lemma round_columns_ext (n : nat) : forall (x : Z) (a a' : array),
  (forall j, x <= j < x + Z.of_nat n -> a j = a' j) ->
  round_columns n x a = round_columns n x a'.
Proof.
  induction n as [|n IH]; intros x a a' H; cbn [round_columns].
  - reflexivity.
  - rewrite (H x) by lia. f_equal. apply IH. intros j Hj. apply H. lia.
Qed.

Lemma length_round_columns (n : nat) : forall (x : Z) (a : array),
  List.length (round_columns n x a) = n.
Proof.
  induction n as [|n IH]; intros x a; cbn [round_columns List.length].
  - reflexivity.
  - rewrite IH. reflexivity.
Qed.

Section Agreement.
Variable levelWidth : Z.
Variables slopeMap slopeMap' : array.
Hypothesis slopes_agree :
  forall j, 0 <= j < levelWidth - 1 -> slopeMap j = slopeMap' j.

Lemma undefined_slope_at_agree (x : Z) (fH fH' : array) :
  1 <= x < levelWidth ->
  (x < levelWidth - 1 -> harmless levelWidth slopeMap fH fH' x) ->
  undefined_slope_at levelWidth x slopeMap' fH'
  = undefined_slope_at levelWidth x slopeMap fH
  /\ (undefined_slope_at levelWidth x slopeMap fH = true ->
      fH x = fH' x /\ slopeMap (x + 1) = slopeMap' (x + 1)).
Proof.
  intros Hx Hh.
  destruct (Z.lt_ge_cases x (levelWidth - 1)) as [Hlt|Hge].
  - specialize (Hh Hlt). unfold harmless in Hh.
    unfold undefined_slope_at. rewrite <- (slopes_agree x) by lia.
    destruct (Float32.eqb (slopeMap x) Float32.zero);
      [|split; [reflexivity|discriminate]].
    destruct (Z.ltb_spec x (levelWidth - 1)); [|lia]. cbn [andb].
    destruct (Hh eq_refl) as [[E E']|[E0 [E1 Hedge]]].
    + rewrite E, E'. split; [reflexivity|discriminate].
    + rewrite <- E1. split; [reflexivity|].
      intros _. split; [exact E0|apply slopes_agree; lia].
  - rewrite !undefined_slope_at_last by lia.
    split; [reflexivity|discriminate].
Qed.

Lemma buildFHeightMap_loop_agree (fuel : nat) :
  forall (x : Z) (fH fH' : array),
  1 <= x ->
  levelWidth <= x + Z.of_nat fuel ->
  (forall j, 0 <= j < x -> fH j = fH' j) ->
  (forall j, x <= j < levelWidth - 1 -> harmless levelWidth slopeMap fH fH' j) ->
  forall j, 0 <= j < levelWidth ->
    buildFHeightMap_loop fuel levelWidth x slopeMap fH j
    = buildFHeightMap_loop fuel levelWidth x slopeMap' fH' j.
Proof.
  induction fuel as [|fuel IH]; intros x fH fH' Hx Hfuel Hlow Hh j Hj;
    cbn [buildFHeightMap_loop].
  - apply Hlow. lia.
  - destruct (Z.ltb_spec x levelWidth) as [Hlt|Hge]; [|apply Hlow; lia].
    destruct (undefined_slope_at_agree x fH fH') as [Htest Hdata];
      [lia | intros H; apply Hh; lia |].
    rewrite Htest.
    destruct (undefined_slope_at levelWidth x slopeMap fH).
    + destruct (Hdata eq_refl) as [E0 E1]. rewrite <- E0, <- E1.
      apply IH; [lia | lia | |  | exact Hj].
      * intros i Hi. unfold store.
        destruct (Z.eqb_spec i (x + 1)); [reflexivity|].
        destruct (Z.eq_dec i x) as [->|Hne]; [exact E0|apply Hlow; lia].
      * intros i Hi Hz. rewrite !store_other by lia. apply Hh; [lia|exact Hz].
    + rewrite <- (slopes_agree (x - 1)) by lia.
      rewrite <- (Hlow (x - 1)) by lia.
      apply IH; [lia | lia | |  | exact Hj].
      * intros i Hi. unfold store.
        destruct (Z.eqb_spec i x); [reflexivity|apply Hlow; lia].
      * intros i Hi Hz. rewrite !store_other by lia. apply Hh; [lia|exact Hz].
Qed.
End Agreement.

Lemma recorded_not_nan (v : spec_float) : recorded v = true -> v <> S754_nan.
Proof. intros H ->. discriminate. Qed.

Lemma not_recorded_nan (v : spec_float) : recorded v = false -> v = S754_nan.
Proof. destruct v; try discriminate. reflexivity. Qed.

(** The cells of the scratch array that are compared with -1 lie in columns
    2 to [levelWidth - 1]. *)
Lemma In_compared_cells (levelWidth : Z) (slopeMap fHeightMap : array) (j : Z) :
  In j (compared_cells levelWidth slopeMap fHeightMap) ->
  2 <= j <= levelWidth - 1.
Proof.
  unfold compared_cells. rewrite in_map_iff. intros [i [<- Hi]].
  apply filter_In in Hi. destruct Hi as [Hi _].
  apply In_columns in Hi. lia.
Qed.

(** If the arrays left by [buildSlopeMap] are well recorded, and no scratch
    cell that gets compared with -1 holds -1, the height map is the one
    computed from [unrecorded] scratch arrays. *)
Theorem heights_independent_of_scratch (first : list Vertex.t) (levelWidth : Z)
  (fHeightMap0 slopeMap0 slopeMapN fHeightMapN : array) :
  buildSlopeMap unrecorded unrecorded first levelWidth
  = Ok (slopeMapN, fHeightMapN) ->
  well_recorded levelWidth slopeMapN fHeightMapN = true ->
  (forall j, In j (compared_cells levelWidth slopeMapN fHeightMapN) ->
             Float32.eqb (fHeightMap0 j) Float32.minus_one = false) ->
  heightMap_of_vertices first levelWidth fHeightMap0 slopeMap0
  = heightMap_of_vertices first levelWidth unrecorded unrecorded.
Proof.
  intros HN Hwell Hcells.
  destruct (buildSlopeMap_recorded first levelWidth slopeMap0 fHeightMap0
              slopeMapN fHeightMapN HN)
    as [slopeMap [fHeightMap [Hrun [Hs Hf]]]].
  unfold heightMap_of_vertices. rewrite Hrun, HN. cbn [bind fst snd].
  unfold buildFHeightMap. destruct first as [|v rest]; [reflexivity|].
  destruct (negb (Vertex.X v =? 0)); [reflexivity|]. cbn [bind].
  f_equal. apply round_columns_ext. intros j Hj.
  unfold well_recorded in Hwell. apply andb_true_iff in Hwell.
  destruct Hwell as [Hslopes Hcols].
  rewrite forallb_forall in Hslopes, Hcols.
  apply buildFHeightMap_loop_agree; [ | lia | lia | | | lia].
  - intros i Hi. destruct (Hs i) as [E|[E _]]; [exact E|].
    exfalso. apply (recorded_not_nan (slopeMapN i)); [|exact E].
    apply Hslopes, In_columns. lia.
  - intros i Hi. replace i with 0 by lia. rewrite !store_same. reflexivity.
  - intros i Hi Hz. rewrite !store_other by lia.
    assert (Hin : In i (columns (Z.to_nat (levelWidth - 2)) 1))
      by (apply In_columns; lia).
    assert (HzN : Float32.eqb (slopeMapN i) Float32.zero = true).
    { destruct (Hs i) as [E|[E _]]; [rewrite <- E; exact Hz|].
      exfalso. apply (recorded_not_nan (slopeMapN i)); [|exact E].
      apply Hslopes, In_columns. lia. }
    destruct (recorded (fHeightMapN (i + 1))) eqn:Hrec.
    + assert (E1 : fHeightMap (i + 1) = fHeightMapN (i + 1)).
      { destruct (Hf (i + 1)) as [E|[E _]]; [exact E|].
        exfalso. apply (recorded_not_nan _ Hrec E). }
      specialize (Hcols i Hin). unfold column_ok in Hcols.
      rewrite HzN, Hrec in Hcols. cbn [negb orb] in Hcols.
      destruct (Float32.eqb (fHeightMapN (i + 1)) Float32.minus_one) eqn:Hm1.
      * cbn [negb orb] in Hcols. apply andb_true_iff in Hcols.
        destruct Hcols as [Hrec0 Hedge]. apply Z.ltb_lt in Hedge.
        right. split; [|split; [exact E1|exact Hedge]].
        destruct (Hf i) as [E|[E _]]; [exact E|].
        exfalso. apply (recorded_not_nan _ Hrec0 E).
      * left. rewrite E1. split; first [exact Hm1 | reflexivity].
    + left. rewrite (not_recorded_nan _ Hrec). split; [|reflexivity].
      destruct (Hf (i + 1)) as [E|[_ E]].
      * rewrite E, (not_recorded_nan _ Hrec). reflexivity.
      * rewrite E. apply Hcells. unfold compared_cells.
        apply in_map_iff. exists i. split; [reflexivity|].
        apply filter_In. split; [exact Hin|].
        unfold compares_scratch. rewrite HzN, Hrec. reflexivity.
Qed.

Theorem heights_from_unrecorded_scratch (first : list Vertex.t) (levelWidth : Z)
  (fHeightMap0 slopeMap0 : array) (cells : list Z) :
  scratch_cells_compared first levelWidth = Some cells ->
  (forall j, In j cells ->
             Float32.eqb (fHeightMap0 j) Float32.minus_one = false) ->
  heightMap_of_vertices first levelWidth fHeightMap0 slopeMap0
  = heightMap_of_vertices first levelWidth unrecorded unrecorded.
Proof.
  unfold scratch_cells_compared.
  destruct (buildSlopeMap unrecorded unrecorded first levelWidth)
    as [[slopeMapN fHeightMapN]| |] eqn:HN; try discriminate.
  destruct (well_recorded levelWidth slopeMapN fHeightMapN) eqn:Hwell;
    [|discriminate].
  intros [= <-] Hcells.
  exact (heights_independent_of_scratch first levelWidth fHeightMap0 slopeMap0
           slopeMapN fHeightMapN HN Hwell Hcells).
Qed.

(** *** A vertical run inside the level *)

Lemma fill_range_below (a : array) (lo hi : Z) (v : spec_float) (j : Z) :
  j < lo -> fill_range a lo hi v j = a j.
Proof.
  intros H. unfold fill_range. rewrite fill_spec.
  destruct (Z.leb_spec lo j); [lia|reflexivity].
Qed.

Lemma fill_range_inside (a : array) (lo hi : Z) (v : spec_float) (j : Z) :
  lo <= j < hi -> fill_range a lo hi v j = v.
Proof.
  intros H. unfold fill_range. rewrite fill_spec.
  destruct (Z.leb_spec lo j); [|lia].
  destruct (Z.ltb_spec j (lo + Z.of_nat (Z.to_nat (hi - lo)))); [reflexivity|lia].
Qed.

Lemma last_cons {A : Type} (l : list A) : forall a d : A,
  last (a :: l) d = last l a.
Proof.
  induction l as [|b l IH]; intros a d; [reflexivity|].
  change (last (a :: b :: l) d) with (last (b :: l) d).
  rewrite !IH. reflexivity.
Qed.

(** The loops reach a vertex whose predecessor has another [X] in the outer
    loop, with arrays that do not depend on what follows it. *)
Lemma buildSlopeMap_reaches (levelWidth : Z) (r1 : Vertex.t)
  (pre : list Vertex.t) :
  (forall current maps,
      Vertex.X (last pre current) <> Vertex.X r1 ->
      exists maps', forall rest,
        buildSlopeMap_from levelWidth current (pre ++ r1 :: rest) maps
        = buildSlopeMap_from levelWidth r1 rest maps')
  /\ (forall maxY current maps,
      Vertex.X (last pre current) <> Vertex.X r1 ->
      exists maps', forall rest,
        buildSlopeMap_run levelWidth maxY current (pre ++ r1 :: rest) maps
        = buildSlopeMap_from levelWidth r1 rest maps').
Proof.
  induction pre as [|p pre [IHfrom IHrun]]; split.
  - intros current maps H. cbn [last] in H. eexists. intros rest.
    cbn [app buildSlopeMap_from].
    destruct (Z.eqb_spec (Vertex.X current) (Vertex.X r1)); [contradiction|].
    reflexivity.
  - intros maxY current maps H. cbn [last] in H. eexists. intros rest.
    cbn [app buildSlopeMap_run].
    destruct (Z.eqb_spec (Vertex.X current) (Vertex.X r1)); [contradiction|].
    reflexivity.
  - intros current maps H.
    assert (H' : Vertex.X (last pre p) <> Vertex.X r1)
      by (rewrite last_cons in H; exact H).
    cbn [app buildSlopeMap_from].
    destruct (Vertex.X current =? Vertex.X p);
      [apply IHrun, H' | apply IHfrom, H'].
  - intros maxY current maps H.
    assert (H' : Vertex.X (last pre p) <> Vertex.X r1)
      by (rewrite last_cons in H; exact H).
    cbn [app buildSlopeMap_run].
    destruct (Vertex.X current =? Vertex.X p);
      [apply IHrun, H' | apply IHfrom, H'].
Qed.

(** The inner loop walks to the last vertex of the run, keeping the greatest
    [Y] seen. *)
Lemma buildSlopeMap_run_scan (levelWidth : Z) (next : Vertex.t)
  (post : list Vertex.t) (maps : array * array) (mid : list Vertex.t) :
  forall (maxY : Z) (current : Vertex.t),
  Forall (fun v => Vertex.X v = Vertex.X current) mid ->
  Vertex.X next <> Vertex.X current ->
  buildSlopeMap_run levelWidth maxY current (mid ++ next :: post) maps
  = buildSlopeMap_from levelWidth next post
      (end_of_run levelWidth (fold_left Z.max (map Vertex.Y mid) maxY)
                  (last mid current) next maps).
Proof.
  induction mid as [|v mid IH]; intros maxY current Hmid Hnext;
    cbn [app buildSlopeMap_run map fold_left].
  - destruct (Z.eqb_spec (Vertex.X current) (Vertex.X next)); [congruence|].
    reflexivity.
  - pose proof (Forall_inv Hmid) as Hv. pose proof (Forall_inv_tail Hmid) as Ht.
    destruct (Z.eqb_spec (Vertex.X current) (Vertex.X v)); [|congruence].
    replace (if Vertex.Y v >? maxY then Vertex.Y v else maxY)
      with (Z.max maxY (Vertex.Y v))
      by (rewrite Z.gtb_ltb; destruct (Z.ltb_spec maxY (Vertex.Y v)); lia).
    rewrite IH.
    + rewrite (last_cons mid v current). reflexivity.
    + eapply Forall_impl; [|exact Ht]. cbn beta. intros w Hw. congruence.
    + congruence.
Qed.

(** Vertices at or right of column [b] leave the cells left of [b] alone. *)
Lemma end_of_run_below (levelWidth maxY : Z) (current next : Vertex.t)
  (maps : array * array) (j : Z) :
  j < Vertex.X current ->
  fst (end_of_run levelWidth maxY current next maps) j = fst maps j
  /\ snd (end_of_run levelWidth maxY current next maps) j = snd maps j.
Proof.
  intros H. destruct maps as [sM fH]. unfold end_of_run. cbn [fst snd].
  split.
  - rewrite fill_range_below by lia. apply store_other. lia.
  - destruct (Vertex.X current <? levelWidth - 1);
      rewrite !store_other by lia; reflexivity.
Qed.

Lemma buildSlopeMap_loops_below (levelWidth b : Z) (rest : list Vertex.t) :
  Forall (fun v => b <= Vertex.X v) rest ->
  (forall current maps, b <= Vertex.X current ->
     cells_below_kept b maps
       (buildSlopeMap_from levelWidth current rest maps))
  /\ (forall maxY current maps, b <= Vertex.X current ->
     cells_below_kept b maps
       (buildSlopeMap_run levelWidth maxY current rest maps)).
Proof.
  induction rest as [|next rest1 IH]; intros Hall.
  - split; intros; cbn; [intros j _; split; reflexivity | exact I].
  - pose proof (Forall_inv Hall) as Hn.
    destruct (IH (Forall_inv_tail Hall)) as [IHfrom IHrun].
    assert (Hstep : forall maps maps',
               (forall j, j < b -> fst maps' j = fst maps j
                                   /\ snd maps' j = snd maps j) ->
               forall o, cells_below_kept b maps' o ->
                         cells_below_kept b maps o).
    { intros maps maps' Hm o. destruct o as [r| |]; cbn; try exact (fun _ => I).
      intros Hr j Hj. destruct (Hr j Hj) as [-> ->]. apply Hm, Hj. }
    split.
    + intros current maps Hc. cbn [buildSlopeMap_from].
      destruct (Vertex.X current =? Vertex.X next); [apply IHrun, Hn|].
      eapply Hstep; [|apply IHfrom, Hn].
      intros j Hj. cbn [fst snd]. split; [|reflexivity].
      apply fill_range_below. lia.
    + intros maxY current maps Hc. cbn [buildSlopeMap_run].
      destruct (Vertex.X current =? Vertex.X next); [apply IHrun, Hn|].
      eapply Hstep; [|apply IHfrom, Hn].
      intros j Hj. apply end_of_run_below. lia.
Qed.

(** The cells of column [c] and [c + 1] once a vertical run in column [c],
    entered from a vertex with another [X] and followed by a vertex beyond
    column [c + 1], has been processed, all later vertices lying at or right
    of that vertex. *)
Lemma buildSlopeMap_run_cells (levelWidth : Z)
  (pre mid post : list Vertex.t) (first r1 r2 next : Vertex.t)
  (slopeMap0 fHeightMap0 slopeMap fHeightMap : array) :
  let c := Vertex.X r1 in
  Vertex.X (last pre first) <> c ->
  Vertex.X r2 = c ->
  Forall (fun v => Vertex.X v = c) mid ->
  c + 1 < Vertex.X next <= levelWidth - 1 ->
  Forall (fun v => Vertex.X next <= Vertex.X v) post ->
  buildSlopeMap slopeMap0 fHeightMap0
    (first :: pre ++ r1 :: r2 :: mid ++ next :: post) levelWidth
  = Ok (slopeMap, fHeightMap) ->
  slopeMap c = Float32.zero
  /\ slopeMap (c + 1) = slope_between (last mid r2) next
  /\ fHeightMap c = Float32.of_int (greatest_Y r1 (r2 :: mid))
  /\ fHeightMap (c + 1) = Float32.minus_one.
Proof.
  intros c Hpre Hr2 Hmid Hnext Hpost. unfold buildSlopeMap.
  destruct (buildSlopeMap_reaches levelWidth r1 pre) as [Hreach _].
  destruct (Hreach first (slopeMap0, fHeightMap0) Hpre) as [maps Hmaps].
  rewrite Hmaps. cbn [buildSlopeMap_from].
  destruct (Z.eqb_spec (Vertex.X r1) (Vertex.X r2)); [|fold c in n; congruence].
  rewrite buildSlopeMap_run_scan;
    [ | eapply Forall_impl; [|exact Hmid]; cbn beta; intros; congruence
      | fold c in Hnext; lia ].
  replace (if Vertex.Y r1 >=? Vertex.Y r2 then Vertex.Y r1 else Vertex.Y r2)
    with (Z.max (Vertex.Y r1) (Vertex.Y r2))
    by (rewrite Z.geb_leb; destruct (Z.leb_spec (Vertex.Y r2) (Vertex.Y r1)); lia).
  change (fold_left Z.max (map Vertex.Y mid) (Z.max (Vertex.Y r1) (Vertex.Y r2)))
    with (greatest_Y r1 (r2 :: mid)).
  set (maxY := greatest_Y r1 (r2 :: mid)).
  assert (Hlast : Vertex.X (last mid r2) = c).
  { clear - Hr2 Hmid. revert r2 Hr2.
    induction Hmid as [|v mid Hv _ IH]; intros r2 Hr2; [exact Hr2|].
    rewrite last_cons. apply IH, Hv. }
  destruct (buildSlopeMap_loops_below levelWidth (Vertex.X next) post Hpost)
    as [Hbelow _].
  specialize (Hbelow next
                (end_of_run levelWidth maxY (last mid r2) next maps)
                (Z.le_refl _)).
  intros Hrun. rewrite Hrun in Hbelow. cbn [cells_below_kept fst snd] in Hbelow.
  destruct (Hbelow c ltac:(lia)) as [-> ->].
  destruct (Hbelow (c + 1) ltac:(lia)) as [-> ->].
  destruct maps as [sM fH]. unfold end_of_run. rewrite Hlast. cbn [fst snd].
  destruct (Z.ltb_spec c (levelWidth - 1)); [|lia].
  repeat split.
  - rewrite fill_range_below by lia. apply store_same.
  - apply fill_range_inside. lia.
  - rewrite store_other by lia. apply store_same.
  - apply store_same.
Qed.

(** A non-negative [int] converted to [float] is not -1. *)
Lemma binary_round_aux_sign (sx : bool) (mx ex : Z) (lx : location) :
  let r := binary_round_aux Float32.prec Float32.emax sx mx ex lx in
  r = S754_nan \/ r = S754_zero sx \/ r = S754_infinity sx
  \/ exists m e, r = S754_finite sx m e.
Proof.
  cbv zeta. unfold binary_round_aux.
  destruct (shr_fexp Float32.prec Float32.emax mx ex lx) as [mrs' e'].
  destruct (shr_fexp Float32.prec Float32.emax
              (round_nearest_even (shr_m mrs') (loc_of_shr_record mrs'))
              e' loc_Exact) as [mrs'' e''].
  destruct (shr_m mrs'') as [|m|m]; [auto | | auto].
  destruct (e'' <=? Float32.emax - Float32.prec)%Z; eauto 6.
Qed.

Lemma of_int_not_minus_one (n : Z) :
  0 <= n -> Float32.eqb (Float32.of_int n) Float32.minus_one = false.
Proof.
  intros Hn. unfold Float32.of_int, binary_normalize.
  destruct n as [|p|p]; [reflexivity | | lia].
  unfold binary_round.
  destruct (shl_align p 0
              (fexp Float32.prec Float32.emax (Z.pos (digits2_pos p) + 0)))
    as [mz ez].
  destruct (binary_round_aux_sign false (Z.pos mz) ez loc_Exact)
    as [H|[H|[H|[m [e H]]]]]; rewrite H; reflexivity.
Qed.

(** The loop of [buildFHeightMap], started at or before a column [c] that
    holds a recorded height [h] (not -1), has slope zero and is followed by
    the mark -1, keeps [h] in column [c] and puts [h] plus the slope of
    column [c + 1] in column [c + 1]. *)
Lemma buildFHeightMap_loop_through_run (levelWidth c : Z) (slopeMap : array)
  (h : spec_float) (fuel : nat) :
  c < levelWidth - 1 ->
  Float32.eqb (slopeMap c) Float32.zero = true ->
  Float32.eqb h Float32.minus_one = false ->
  forall (x : Z) (fHeightMap : array),
  1 <= x <= c ->
  levelWidth <= x + Z.of_nat fuel ->
  fHeightMap c = h ->
  fHeightMap (c + 1) = Float32.minus_one ->
  let r := buildFHeightMap_loop fuel levelWidth x slopeMap fHeightMap in
  r c = h /\ r (c + 1) = Float32.add h (slopeMap (c + 1)).
Proof.
  intros Hc Hzero Hh. induction fuel as [|fuel IH];
    intros x fHeightMap Hx Hfuel Hcell Hmark; [lia|].
  cbv zeta. cbn [buildFHeightMap_loop].
  destruct (Z.ltb_spec x levelWidth); [|lia].
  destruct (Z.eq_dec x c) as [->|Hne].
  - assert (Htest : undefined_slope_at levelWidth c slopeMap fHeightMap = true).
    { unfold undefined_slope_at. rewrite Hzero, Hmark.
      destruct (Z.ltb_spec c (levelWidth - 1)); [reflexivity|lia]. }
    rewrite Htest. rewrite !buildFHeightMap_loop_below by lia.
    rewrite store_other by lia. rewrite store_same, Hcell.
    split; reflexivity.
  - destruct (undefined_slope_at levelWidth x slopeMap fHeightMap) eqn:Htest.
    + assert (x + 1 <> c).
      { intros E. unfold undefined_slope_at in Htest.
        rewrite E, Hcell, Hh, andb_false_r in Htest. discriminate. }
      apply IH; [lia | lia | |]; rewrite store_other by lia; assumption.
    + apply IH; [lia | lia | |]; rewrite store_other by lia; assumption.
Qed.

Lemma nth_round_columns (n : nat) : forall (x : Z) (a : array) (k : nat),
  (k < n)%nat ->
  nth k (round_columns n x a) 0
  = to_Uint16 (Float64.ceil (Float64.of_float (a (x + Z.of_nat k)))).
Proof.
  induction n as [|n IH]; intros x a k Hk; [lia|].
  cbn [round_columns]. destruct k as [|k]; cbn [nth].
  - rewrite Z.add_0_r. reflexivity.
  - rewrite IH by lia. do 4 f_equal. lia.
Qed.

(** A vertical run in a column [c >= 1], entered from a vertex with another
    [X], whose next vertex lies beyond column [c + 1], all later vertices
    lying at or right of that one: column [c] of the height map is the
    greatest [Y] of the run, as a [float], rounded up, and column [c + 1] is
    that [float] plus the slope from the last vertex of the run to the next
    vertex, rounded up. *)
Theorem vertical_run_inside_the_level (levelWidth : Z)
  (pre mid post : list Vertex.t) (first r1 r2 next : Vertex.t)
  (fHeightMap0 slopeMap0 : array) (heightMap : list Z) :
  let c := Vertex.X r1 in
  let top := Float32.of_int (greatest_Y r1 (r2 :: mid)) in
  1 <= c ->
  Vertex.X (last pre first) <> c ->
  Vertex.X r2 = c ->
  Forall (fun v => Vertex.X v = c) mid ->
  c + 1 < Vertex.X next <= levelWidth - 1 ->
  Forall (fun v => Vertex.X next <= Vertex.X v) post ->
  0 <= Vertex.Y r1 ->
  heightMap_of_vertices (first :: pre ++ r1 :: r2 :: mid ++ next :: post)
                        levelWidth fHeightMap0 slopeMap0
  = Ok heightMap ->
  heightAt heightMap c = to_Uint16 (Float64.ceil (Float64.of_float top))
  /\ heightAt heightMap (c + 1)
     = to_Uint16
         (Float64.ceil
            (Float64.of_float
               (Float32.add top (slope_between (last mid r2) next)))).
Proof.
  intros c top Hc Hpre Hr2 Hmid Hnext Hpost HY.
  unfold heightMap_of_vertices.
  destruct (buildSlopeMap slopeMap0 fHeightMap0
              (first :: pre ++ r1 :: r2 :: mid ++ next :: post) levelWidth)
    as [[slopeMap fHeightMap]| |] eqn:Hrun; cbn [bind]; try discriminate.
  destruct (buildSlopeMap_run_cells levelWidth pre mid post first r1 r2 next
              slopeMap0 fHeightMap0 slopeMap fHeightMap
              Hpre Hr2 Hmid Hnext Hpost Hrun) as [Hs0 [Hs1 [Hf0 Hf1]]].
  fold c in Hs0, Hs1, Hf0, Hf1. fold top in Hf0.
  unfold buildFHeightMap. cbn [fst snd].
  destruct (negb (Vertex.X first =? 0)); cbn [bind]; [discriminate|].
  intros [= <-].
  assert (Htop : Float32.eqb top Float32.minus_one = false).
  { apply of_int_not_minus_one. unfold greatest_Y.
    assert (Hmax : forall l m, m <= fold_left Z.max l m).
    { induction l as [|y l IHl]; intros m; cbn [fold_left]; [lia|].
      specialize (IHl (Z.max m y)). lia. }
    specialize (Hmax (map Vertex.Y (r2 :: mid)) (Vertex.Y r1)). lia. }
  destruct (buildFHeightMap_loop_through_run levelWidth c slopeMap top
              (Z.to_nat levelWidth) ltac:(lia)
              ltac:(rewrite Hs0; reflexivity) Htop 1
              (store fHeightMap 0 (Float32.of_int (Vertex.Y first)))
              ltac:(lia) ltac:(lia)
              ltac:(rewrite store_other by lia; exact Hf0)
              ltac:(rewrite store_other by lia; exact Hf1)) as [Hc0 Hc1].
  unfold heightAt. rewrite !nth_round_columns by lia.
  rewrite !Z.add_0_l, !Z2Nat.id by lia.
  rewrite Hc0, Hc1, Hs1. split; reflexivity.
Qed.

(** The run of ["0 0\n10 20\n10 5\n"] in column 10 is such a run: its
    greatest [Y] is 20, found in column 10, and column 11 holds 20 plus the
    slope from (10,5) to (899,0), rounded up to 20. *)
Lemma vertical_run_inside_the_level_witness :
  exists heightMap : list Z,
    heightMap_of_vertices
      [Vertex.mk 0 0; Vertex.mk 10 20; Vertex.mk 10 5; Vertex.mk 899 0]
      900 zeros zeros
    = Ok heightMap
    /\ heightAt heightMap 10 = 20
    /\ heightAt heightMap 11 = 20.
Proof.
  assert (Hclosed : exists heightMap : list Z,
             heightMap_of_vertices
               [Vertex.mk 0 0; Vertex.mk 10 20; Vertex.mk 10 5;
                Vertex.mk 899 0] 900 zeros zeros
             = Ok heightMap)
    by (vm_compute; eexists; reflexivity).
  destruct Hclosed as [heightMap Hmap].
  exists heightMap. split; [exact Hmap|].
  destruct (vertical_run_inside_the_level 900 [] [] []
              (Vertex.mk 0 0) (Vertex.mk 10 20) (Vertex.mk 10 5)
              (Vertex.mk 899 0) zeros zeros heightMap
              ltac:(vm_compute; discriminate)
              ltac:(vm_compute; discriminate)
              eq_refl
              (Forall_nil _)
              ltac:(vm_compute; split; [reflexivity|discriminate])
              (Forall_nil _)
              ltac:(vm_compute; discriminate)
              Hmap) as [H10 H11].
  split; [refine (eq_trans H10 _) | refine (eq_trans H11 _)];
    vm_compute; reflexivity.
Defined.

(** *** Concrete terrains *)

(** C5. The file ["0 5\n0 9\n"] is read as the vertices (0,5), (0,9),
    (899,5): a vertical run in column 0 whose greatest [Y] is 9.  Whatever the
    scratch arrays contain, the height map has 5 in column 0 (and in column
    1): [buildFHeightMap] overwrites the height recorded for the run with the
    [Y] of the first vertex. *)
Theorem cliff_at_origin_loses_its_maximum (fHeightMap0 slopeMap0 : array) :
  let vs := [Vertex.mk 0 5; Vertex.mk 0 9; Vertex.mk 899 5] in
  max_Y_at 0 vs = 9
  /\ exists heightMap : list Z,
       buildHeightMap cliff_at_origin_file 900 fHeightMap0 slopeMap0
       = Ok (vs, heightMap)
       /\ nth 0 heightMap 0 = 5
       /\ nth 1 heightMap 0 = 5.
Proof.
  intros vs. split; [reflexivity|].
  assert (Hread : readVertexList cliff_at_origin_file 900 = Ok vs)
    by (vm_compute; reflexivity).
  assert (Hcells : scratch_cells_compared vs 900 = Some [])
    by (vm_compute; reflexivity).
  assert (Hclosed : exists heightMap,
             heightMap_of_vertices vs 900 unrecorded unrecorded = Ok heightMap
             /\ nth 0 heightMap 0 = 5 /\ nth 1 heightMap 0 = 5).
  { vm_compute. eexists. split; [reflexivity|]. split; reflexivity. }
  destruct Hclosed as [heightMap [Hmap Hnth]].
  exists heightMap. split; [|exact Hnth].
  unfold buildHeightMap. rewrite Hread. unfold bind at 1.
  rewrite (heights_from_unrecorded_scratch vs 900 fHeightMap0 slopeMap0 []
             Hcells) by (intros j []).
  rewrite Hmap. reflexivity.
Qed.

(** C6. Two accepted files whose height maps differ between column 0 and
    column 899, whatever the scratch arrays contain.
    - ["0 0\n100 7\n"], read as (0,0), (100,7), (899,0), has no vertical
      run: the sum of 899 rounded slopes ends slightly above 0 and is
      rounded up to 1.
    - ["0 0\n10 20\n10 5\n"], read as (0,0), (10,20), (10,5), (899,0): after
      the cliff the heights go on from 20, with the slope from 5 down to 0,
      and end at 15.
    A third accepted file yields no height map at all: ["0 0\n899 5\n"] is
    closed by the vertex (899,0), a vertical run at the end of the list, on
    which [buildSlopeMap] dereferences the [next] pointer of the last
    vertex. *)
Theorem wrap_continuity_is_lost (fHeightMap0 slopeMap0 : array) :
  (exists heightMap : list Z,
     buildHeightMap hill_file 900 fHeightMap0 slopeMap0
     = Ok ([Vertex.mk 0 0; Vertex.mk 100 7; Vertex.mk 899 0], heightMap)
     /\ List.length heightMap = 900%nat
     /\ nth 0 heightMap 0 = 0
     /\ nth 899 heightMap 0 = 1)
  /\ (exists heightMap : list Z,
     buildHeightMap drop_file 900 fHeightMap0 slopeMap0
     = Ok ([Vertex.mk 0 0; Vertex.mk 10 20; Vertex.mk 10 5; Vertex.mk 899 0],
           heightMap)
     /\ List.length heightMap = 900%nat
     /\ nth 0 heightMap 0 = 0
     /\ nth 899 heightMap 0 = 15)
  /\ readVertexList closing_cliff_file 900
     = Ok [Vertex.mk 0 0; Vertex.mk 899 5; Vertex.mk 899 0]
  /\ buildHeightMap closing_cliff_file 900 fHeightMap0 slopeMap0 = Crash.
Proof.
  split; [|split; [|split; reflexivity]].
  - set (vs := [Vertex.mk 0 0; Vertex.mk 100 7; Vertex.mk 899 0]).
    assert (Hread : readVertexList hill_file 900 = Ok vs)
      by (vm_compute; reflexivity).
    assert (Hcells : scratch_cells_compared vs 900 = Some [])
      by (vm_compute; reflexivity).
    assert (Hclosed : exists heightMap,
               heightMap_of_vertices vs 900 unrecorded unrecorded
               = Ok heightMap
               /\ List.length heightMap = 900%nat
               /\ nth 0 heightMap 0 = 0 /\ nth 899 heightMap 0 = 1).
    { vm_compute. eexists. split; [reflexivity|]. repeat split; reflexivity. }
    destruct Hclosed as [heightMap [Hmap Hnth]].
    exists heightMap. split; [|exact Hnth].
    unfold buildHeightMap. rewrite Hread. unfold bind at 1.
    rewrite (heights_from_unrecorded_scratch vs 900 fHeightMap0 slopeMap0 []
               Hcells) by (intros j []).
    rewrite Hmap. reflexivity.
  - set (vs := [Vertex.mk 0 0; Vertex.mk 10 20; Vertex.mk 10 5;
                Vertex.mk 899 0]).
    assert (Hread : readVertexList drop_file 900 = Ok vs)
      by (vm_compute; reflexivity).
    assert (Hcells : scratch_cells_compared vs 900 = Some [])
      by (vm_compute; reflexivity).
    assert (Hclosed : exists heightMap,
               heightMap_of_vertices vs 900 unrecorded unrecorded
               = Ok heightMap
               /\ List.length heightMap = 900%nat
               /\ nth 0 heightMap 0 = 0 /\ nth 899 heightMap 0 = 15).
    { vm_compute. eexists. split; [reflexivity|]. repeat split; reflexivity. }
    destruct Hclosed as [heightMap [Hmap Hnth]].
    exists heightMap. split; [|exact Hnth].
    unfold buildHeightMap. rewrite Hread. unfold bind at 1.
    rewrite (heights_from_unrecorded_scratch vs 900 fHeightMap0 slopeMap0 []
               Hcells) by (intros j []).
    rewrite Hmap. reflexivity.
Qed.

(** C9. The terrain built from ["0 0\n899 0\n"] with [levelWidth = 900],
    provided no cell 2..899 of the scratch array [fHeightMap] happens to
    hold -1: the height map has 900 entries, all 0, and there is exactly one
    landing strip, starting at [X = 0], of length 899; its score modifier is
    0, where the specification's tier is 1. *)
Theorem flat_terrain_strip_scores_zero (fHeightMap0 slopeMap0 : array) :
  (forall j, 2 <= j <= 899 ->
             Float32.eqb (fHeightMap0 j) Float32.minus_one = false) ->
  buildTerrain flat_file 900 fHeightMap0 slopeMap0
  = Ok (Terrain.mk [Vertex.mk 0 0; Vertex.mk 899 0]
                   [Flat.mk 0 0 899 0]
                   (repeat 0 900))
  /\ tier_of_spec 899 = 1.
Proof.
  intros Hscratch. split; [|reflexivity].
  set (vs := [Vertex.mk 0 0; Vertex.mk 899 0]).
  assert (Hread : readVertexList flat_file 900 = Ok vs)
    by (vm_compute; reflexivity).
  assert (Hcells : scratch_cells_compared vs 900 = Some (columns 898 2))
    by (vm_compute; reflexivity).
  assert (Hclosed : heightMap_of_vertices vs 900 unrecorded unrecorded
                    = Ok (repeat 0 900))
    by (vm_compute; reflexivity).
  unfold buildTerrain, buildHeightMap. rewrite Hread. unfold bind at 2.
  rewrite (heights_from_unrecorded_scratch vs 900 fHeightMap0 slopeMap0
             (columns 898 2) Hcells)
    by (intros j Hj; apply Hscratch; apply In_columns in Hj; lia).
  rewrite Hclosed. reflexivity.
Qed.

Lemma flat_terrain_strip_scores_zero_witness :
  buildTerrain flat_file 900 zeros zeros
  = Ok (Terrain.mk [Vertex.mk 0 0; Vertex.mk 899 0]
                   [Flat.mk 0 0 899 0]
                   (repeat 0 900)).
Proof.
  apply (flat_terrain_strip_scores_zero zeros zeros).
  intros j _. reflexivity.
Defined.

(** * Further properties *)

(** ** The reader, on every file *)

Lemma read_loop_pairs (levelWidth : Z) (fuel : nat) :
  forall (file : string) (st : read_state),
  read_loop fuel levelWidth file st
  = read_pairs levelWidth (scan_pairs fuel file) st.
Proof.
  induction fuel as [|fuel IH]; intros file st; cbn [read_loop scan_pairs].
  - reflexivity.
  - destruct (fscanf_d_d file) as [[[X Y] file']|]; [|reflexivity].
    cbn [read_pairs]. destruct (read_vertex levelWidth st X Y); cbn [bind];
      [apply IH | reflexivity | reflexivity].
Qed.

(** After the first pair, [prevX] stays what the first pair made it. *)
Lemma read_pairs_rest (levelWidth prevX : Z) (pairs : list (Z * Z)) :
  prevX <> -1 ->
  forall vs : list Vertex.t,
  read_pairs levelWidth pairs (prevX, vs)
  = if forallb (pair_passes levelWidth prevX) pairs
    then Ok (prevX, vs ++ map vertex_of_pair pairs)
    else Crash.
Proof.
  intros Hp. induction pairs as [|[X Y] pairs IH]; intros vs;
    cbn [read_pairs forallb map].
  - rewrite app_nil_r. reflexivity.
  - unfold read_vertex, reject_pair, pair_passes at 1. cbn [fst snd].
    destruct (Z.ltb_spec X 0); destruct (Z.leb_spec 0 X); try lia;
      cbn [orb andb bind]; [reflexivity|].
    destruct (Z.ltb_spec Y 0); destruct (Z.leb_spec 0 Y); try lia;
      cbn [orb andb bind]; [reflexivity|].
    rewrite Z.geb_leb.
    destruct (Z.leb_spec levelWidth X); destruct (Z.ltb_spec X levelWidth);
      try lia; cbn [orb andb bind]; [reflexivity|].
    destruct (Z.ltb_spec X prevX); destruct (Z.leb_spec prevX X); try lia;
      cbn [orb andb bind]; [reflexivity|].
    destruct (Z.eqb_spec prevX (-1)); [contradiction|]. cbn [bind].
    rewrite IH, <- app_assoc. reflexivity.
Qed.

Lemma read_pairs_all (levelWidth : Z) (p0 : Z * Z) (pairs : list (Z * Z)) :
  read_pairs levelWidth (p0 :: pairs) (-1, [])
  = if forallb (pair_passes levelWidth (fst p0)) (p0 :: pairs)
    then Ok (fst p0,
             (if fst p0 =? 0 then [] else [Vertex.mk 0 0])
             ++ map vertex_of_pair (p0 :: pairs))
    else Crash.
Proof.
  destruct p0 as [X Y]. cbn [read_pairs forallb map fst].
  unfold read_vertex, reject_pair, pair_passes at 1. cbn [fst snd].
  destruct (Z.ltb_spec X 0); destruct (Z.leb_spec 0 X); try lia;
    cbn [orb andb bind]; [reflexivity|].
  destruct (Z.ltb_spec Y 0); destruct (Z.leb_spec 0 Y); try lia;
    cbn [orb andb bind]; [reflexivity|].
  rewrite Z.geb_leb.
  destruct (Z.leb_spec levelWidth X); destruct (Z.ltb_spec X levelWidth);
    try lia; cbn [orb andb bind]; [reflexivity|].
  destruct (Z.ltb_spec X (-1)); [lia|].
  rewrite Z.leb_refl. cbn [andb]. change (-1 =? -1) with true. cbv iota.
  destruct (Z.eqb_spec X 0) as [->|Hne]; cbn [negb bind];
    rewrite read_pairs_rest by lia;
    destruct (forallb (pair_passes levelWidth _) pairs); reflexivity.
Qed.

Lemma last_default {A : Type} (l : list A) (a d d' : A) :
  last (a :: l) d = last (a :: l) d'.
Proof. rewrite !last_cons. reflexivity. Qed.

Lemma last_of_app {A : Type} (l l' : list A) (a : A) :
  forall d d' : A, last (l ++ a :: l') d = last (a :: l') d'.
Proof.
  induction l as [|b l IH]; intros d d'; cbn [app].
  - apply last_default.
  - rewrite last_cons. apply IH.
Qed.

Lemma last_of_map {A B : Type} (f : A -> B) (l : list A) :
  forall (a a' : A) (d : B), last (map f (a :: l)) d = f (last (a :: l) a').
Proof.
  induction l as [|b l IH]; intros a a' d; [reflexivity|].
  cbn [map]. rewrite (last_cons (f b :: map f l)).
  change (f b :: map f l) with (map f (b :: l)).
  rewrite (IH b a' (f a)). rewrite (last_cons (b :: l) a a').
  rewrite (last_default l b a a'). reflexivity.
Qed.

(** What the reader returns, from the pairs of the file. *)
Lemma readVertexList_of_pairs (file : string) (levelWidth : Z) :
  readVertexList file levelWidth
  = match pairs_of_file file with
    | [] => Exit EXIT_EMPTYFILE_FAIL
    | p0 :: pairs =>
        if forallb (pair_passes levelWidth (fst p0)) (p0 :: pairs)
        then Ok (vertices_of_pairs levelWidth (p0 :: pairs))
        else Crash
    end.
Proof.
  unfold readVertexList, pairs_of_file. rewrite read_loop_pairs.
  destruct (scan_pairs (S (String.length file)) file) as [|p0 pairs].
  - reflexivity.
  - rewrite read_pairs_all.
    destruct (forallb (pair_passes levelWidth (fst p0)) (p0 :: pairs));
      [|reflexivity].
    cbn [bind snd]. unfold vertices_of_pairs, close_vertex_list.
    set (body := (if fst p0 =? 0 then [] else [Vertex.mk 0 0])
                 ++ map vertex_of_pair (p0 :: pairs)).
    assert (Hlast : forall d, last body d
                              = vertex_of_pair (last (p0 :: pairs) p0)).
    { intros d. unfold body. cbn [map].
      rewrite (last_of_app _ _ _ d d).
      apply (last_of_map vertex_of_pair pairs p0 p0 d). }
    assert (Hfirst : exists first rest,
               body = first :: rest
               /\ Vertex.Y first = (if fst p0 =? 0 then snd p0 else 0)).
    { unfold body. destruct (fst p0 =? 0); cbn [app map]; eauto. }
    destruct Hfirst as [first [rest [Hbody HY]]].
    rewrite Hbody. rewrite <- Hbody. rewrite Hlast, HY.
    unfold vertex_of_pair at 1 2. cbn [Vertex.X Vertex.Y].
    destruct (negb (fst (last (p0 :: pairs) p0) =? levelWidth - 1)
              || negb (snd (last (p0 :: pairs) p0)
                       =? (if fst p0 =? 0 then snd p0 else 0)));
      reflexivity.
Qed.

Lemma pairs_of_file_nil (file : string) :
  pairs_of_file file = [] <-> fscanf_d_d file = None.
Proof.
  unfold pairs_of_file. cbn [scan_pairs].
  destruct (fscanf_d_d file) as [[[X Y] file']|]; split;
    try discriminate; reflexivity.
Qed.

Lemma pair_passes_range (levelWidth firstX : Z) (p : Z * Z) :
  pair_passes levelWidth firstX p = true ->
  0 <= fst p < levelWidth /\ 0 <= snd p /\ firstX <= fst p.
Proof.
  unfold pair_passes. rewrite !andb_true_iff, !Z.leb_le, Z.ltb_lt. lia.
Qed.

(** The shape of the list made from pairs that all pass. *)
Lemma vertices_of_pairs_shape (levelWidth : Z) (p0 : Z * Z)
  (pairs : list (Z * Z)) :
  forallb (pair_passes levelWidth (fst p0)) (p0 :: pairs) = true ->
  exists (first : Vertex.t) (rest : list Vertex.t),
    vertices_of_pairs levelWidth (p0 :: pairs) = first :: rest
    /\ Vertex.X first = 0
    /\ last rest first = Vertex.mk (levelWidth - 1) (Vertex.Y first)
    /\ Forall (fun v => 0 <= Vertex.X v < levelWidth /\ 0 <= Vertex.Y v)
              (first :: rest)
    /\ (2 <= levelWidth -> rest <> []).
Proof.
  intros Hpass. rewrite forallb_forall in Hpass.
  assert (Hp0 : 0 <= fst p0 < levelWidth /\ 0 <= snd p0).
  { destruct (pair_passes_range _ _ _ (Hpass p0 (or_introl eq_refl))). lia. }
  assert (Hbody : Forall (fun v => 0 <= Vertex.X v < levelWidth
                                   /\ 0 <= Vertex.Y v)
                         (map vertex_of_pair (p0 :: pairs))).
  { apply Forall_forall. intros v Hv. apply in_map_iff in Hv.
    destruct Hv as [p [<- Hp]].
    destruct (pair_passes_range _ _ _ (Hpass p Hp)). cbn. lia. }
  assert (Hlastp : forall d, last (map vertex_of_pair (p0 :: pairs)) d
                             = vertex_of_pair (last (p0 :: pairs) p0))
    by (intros d; apply last_of_map).
  assert (Hclosing : forall (l : list Vertex.t) (y : Z),
             Forall (fun v => 0 <= Vertex.X v < levelWidth /\ 0 <= Vertex.Y v) l ->
             0 <= y ->
             Forall (fun v => 0 <= Vertex.X v < levelWidth /\ 0 <= Vertex.Y v)
                    (l ++ [Vertex.mk (levelWidth - 1) y])).
  { intros l y Hl Hy. apply Forall_app. split; [exact Hl|].
    repeat constructor; cbn; lia. }
  unfold vertices_of_pairs.
  set (pl := last (p0 :: pairs) p0) in *.
  destruct (Z.eqb_spec (fst p0) 0) as [E0|E0]; cbn [app].
  - (* the first pair is the first vertex *)
    exists (vertex_of_pair p0).
    destruct (Z.eqb_spec (fst pl) (levelWidth - 1)) as [El|El];
      [destruct (Z.eqb_spec (snd pl) (snd p0)) as [Ey|Ey]|]; cbn [negb orb].
    + exists (map vertex_of_pair pairs). repeat split.
      * exact E0.
      * rewrite <- (last_cons _ _ (vertex_of_pair p0)).
        change (vertex_of_pair p0 :: map vertex_of_pair pairs)
          with (map vertex_of_pair (p0 :: pairs)).
        rewrite Hlastp. unfold vertex_of_pair. cbn [Vertex.Y].
        rewrite El, Ey. reflexivity.
      * exact Hbody.
      * intros Hw Hnil. destruct pairs; [|discriminate].
        unfold pl in El. cbn in El. lia.
    + exists (map vertex_of_pair pairs
              ++ [Vertex.mk (levelWidth - 1) (snd p0)]). repeat split.
      * exact E0.
      * apply (last_of_app _ [] _ _ (vertex_of_pair p0)).
      * apply (Hclosing _ _ Hbody). lia.
      * intros _ Hnil. destruct (map vertex_of_pair pairs); discriminate.
    + exists (map vertex_of_pair pairs
              ++ [Vertex.mk (levelWidth - 1) (snd p0)]). repeat split.
      * exact E0.
      * apply (last_of_app _ [] _ _ (vertex_of_pair p0)).
      * apply (Hclosing _ _ Hbody). lia.
      * intros _ Hnil. destruct (map vertex_of_pair pairs); discriminate.
  - (* a vertex (0,0) is put in front *)
    exists (Vertex.mk 0 0).
    destruct (Z.eqb_spec (fst pl) (levelWidth - 1)) as [El|El];
      [destruct (Z.eqb_spec (snd pl) 0) as [Ey|Ey]|]; cbn [negb orb].
    + exists (map vertex_of_pair (p0 :: pairs)). repeat split.
      * rewrite Hlastp.
        unfold vertex_of_pair. rewrite El, Ey. reflexivity.
      * constructor; [cbn; lia|exact Hbody].
      * discriminate.
    + exists (map vertex_of_pair (p0 :: pairs)
              ++ [Vertex.mk (levelWidth - 1) 0]). repeat split.
      * apply (last_of_app _ [] _ _ (vertex_of_pair p0)).
      * constructor; [cbn; lia|]. apply (Hclosing _ _ Hbody). lia.
      * discriminate.
    + exists (map vertex_of_pair (p0 :: pairs)
              ++ [Vertex.mk (levelWidth - 1) 0]). repeat split.
      * apply (last_of_app _ [] _ _ (vertex_of_pair p0)).
      * constructor; [cbn; lia|]. apply (Hclosing _ _ Hbody). lia.
      * discriminate.
Qed.

Lemma readVertexList_Ok (file : string) (levelWidth : Z) (vs : list Vertex.t) :
  readVertexList file levelWidth = Ok vs ->
  exists (p0 : Z * Z) (pairs : list (Z * Z)),
    pairs_of_file file = p0 :: pairs
    /\ forallb (pair_passes levelWidth (fst p0)) (p0 :: pairs) = true
    /\ vs = vertices_of_pairs levelWidth (p0 :: pairs).
Proof.
  rewrite readVertexList_of_pairs.
  destruct (pairs_of_file file) as [|p0 pairs]; [discriminate|].
  destruct (forallb (pair_passes levelWidth (fst p0)) (p0 :: pairs)) eqn:E;
    [|discriminate].
  intros [= <-]. exists p0, pairs. repeat split. exact E.
Qed.

Lemma readVertexList_shape (file : string) (levelWidth : Z)
  (vs : list Vertex.t) :
  readVertexList file levelWidth = Ok vs ->
  exists (first : Vertex.t) (rest : list Vertex.t),
    vs = first :: rest
    /\ Vertex.X first = 0
    /\ last rest first = Vertex.mk (levelWidth - 1) (Vertex.Y first)
    /\ Forall (fun v => 0 <= Vertex.X v < levelWidth /\ 0 <= Vertex.Y v) vs
    /\ (2 <= levelWidth -> rest <> []).
Proof.
  intros H. apply readVertexList_Ok in H.
  destruct H as [p0 [pairs [_ [Hpass ->]]]].
  destruct (vertices_of_pairs_shape levelWidth p0 pairs Hpass)
    as [first [rest [E H]]].
  exists first, rest. rewrite E. split; [reflexivity|exact H].
Qed.

(** A file is accepted exactly when it yields at least one pair and every
    pair has non-negative coordinates, an [X] below the width and an [X] not
    below that of the first pair; the list is then the pairs in file order,
    with a leading (0,0) and a closing vertex added where needed.  (Nothing
    is said of a later pair whose [X] is below that of the pair before it:
    the loop compares with the first pair only.) *)
Theorem accepted_files (file : string) (levelWidth : Z) (vs : list Vertex.t) :
  readVertexList file levelWidth = Ok vs
  <-> exists (p0 : Z * Z) (pairs : list (Z * Z)),
        pairs_of_file file = p0 :: pairs
        /\ forallb (pair_passes levelWidth (fst p0)) (p0 :: pairs) = true
        /\ vs = vertices_of_pairs levelWidth (p0 :: pairs).
Proof.
  split; [apply readVertexList_Ok|].
  rewrite readVertexList_of_pairs.
  intros [p0 [pairs [-> [-> ->]]]]. reflexivity.
Qed.

(** An accepted list starts in column 0, ends in the last column at the
    height of its first vertex, keeps every vertex inside the level, and has
    at least two vertices when the level is at least two columns wide. *)
Theorem accepted_list_is_normalised (file : string) (levelWidth : Z)
  (vs : list Vertex.t) :
  readVertexList file levelWidth = Ok vs ->
  exists (first : Vertex.t) (rest : list Vertex.t),
    vs = first :: rest
    /\ Vertex.X first = 0
    /\ last rest first = Vertex.mk (levelWidth - 1) (Vertex.Y first)
    /\ Forall (fun v => 0 <= Vertex.X v < levelWidth /\ 0 <= Vertex.Y v) vs
    /\ (2 <= levelWidth -> rest <> []).
Proof. apply readVertexList_shape. Qed.

Lemma accepted_list_is_normalised_witness :
  exists (first : Vertex.t) (rest : list Vertex.t),
    [Vertex.mk 0 0; Vertex.mk 100 7; Vertex.mk 899 0] = first :: rest
    /\ Vertex.X first = 0
    /\ last rest first = Vertex.mk (900 - 1) (Vertex.Y first)
    /\ Forall (fun v => 0 <= Vertex.X v < 900 /\ 0 <= Vertex.Y v)
              [Vertex.mk 0 0; Vertex.mk 100 7; Vertex.mk 899 0]
    /\ (2 <= 900 -> rest <> []).
Proof.
  apply (accepted_list_is_normalised hill_file 900).
  vm_compute. reflexivity.
Defined.

(** The reader leaves with the empty-file code exactly when the first call
    of [fscanf] does not return two numbers. *)
Theorem empty_file_exit (file : string) (levelWidth : Z) :
  readVertexList file levelWidth = Exit EXIT_EMPTYFILE_FAIL
  <-> fscanf_d_d file = None.
Proof.
  rewrite readVertexList_of_pairs, <- pairs_of_file_nil.
  destruct (pairs_of_file file) as [|p0 pairs].
  - split; reflexivity.
  - destruct (forallb (pair_passes levelWidth (fst p0)) (p0 :: pairs));
      split; discriminate.
Qed.

(** ** Where the terrain builder faults *)

Lemma buildSlopeMap_loops_outcome (levelWidth : Z) (rest : list Vertex.t) :
  forall (current : Vertex.t) (maps : array * array),
  (if ends_with_vertical_run current rest
   then buildSlopeMap_from levelWidth current rest maps = Crash
   else exists maps', buildSlopeMap_from levelWidth current rest maps = Ok maps')
  /\ (forall maxY : Z,
      if match rest with [] => true | _ => ends_with_vertical_run current rest end
      then buildSlopeMap_run levelWidth maxY current rest maps = Crash
      else exists maps',
             buildSlopeMap_run levelWidth maxY current rest maps = Ok maps').
Proof.
  induction rest as [|next rest1 IH]; intros current maps.
  - split; [exists maps; reflexivity | reflexivity].
  - cbn [buildSlopeMap_from buildSlopeMap_run ends_with_vertical_run].
    destruct (Vertex.X current =? Vertex.X next) eqn:E.
    + split; [|intros maxY].
      * destruct (IH next maps) as [_ H].
        specialize (H (if Vertex.Y current >=? Vertex.Y next
                       then Vertex.Y current else Vertex.Y next)).
        destruct rest1; exact H.
      * destruct (IH next maps) as [_ H].
        specialize (H (if Vertex.Y next >? maxY then Vertex.Y next else maxY)).
        destruct rest1; exact H.
    + split; [|intros maxY].
      * destruct (IH next (fill_range (fst maps) (Vertex.X current)
                             (Vertex.X next) (slope_between current next),
                           snd maps)) as [H _].
        destruct rest1; exact H.
      * destruct (IH next (end_of_run levelWidth maxY current next maps))
          as [H _].
        destruct rest1; exact H.
Qed.

Lemma buildSlopeMap_outcome (slopeMap fHeightMap : array)
  (current : Vertex.t) (rest : list Vertex.t) (levelWidth : Z) :
  if ends_with_vertical_run current rest
  then buildSlopeMap slopeMap fHeightMap (current :: rest) levelWidth = Crash
  else exists maps,
         buildSlopeMap slopeMap fHeightMap (current :: rest) levelWidth
         = Ok maps.
Proof.
  exact (proj1 (buildSlopeMap_loops_outcome levelWidth rest current
                  (slopeMap, fHeightMap))).
Qed.


Lemma round_columns_Uint16 (n : nat) : forall (x : Z) (a : array),
  Forall is_Uint16 (round_columns n x a).
Proof.
  induction n as [|n IH]; intros x a; cbn [round_columns].
  - apply Forall_nil.
  - apply Forall_cons.
    + apply to_Uint16_range.
    + apply IH.
Qed.

Lemma heightMap_of_vertices_outcome (first : Vertex.t) (rest : list Vertex.t)
  (levelWidth : Z) (fHeightMap0 slopeMap0 : array) :
  Vertex.X first = 0 ->
  if ends_with_vertical_run first rest
  then heightMap_of_vertices (first :: rest) levelWidth fHeightMap0 slopeMap0
       = Crash
  else exists heightMap : list Z,
         heightMap_of_vertices (first :: rest) levelWidth fHeightMap0 slopeMap0
         = Ok heightMap
         /\ List.length heightMap = Z.to_nat levelWidth
         /\ Forall is_Uint16 heightMap.
Proof.
  intros HX. unfold heightMap_of_vertices.
  pose proof (buildSlopeMap_outcome slopeMap0 fHeightMap0 first rest
                levelWidth) as H.
  destruct (ends_with_vertical_run first rest).
  - rewrite H. reflexivity.
  - destruct H as [maps Hmaps]. rewrite Hmaps.
    cbn [bind buildFHeightMap]. rewrite HX.
    change (negb (0 =? 0)) with false. cbn iota. cbn [bind].
    exists (round_columns (Z.to_nat levelWidth) 0
              (buildFHeightMap_loop (Z.to_nat levelWidth) levelWidth 1
                 (fst maps)
                 (store (snd maps) 0 (Float32.of_int (Vertex.Y first))))).
    split; [reflexivity|]. split.
    + apply length_round_columns.
    + apply round_columns_Uint16.
Qed.

Lemma buildHeightMap_outcome (file : string) (levelWidth : Z)
  (vs : list Vertex.t) (fHeightMap0 slopeMap0 : array) :
  readVertexList file levelWidth = Ok vs ->
  if list_ends_with_vertical_run vs
  then buildHeightMap file levelWidth fHeightMap0 slopeMap0 = Crash
  else exists heightMap : list Z,
         buildHeightMap file levelWidth fHeightMap0 slopeMap0
         = Ok (vs, heightMap)
         /\ List.length heightMap = Z.to_nat levelWidth
         /\ Forall is_Uint16 heightMap.
Proof.
  intros Hread.
  destruct (readVertexList_shape _ _ _ Hread) as [first [rest [-> [HX _]]]].
  unfold buildHeightMap. rewrite Hread. cbn [bind list_ends_with_vertical_run].
  pose proof (heightMap_of_vertices_outcome first rest levelWidth
                fHeightMap0 slopeMap0 HX) as H.
  destruct (ends_with_vertical_run first rest).
  - rewrite H. reflexivity.
  - destruct H as [heightMap [-> H]]. exists heightMap.
    split; [reflexivity|exact H].
Qed.

(** On a file the reader accepts, [buildHeightMap] faults when the list ends
    with two vertices in the same column, and otherwise returns the list and
    a height map of [levelWidth] cells, each a [Uint16]: the exit of
    [buildFHeightMap] for a list that does not start in column 0 is never
    taken. *)
Theorem buildHeightMap_of_accepted_file (file : string) (levelWidth : Z)
  (vs : list Vertex.t) (fHeightMap0 slopeMap0 : array) :
  readVertexList file levelWidth = Ok vs ->
  if list_ends_with_vertical_run vs
  then buildHeightMap file levelWidth fHeightMap0 slopeMap0 = Crash
  else exists heightMap : list Z,
         buildHeightMap file levelWidth fHeightMap0 slopeMap0
         = Ok (vs, heightMap)
         /\ List.length heightMap = Z.to_nat levelWidth
         /\ Forall is_Uint16 heightMap.
Proof. apply buildHeightMap_outcome. Qed.

Lemma buildHeightMap_of_accepted_file_witness :
  exists heightMap : list Z,
    buildHeightMap hill_file 900 zeros zeros
    = Ok ([Vertex.mk 0 0; Vertex.mk 100 7; Vertex.mk 899 0], heightMap)
    /\ List.length heightMap = Z.to_nat 900
    /\ Forall is_Uint16 heightMap.
Proof.
  apply (buildHeightMap_of_accepted_file hill_file 900
           [Vertex.mk 0 0; Vertex.mk 100 7; Vertex.mk 899 0] zeros zeros).
  vm_compute. reflexivity.
Defined.

Lemma ends_with_vertical_run_app (l : list Vertex.t) :
  forall current a b : Vertex.t,
  ends_with_vertical_run current (l ++ [a; b])
  = (Vertex.X a =? Vertex.X b).
Proof.
  induction l as [|c l IH]; intros current a b.
  - reflexivity.
  - change (ends_with_vertical_run current ((c :: l) ++ [a; b]))
      with (match l ++ [a; b] with
            | [] => Vertex.X current =? Vertex.X c
            | _ => ends_with_vertical_run c (l ++ [a; b])
            end).
    rewrite IH. destruct l; reflexivity.
Qed.

Lemma list_ends_with_vertical_run_app (l : list Vertex.t) (a b : Vertex.t) :
  list_ends_with_vertical_run (l ++ [a; b]) = (Vertex.X a =? Vertex.X b).
Proof.
  destruct l as [|c l].
  - reflexivity.
  - apply ends_with_vertical_run_app.
Qed.

(** An accepted file whose last pair is in the last column, at another height
    than the first vertex: the closing vertex is appended in that same
    column, and [buildHeightMap] faults. *)
Theorem closing_cliff_faults (file : string) (levelWidth : Z)
  (p0 : Z * Z) (pairs : list (Z * Z)) (fHeightMap0 slopeMap0 : array) :
  pairs_of_file file = p0 :: pairs ->
  forallb (pair_passes levelWidth (fst p0)) (p0 :: pairs) = true ->
  fst (last pairs p0) = levelWidth - 1 ->
  snd (last pairs p0) <> (if fst p0 =? 0 then snd p0 else 0) ->
  buildHeightMap file levelWidth fHeightMap0 slopeMap0 = Crash.
Proof.
  intros Hpairs Hpass HX HY.
  assert (Hread : readVertexList file levelWidth
                  = Ok (vertices_of_pairs levelWidth (p0 :: pairs))).
  { rewrite readVertexList_of_pairs, Hpairs, Hpass. reflexivity. }
  pose proof (buildHeightMap_outcome file levelWidth _ fHeightMap0 slopeMap0
                Hread) as H.
  assert (Hends : list_ends_with_vertical_run
                    (vertices_of_pairs levelWidth (p0 :: pairs)) = true).
  { unfold vertices_of_pairs. rewrite (last_cons pairs p0 p0).
    apply Z.eqb_neq in HY. rewrite HY, orb_true_r.
    destruct (@exists_last _ (p0 :: pairs) ltac:(discriminate))
      as [front [pl E]].
    assert (Hpl : pl = last pairs p0).
    { rewrite <- (last_cons pairs p0 p0), E.
      symmetry. apply (last_of_app front [] pl p0 p0). }
    rewrite E, map_app, app_assoc, <- app_assoc. cbn [map app].
    rewrite list_ends_with_vertical_run_app.
    unfold vertex_of_pair. cbn [Vertex.X]. rewrite Hpl, HX.
    apply Z.eqb_refl. }
  rewrite Hends in H. exact H.
Qed.

Lemma closing_cliff_faults_witness :
  buildHeightMap closing_cliff_file 900 zeros zeros = Crash.
Proof.
  apply (closing_cliff_faults closing_cliff_file 900 (0, 0) [(899, 5)]
           zeros zeros).
  - vm_compute. reflexivity.
  - vm_compute. reflexivity.
  - reflexivity.
  - vm_compute. discriminate.
Defined.

(** ** What the landing strips are *)

(** The inner loop of [findLandingStrips] always leaves a strip. *)
Lemma findLandingStrips_from_level (rest1 : list Vertex.t) :
  forall current next : Vertex.t,
  Vertex.Y current = Vertex.Y next ->
  findLandingStrips_from current (next :: rest1) <> [].
Proof.
  intros current next HY. cbn [findLandingStrips_from].
  apply Z.eqb_eq in HY. rewrite HY.
  generalize next. clear next HY.
  induction rest1 as [|n r' IH]; intros end_.
  - discriminate.
  - destruct (Vertex.Y n =? Vertex.Y end_); [apply IH|discriminate].
Qed.

Lemma findLandingStrips_from_nil (rest : list Vertex.t) :
  forall current : Vertex.t,
  findLandingStrips_from current rest = []
  <-> level_pair_from current rest = false.
Proof.
  induction rest as [|next rest1 IH]; intros current.
  - split; reflexivity.
  - cbn [level_pair_from].
    destruct (Z.eqb_spec (Vertex.Y current) (Vertex.Y next)) as [E|E].
    + split; [|discriminate].
      intros H. destruct (findLandingStrips_from_level rest1 current next E H).
    + cbn [orb]. rewrite <- IH. cbn [findLandingStrips_from].
      apply Z.eqb_neq in E. rewrite E. split; intros H; exact H.
Qed.

Lemma findLandingStrips_from_layout (n : nat) :
  forall (all rest : list Vertex.t) (current : Vertex.t),
  (List.length rest <= n)%nat ->
  incl (current :: rest) all ->
  Forall (fun f => exists a b, In a all /\ In b all
                               /\ Vertex.Y b = Vertex.Y a
                               /\ f = make_flat a b)
         (findLandingStrips_from current rest)
  /\ (vertices_in_order (current :: rest) ->
      Forall (fun v => 0 <= Vertex.X v < 65536) (current :: rest) ->
      Forall (fun f => Vertex.X current <= Flat.X f)
             (findLandingStrips_from current rest)
      /\ StronglySorted (fun f g => Flat.X f + Flat.length f <= Flat.X g)
                        (findLandingStrips_from current rest)).
Proof.
  induction n as [|n IH]; intros all rest current Hlen Hincl.
  - destruct rest; [|cbn [List.length] in Hlen; lia].
    cbn [findLandingStrips_from]. repeat split; constructor.
  - destruct rest as [|next rest1].
    + cbn [findLandingStrips_from]. repeat split; constructor.
    + cbn [List.length] in Hlen. cbn [findLandingStrips_from].
      assert (Hcur : In current all) by (apply Hincl; left; reflexivity).
      assert (Hincl' : incl (next :: rest1) all).
      { intros v Hv. apply Hincl. right. exact Hv. }
      destruct (Z.eqb_spec (Vertex.Y current) (Vertex.Y next)) as [EY|EY].
      * assert (Hscan : forall (r : list Vertex.t) (end_ : Vertex.t),
                 (List.length r <= n)%nat ->
                 incl (end_ :: r) all ->
                 Vertex.Y end_ = Vertex.Y current ->
                 let fs :=
                   (fix scan (end_ : Vertex.t) (r : list Vertex.t) {struct r}
                      : list Flat.t :=
                      match r with
                      | [] => [make_flat current end_]
                      | n0 :: r' =>
                          if Vertex.Y n0 =? Vertex.Y end_ then scan n0 r'
                          else make_flat current end_
                               :: findLandingStrips_from end_ r
                      end) end_ r in
                 Forall (fun f => exists a b, In a all /\ In b all
                                              /\ Vertex.Y b = Vertex.Y a
                                              /\ f = make_flat a b) fs
                 /\ (Vertex.X current <= Vertex.X end_ ->
                     0 <= Vertex.X current ->
                     vertices_in_order (end_ :: r) ->
                     Forall (fun v => 0 <= Vertex.X v < 65536) (end_ :: r) ->
                     Forall (fun f => Vertex.X current <= Flat.X f) fs
                     /\ StronglySorted
                          (fun f g => Flat.X f + Flat.length f <= Flat.X g)
                          fs)).
        { induction r as [|n0 r' IHr]; intros end_ Hr Hin HYe; cbv zeta.
          - assert (Hend : In end_ all) by (apply Hin; left; reflexivity).
            split.
            + repeat constructor. exists current, end_. auto.
            + intros _ _ _ _. split; repeat constructor. cbn. lia.
          - assert (Hend : In end_ all) by (apply Hin; left; reflexivity).
            assert (Hin' : incl (n0 :: r') all).
            { intros v Hv. apply Hin. right. exact Hv. }
            destruct (Z.eqb_spec (Vertex.Y n0) (Vertex.Y end_)) as [E0|E0].
            + cbn [List.length] in Hr.
              destruct (IHr n0 ltac:(lia) Hin' ltac:(lia)) as [H1 H2].
              split; [exact H1|].
              intros Hle H0 Hord Hran.
              apply StronglySorted_inv in Hord as [Hord' Hall].
              apply Forall_inv in Hall.
              apply H2; [lia|exact H0|exact Hord'|].
              apply Forall_inv_tail in Hran. exact Hran.
            + destruct (IH all (n0 :: r') end_ Hr Hin) as [H1 H2].
              split.
              * constructor; [|exact H1]. exists current, end_. auto.
              * intros Hle H0 Hord Hran. destruct (H2 Hord Hran) as [H3 H4].
                assert (Hx : 0 <= Vertex.X end_ < 65536)
                  by (apply Forall_inv in Hran; exact Hran).
                split.
                -- constructor; [cbn; lia|].
                   eapply Forall_impl; [|exact H3]. cbn beta. intros f Hf. lia.
                -- constructor; [exact H4|].
                   eapply Forall_impl; [|exact H3]. cbn beta. intros f Hf.
                   unfold make_flat. cbn [Flat.X Flat.length].
                   unfold to_Uint16. rewrite Z.mod_small by lia. lia. }
        destruct (Hscan rest1 next ltac:(lia) Hincl' ltac:(lia)) as [H1 H2].
        split; [exact H1|].
        intros Hord Hran.
        apply StronglySorted_inv in Hord as [Hord' Hall].
        apply Forall_inv in Hall.
        assert (Hx : 0 <= Vertex.X current < 65536)
          by (apply Forall_inv in Hran; exact Hran).
        apply Forall_inv_tail in Hran.
        apply H2; [lia|lia|exact Hord'|exact Hran].
      * destruct (IH all rest1 next ltac:(lia) Hincl') as [H1 H2].
        split; [exact H1|].
        intros Hord Hran. apply StronglySorted_inv in Hord as [Hord' Hall].
        apply Forall_inv in Hall. apply Forall_inv_tail in Hran.
        destruct (H2 Hord' Hran) as [H3 H4].
        split; [|exact H4].
        eapply Forall_impl; [|exact H3]. cbn beta. intros f Hf. lia.
Qed.

(** On a vertex list with no negative [X], no strip starts at -1: the last
    test of [findLandingStrips] fires only when no strip was found, and
    [firstFlat] holds the strips found. *)
Lemma findLandingStrips_inside (first : Vertex.t) (rest : list Vertex.t) :
  Forall (fun v => 0 <= Vertex.X v) (first :: rest) ->
  findLandingStrips (first :: rest) = findLandingStrips_from first rest.
Proof.
  intros Hx. unfold findLandingStrips. cbv zeta.
  destruct (findLandingStrips_from_layout (List.length rest) (first :: rest)
              rest first (Nat.le_refl _) (incl_refl _)) as [H _].
  destruct (findLandingStrips_from first rest) as [|f fs] eqn:E;
    [reflexivity|].
  assert (Hlast : In (last (f :: fs)
                        (Flat.mk (-1) (Flat.Y firstFlat_of_main)
                           (Flat.length firstFlat_of_main)
                           (Flat.scoreModifier firstFlat_of_main)))
                     (f :: fs)).
  { destruct (@exists_last _ (f :: fs) ltac:(discriminate)) as [front [l El]].
    rewrite El, (last_of_app front [] l _ l).
    apply in_or_app. right. left. reflexivity. }
  rewrite Forall_forall in H. destruct (H _ Hlast) as [a [b [Ha [_ [_ Hf]]]]].
  rewrite Forall_forall in Hx. specialize (Hx a Ha).
  rewrite Hf. unfold make_flat. cbn [Flat.X].
  destruct (Z.eqb_spec (Vertex.X a) (-1)); [lia|reflexivity].
Qed.

(** On a vertex list that is not [NULL] and has no negative [X], the search
    leaves no strip ([firstFlat] is [NULL]) exactly when no two vertices next
    to each other in the list have the same [Y]. *)
Theorem no_level_pair_no_strip (vs : list Vertex.t) :
  vs <> [] ->
  Forall (fun v => 0 <= Vertex.X v) vs ->
  findLandingStrips vs = [] <-> has_level_pair vs = false.
Proof.
  destruct vs as [|first rest]; [intros H; contradiction|].
  intros _ Hx. rewrite (findLandingStrips_inside first rest Hx).
  cbn [has_level_pair]. apply findLandingStrips_from_nil.
Qed.

Lemma no_level_pair_no_strip_witness :
  findLandingStrips [Vertex.mk 0 0; Vertex.mk 100 7; Vertex.mk 899 0] = []
  <-> has_level_pair [Vertex.mk 0 0; Vertex.mk 100 7; Vertex.mk 899 0]
      = false.
Proof.
  apply (no_level_pair_no_strip
           [Vertex.mk 0 0; Vertex.mk 100 7; Vertex.mk 899 0]).
  - discriminate.
  - repeat constructor; cbn; lia.
Defined.

(** On a vertex list that is not [NULL], every strip runs between two
    vertices of the list that have the same [Y]: it starts at the first, and
    its length is the distance between their [X] as a [Uint16]; the score
    modifier is the tier for that length when the length is below 72, and 0
    from 72 on. *)
Theorem strips_join_level_vertices (vs : list Vertex.t) :
  vs <> [] ->
  Forall (fun f => exists a b : Vertex.t,
                     In a vs /\ In b vs /\ Vertex.Y b = Vertex.Y a
                     /\ Flat.X f = Vertex.X a /\ Flat.Y f = Vertex.Y a
                     /\ Flat.length f = to_Uint16 (Vertex.X b - Vertex.X a)
                     /\ Flat.scoreModifier f
                        = (if Flat.length f <? 72
                           then tier_of_spec (Flat.length f) else 0))
         (findLandingStrips vs).
Proof.
  destruct vs as [|first rest]; [intros H; contradiction|]. intros _.
  destruct (findLandingStrips_cases first rest) as [-> | ->]; [|constructor].
  destruct (findLandingStrips_from_layout (List.length rest) (first :: rest)
              rest first (Nat.le_refl _) (incl_refl _)) as [H _].
  eapply Forall_impl; [|exact H]. cbn beta.
  intros f [a [b [Ha [Hb [HY ->]]]]]. exists a, b.
  unfold make_flat. cbn [Flat.X Flat.Y Flat.length Flat.scoreModifier].
  repeat split; try assumption.
  apply scoreModifier_of_length_cases, to_Uint16_range.
Qed.

Lemma strips_join_level_vertices_witness :
  Forall (fun f => exists a b : Vertex.t,
                     In a [Vertex.mk 0 3; Vertex.mk 30 3; Vertex.mk 40 9;
                           Vertex.mk 70 9; Vertex.mk 100 9; Vertex.mk 899 3]
                     /\ In b [Vertex.mk 0 3; Vertex.mk 30 3; Vertex.mk 40 9;
                              Vertex.mk 70 9; Vertex.mk 100 9;
                              Vertex.mk 899 3]
                     /\ Vertex.Y b = Vertex.Y a
                     /\ Flat.X f = Vertex.X a /\ Flat.Y f = Vertex.Y a
                     /\ Flat.length f = to_Uint16 (Vertex.X b - Vertex.X a)
                     /\ Flat.scoreModifier f
                        = (if Flat.length f <? 72
                           then tier_of_spec (Flat.length f) else 0))
         [Flat.mk 0 3 30 5; Flat.mk 40 9 60 1].
Proof.
  apply (strips_join_level_vertices
           [Vertex.mk 0 3; Vertex.mk 30 3; Vertex.mk 40 9; Vertex.mk 70 9;
            Vertex.mk 100 9; Vertex.mk 899 3]).
  discriminate.
Defined.

(** When the vertices are in the order of their [X], within the range of a
    [Uint16], the strips are too, and no strip reaches beyond the start of a
    later one. *)
Theorem strips_do_not_overlap (vs : list Vertex.t) :
  vertices_in_order vs ->
  Forall (fun v => 0 <= Vertex.X v < 65536) vs ->
  StronglySorted (fun f g => Flat.X f + Flat.length f <= Flat.X g)
                 (findLandingStrips vs).
Proof.
  destruct vs as [|first rest]; [intros _ _; repeat constructor|].
  intros Hord Hran.
  destruct (findLandingStrips_cases first rest) as [-> | ->]; [|constructor].
  apply (findLandingStrips_from_layout (List.length rest) (first :: rest)
           rest first (Nat.le_refl _) (incl_refl _)); assumption.
Qed.

Lemma strips_do_not_overlap_witness :
  StronglySorted (fun f g => Flat.X f + Flat.length f <= Flat.X g)
    (findLandingStrips
       [Vertex.mk 0 3; Vertex.mk 30 3; Vertex.mk 40 9; Vertex.mk 70 9;
        Vertex.mk 100 9; Vertex.mk 899 3]).
Proof.
  apply strips_do_not_overlap.
  - unfold vertices_in_order.
    repeat (constructor; [|repeat (constructor; [cbn; lia|]); constructor]).
    constructor.
  - repeat (constructor; [cbn; lia|]). constructor.
Defined.

(** ** The labels under the strips *)

Lemma tier_of_spec_positive (length : Z) :
  0 <= length ->
  ((if length <? 72 then tier_of_spec length else 0) >? 0)
  = (24 <=? length) && (length <? 72).
Proof.
  intros H. unfold tier_of_spec.
  destruct (Z.ltb_spec length 72); destruct (Z.ltb_spec length 24);
    destruct (Z.leb_spec 24 length); try lia; try reflexivity.
  all: cbn [andb]; apply Z.gtb_gt; lia.
Qed.

(** On the strips [findLandingStrips] leaves for a vertex list that is not
    [NULL], in the half second in which the labels are shown,
    [drawScoreModifiers] draws one label for each strip of a length from 24
    to 71, in the order of the list, showing the tier for that length, a
    number from 1 to 5; in the other half second it draws none. *)
Theorem labels_of_the_scoring_strips (g : game) (vs : list Vertex.t) :
  vs <> [] ->
  Terrain.firstFlat (GameState.terrain (fst g)) = findLandingStrips vs ->
  map shown (drawScoreModifiers g)
  = (if GameState.timeElapsed (fst g) mod 1000 <? 500
     then map (fun f => tier_of_spec (Flat.length f))
              (filter (fun f => (24 <=? Flat.length f)
                                && (Flat.length f <? 72))
                      (findLandingStrips vs))
     else [])
  /\ Forall (fun l => 1 <= shown l <= 5) (drawScoreModifiers g).
Proof.
  intros Hvs Hflats. unfold drawScoreModifiers. rewrite Hflats.
  change (SCORE_MOD_FLASH_TIME * 2) with 1000.
  change SCORE_MOD_FLASH_TIME with 500.
  destruct (GameState.timeElapsed (fst g) mod 1000 <? 500);
    [|split; [reflexivity|constructor]].
  pose proof (findLandingStrips_tiers vs Hvs) as Htiers. clear Hflats Hvs.
  induction (findLandingStrips vs) as [|f next IH]; [split; constructor|].
  apply Forall_cons_iff in Htiers. destruct Htiers as [[Hlen [Hmod Hb]] Hnext].
  destruct (IH Hnext) as [IH1 IH2].
  cbn [score_labels filter].
  rewrite <- (tier_of_spec_positive (Flat.length f))
    by (unfold is_Uint16 in Hlen; lia).
  rewrite <- Hmod.
  destruct (Z.gtb_spec (Flat.scoreModifier f) 0) as [Hpos|Hpos].
  - cbn [map shown]. rewrite IH1. split.
    + f_equal. rewrite Hmod.
      destruct (Flat.length f <? 72); [reflexivity|].
      rewrite Hmod in Hpos. lia.
    + constructor; [cbn [shown]; lia|exact IH2].
  - split; [exact IH1|exact IH2].
Qed.

Lemma labels_of_the_scoring_strips_witness :
  let g := (state_of (lander_at 100 375 Float32.zero Float32.zero)
              [Flat.mk 0 3 30 5; Flat.mk 40 9 60 1] (repeat 9 900) 0 1000,
            reset_camera) in
  map shown (drawScoreModifiers g) = [5; 1]
  /\ Forall (fun l => 1 <= shown l <= 5) (drawScoreModifiers g).
Proof.
  exact (labels_of_the_scoring_strips
           (state_of (lander_at 100 375 Float32.zero Float32.zero)
              [Flat.mk 0 3 30 5; Flat.mk 40 9 60 1] (repeat 9 900) 0 1000,
            reset_camera)
           [Vertex.mk 0 3; Vertex.mk 30 3; Vertex.mk 40 9; Vertex.mk 70 9;
            Vertex.mk 100 9; Vertex.mk 899 3]
           ltac:(discriminate) eq_refl).
Defined.

(** ** Leaving the game *)

Lemma buildTerrain_Ok (file : string) (levelWidth : Z)
  (fHeightMap0 slopeMap0 : array) (terrain : Terrain.t) :
  buildTerrain file levelWidth fHeightMap0 slopeMap0 = Ok terrain ->
  readVertexList file levelWidth = Ok (Terrain.firstVertex terrain)
  /\ Terrain.firstFlat terrain = findLandingStrips (Terrain.firstVertex terrain)
  /\ heightMap_of_vertices (Terrain.firstVertex terrain) levelWidth
       fHeightMap0 slopeMap0 = Ok (Terrain.heightMap terrain).
Proof.
  unfold buildTerrain, buildHeightMap.
  destruct (readVertexList file levelWidth) as [vs| |]; try discriminate.
  cbn [bind].
  destruct (heightMap_of_vertices vs levelWidth fHeightMap0 slopeMap0)
    as [hm| |] eqn:Hhm; try discriminate.
  cbn [bind fst snd]. intros [= <-]. repeat split. exact Hhm.
Qed.

(** On a terrain built from a file, for a level at least two columns wide,
    [cleanAndExit] reaches [exit] with its code when two vertices next to
    each other have the same [Y], and faults before reaching it otherwise:
    there is then no strip, and [freeFlatList] reads [first->next] of the
    [NULL] that [findLandingStrips] left in [firstFlat].  [freeVertexList]
    never faults there. *)
Theorem cleanAndExit_needs_a_strip (file : string) (levelWidth : Z)
  (fHeightMap0 slopeMap0 : array) (terrain : Terrain.t) (errorCode : Z) :
  buildTerrain file levelWidth fHeightMap0 slopeMap0 = Ok terrain ->
  2 <= levelWidth ->
  (exists freed, freeVertexList (Terrain.firstVertex terrain) = Ok freed)
  /\ cleanAndExit terrain errorCode
     = (if has_level_pair (Terrain.firstVertex terrain)
        then Exit errorCode else Crash).
Proof.
  intros Hbuilt Hw.
  destruct (buildTerrain_Ok _ _ _ _ _ Hbuilt) as [Hread [Hflats _]].
  destruct (readVertexList_shape _ _ _ Hread)
    as [first [rest [Hvs [_ [_ [Hrange Hrest]]]]]].
  specialize (Hrest Hw).
  assert (Hx : Forall (fun v => 0 <= Vertex.X v) (first :: rest)).
  { rewrite <- Hvs. eapply Forall_impl; [|exact Hrange].
    cbn beta. intros v Hv. lia. }
  unfold cleanAndExit. rewrite Hflats, Hvs.
  rewrite (findLandingStrips_inside first rest Hx).
  destruct rest as [|second rest]; [contradiction|].
  cbn [freeVertexList bind]. split; [eexists; reflexivity|].
  pose proof (findLandingStrips_from_nil (second :: rest) first) as H.
  cbn [has_level_pair].
  destruct (level_pair_from first (second :: rest)).
  - destruct (findLandingStrips_from first (second :: rest)) as [|f fs].
    + destruct H as [H _]. specialize (H eq_refl). discriminate.
    + reflexivity.
  - destruct H as [_ H]. rewrite (H eq_refl). reflexivity.
Qed.

Lemma cleanAndExit_needs_a_strip_witness :
  let terrain :=
    Terrain.mk [Vertex.mk 0 0; Vertex.mk 100 7; Vertex.mk 899 0] []
      (match heightMap_of_vertices
               [Vertex.mk 0 0; Vertex.mk 100 7; Vertex.mk 899 0] 900
               zeros zeros with
       | Ok heightMap => heightMap
       | _ => []
       end) in
  (exists freed, freeVertexList (Terrain.firstVertex terrain) = Ok freed)
  /\ cleanAndExit terrain 0 = Crash.
Proof.
  intros terrain.
  apply (cleanAndExit_needs_a_strip hill_file 900 zeros zeros terrain 0).
  - vm_compute. reflexivity.
  - lia.
Defined.

(** ** The clock and the altitude *)

(** For an elapsed time that fits an [int], the two numbers on the clock
    are the minutes, from 0 to 99, and the seconds, from 0 to 59, of the
    elapsed time taken modulo one hundred minutes. *)
Theorem clock_reading (state : GameState.t) :
  0 <= GameState.timeElapsed state <= INT_MAX ->
  0 <= getMinutes state <= 99
  /\ 0 <= getSeconds state <= 59
  /\ GameState.timeElapsed state mod 6000000
     = 60000 * getMinutes state + 1000 * getSeconds state
       + GameState.timeElapsed state mod 1000.
Proof.
  unfold INT_MAX, getMinutes, getSeconds, to_int32.
  set (t := GameState.timeElapsed state). intros Ht. cbv zeta.
  replace ((t + 2147483648) mod 4294967296 - 2147483648) with t
    by (rewrite Z.mod_small; lia).
  rewrite !Z.quot_div_nonneg by lia.
  rewrite !Z.rem_mod_nonneg
    by (try lia; apply Z.div_pos; lia).
  pose proof (Z.div_mod t 1000 ltac:(lia)) as E1.
  pose proof (Z.mod_pos_bound t 1000 ltac:(lia)) as B1.
  pose proof (Z.div_mod (t / 1000) 60 ltac:(lia)) as E2.
  pose proof (Z.mod_pos_bound (t / 1000) 60 ltac:(lia)) as B2.
  assert (E3 : t / 1000 / 60 = t / 60000)
    by (rewrite Z.div_div by lia; reflexivity).
  pose proof (Z.div_mod (t / 60000) 100 ltac:(lia)) as E4.
  pose proof (Z.mod_pos_bound (t / 60000) 100 ltac:(lia)) as B4.
  repeat split; try lia.
  symmetry. apply (Z.mod_unique_pos t 6000000 (t / 60000 / 100)); lia.
Qed.

Lemma clock_reading_witness :
  let state := GameState.mk respawned_lander 900 500 (Terrain.mk [] [] [])
                 0 7384250 0 1000 in
  0 <= getMinutes state <= 99
  /\ 0 <= getSeconds state <= 59
  /\ 7384250 mod 6000000
     = 60000 * getMinutes state + 1000 * getSeconds state + 7384250 mod 1000.
Proof.
  intros state. apply (clock_reading state).
  vm_compute. split; discriminate.
Defined.

Lemma register_collision_detected (state : GameState.t)
  (leftX middleX rightX : Z) (withSound : bool) :
  detected (register_collision state leftX middleX rightX withSound) = true.
Proof. apply register_collision_landingType. Qed.

(** While [collisionDetected] reports no collision, the altitude shown is
    positive: the middle sample it tests is the column [getAltitude] reads. *)
Theorem no_collision_positive_altitude (state : GameState.t)
  (landingType0 : Z) :
  0 < GameState.levelWidth state ->
  0 <= Lander.X (GameState.lander state) ->
  0 <= Lander.length (GameState.lander state) ->
  detected (collisionDetected state landingType0) = false ->
  0 < getAltitude state.
Proof.
  intros Hw Hx Hl. unfold collisionDetected.
  destruct (sample_hit state (leftX state));
    [rewrite register_collision_detected; discriminate|].
  destruct (sample_hit state (middleX state)) eqn:Hmid;
    [rewrite register_collision_detected; discriminate|].
  intros _.
  assert (Hrange : 0 <= middleX state < GameState.levelWidth state).
  { rewrite (middleX_mod state Hw Hx Hl). apply Z.mod_pos_bound. exact Hw. }
  rewrite (sample_hit_in_range state _ Hrange) in Hmid.
  unfold at_or_below_terrain in Hmid. apply Z.leb_gt in Hmid.
  unfold getAltitude. cbv zeta.
  change (Z.rem (Lander.X (GameState.lander state)
                 + Z.quot (Lander.length (GameState.lander state)) 2)
                (GameState.levelWidth state)) with (middleX state).
  lia.
Qed.

Lemma no_collision_positive_altitude_witness :
  0 < getAltitude
        (state_of (lander_at 100 375 Float32.zero Float32.zero) []
                  (repeat 50 900) 0 1000).
Proof.
  apply (no_collision_positive_altitude
           (state_of (lander_at 100 375 Float32.zero Float32.zero) []
                     (repeat 50 900) 0 1000) 0).
  - reflexivity.
  - vm_compute. discriminate.
  - vm_compute. discriminate.
  - vm_compute. reflexivity.
Defined.

(** ** Keys and fuel *)

(** The fields no key touches. *)
Lemma handleKey_effect (state : GameState.t) (sym : Key) :
  0 <= GameState.fuel state < 65536 ->
  let r := handleKey state sym in
  GameState.fuel (fst r)
  = GameState.fuel state
    - (if is_arrow (SDL_KEYDOWN sym) && (1 <=? GameState.fuel state)
       then 1 else 0)
  /\ Z.of_nat (snd r)
     = (if is_arrow (SDL_KEYDOWN sym) && (1 <=? GameState.fuel state)
        then 1 else 0)
  /\ (GameState.score (fst r), GameState.terrain (fst r),
      GameState.timeStart (fst r), GameState.timeElapsed (fst r),
      Lander.X (GameState.lander (fst r)), Lander.Y (GameState.lander (fst r)))
     = (GameState.score state, GameState.terrain state,
        GameState.timeStart state, GameState.timeElapsed state,
        Lander.X (GameState.lander state), Lander.Y (GameState.lander state)).
Proof.
  intros Hfuel.
  assert (Hthrust : forall change : Lander.t -> Lander.t,
             (forall l, Lander.X (change l) = Lander.X l
                        /\ Lander.Y (change l) = Lander.Y l) ->
             let r := thrust change state in
             GameState.fuel (fst r)
             = GameState.fuel state
               - (if 1 <=? GameState.fuel state then 1 else 0)
             /\ Z.of_nat (snd r)
                = (if 1 <=? GameState.fuel state then 1 else 0)
             /\ (GameState.score (fst r), GameState.terrain (fst r),
                 GameState.timeStart (fst r), GameState.timeElapsed (fst r),
                 Lander.X (GameState.lander (fst r)),
                 Lander.Y (GameState.lander (fst r)))
                = (GameState.score state, GameState.terrain state,
                   GameState.timeStart state, GameState.timeElapsed state,
                   Lander.X (GameState.lander state),
                   Lander.Y (GameState.lander state))).
  { intros change Hchange. unfold thrust. cbv zeta.
    change THRUST_FUEL_COST with 1. rewrite Z.geb_leb.
    destruct (Z.leb_spec 1 (GameState.fuel state)).
    - cbn [fst snd GameState.set_fuel set_lander GameState.fuel
             GameState.score GameState.terrain GameState.timeStart
             GameState.timeElapsed GameState.lander].
      destruct (Hchange (GameState.lander state)) as [-> ->].
      unfold to_Uint16. rewrite Z.mod_small by lia.
      repeat split.
    - cbn [fst snd]. repeat split. lia. }
  destruct sym; cbn [handleKey is_arrow andb].
  - apply Hthrust. intros l. split; reflexivity.
  - apply Hthrust. intros l. split; reflexivity.
  - apply Hthrust. intros l. split; reflexivity.
  - cbn [fst snd]. repeat split. lia.
Qed.

Lemma handleEvents_loop_effect (queue : list Event) :
  forall (state : GameState.t) (sounds : nat),
  0 <= GameState.fuel state < 65536 ->
  let h := handleEvents_loop queue state sounds in
  run h = negb (existsb is_quit queue)
  /\ pending h = after_quit queue
  /\ GameState.fuel (after h)
     = Z.max 0 (GameState.fuel state - arrows_before_quit queue)
  /\ Z.of_nat (thrusts h)
     = Z.of_nat sounds + (GameState.fuel state - GameState.fuel (after h))
  /\ (GameState.score (after h), GameState.terrain (after h),
      GameState.timeStart (after h), GameState.timeElapsed (after h),
      Lander.X (GameState.lander (after h)),
      Lander.Y (GameState.lander (after h)))
     = (GameState.score state, GameState.terrain state,
        GameState.timeStart state, GameState.timeElapsed state,
        Lander.X (GameState.lander state), Lander.Y (GameState.lander state)).
Proof.
  unfold arrows_before_quit.
  induction queue as [|e queue' IH]; intros state sounds Hfuel; cbv zeta.
  - cbn [handleEvents_loop run pending after thrusts existsb negb after_quit
           before_quit filter List.length].
    repeat split; lia.
  - destruct e as [|sym|].
    + cbn [handleEvents_loop run pending after thrusts existsb is_quit orb
             negb after_quit before_quit filter List.length].
      repeat split; lia.
    + cbn [handleEvents_loop existsb is_quit orb after_quit before_quit
             filter].
      destruct (handleKey_effect state sym Hfuel) as [Hf [Hn Hsame]].
      destruct (handleKey state sym) as [state' n]. cbn [fst snd] in *.
      assert (Hfuel' : 0 <= GameState.fuel state' < 65536).
      { rewrite Hf.
        destruct (is_arrow (SDL_KEYDOWN sym)
                  && (1 <=? GameState.fuel state)) eqn:E; [|lia].
        apply andb_true_iff in E. destruct E as [_ E].
        apply Z.leb_le in E. lia. }
      destruct (IH state' (sounds + n)%nat Hfuel')
        as [H1 [H2 [H3 [H4 H5]]]].
      split; [exact H1|]. split; [exact H2|].
      rewrite H5, Hsame. rewrite H3 in *. rewrite H4.
      rewrite Nat2Z.inj_add, Hn, Hf.
      destruct (is_arrow (SDL_KEYDOWN sym)) eqn:Ea; cbn [andb].
      * cbn [List.length]. rewrite Nat2Z.inj_succ.
        destruct (Z.leb_spec 1 (GameState.fuel state));
          repeat split; lia.
      * repeat split; lia.
    + cbn [handleEvents_loop existsb is_quit orb after_quit before_quit
             filter is_arrow].
      apply (IH state sounds Hfuel).
Qed.

(** [handleEvents] stops at the first [SDL_QUIT], which it reports, and
    leaves the events behind it in the queue.  Each arrow key pressed before
    it takes one unit of fuel and plays one thrust sound as long as there is
    fuel; the score, the terrain, the times and the position of the lander
    are not touched. *)
Theorem handleEvents_accounts_for_fuel (queue : list Event)
  (state : GameState.t) :
  0 <= GameState.fuel state < 65536 ->
  let h := handleEvents queue state in
  run h = negb (existsb is_quit queue)
  /\ pending h = after_quit queue
  /\ GameState.fuel (after h)
     = Z.max 0 (GameState.fuel state - arrows_before_quit queue)
  /\ Z.of_nat (thrusts h) = GameState.fuel state - GameState.fuel (after h)
  /\ (GameState.score (after h), GameState.terrain (after h),
      GameState.timeStart (after h), GameState.timeElapsed (after h),
      Lander.X (GameState.lander (after h)),
      Lander.Y (GameState.lander (after h)))
     = (GameState.score state, GameState.terrain state,
        GameState.timeStart state, GameState.timeElapsed state,
        Lander.X (GameState.lander state), Lander.Y (GameState.lander state)).
Proof.
  intros Hfuel.
  exact (handleEvents_loop_effect queue state 0 Hfuel).
Qed.

Lemma handleEvents_accounts_for_fuel_witness :
  let queue := [SDL_KEYDOWN SDLK_UP; SDL_other; SDL_KEYDOWN SDLK_LEFT;
                SDL_KEYDOWN SDLK_other; SDL_KEYDOWN SDLK_RIGHT; SDL_QUIT;
                SDL_KEYDOWN SDLK_UP] in
  let state := state_of (lander_at 100 375 Float32.zero Float32.zero) []
                        (repeat 50 900) 0 2 in
  let h := handleEvents queue state in
  run h = negb (existsb is_quit queue)
  /\ pending h = after_quit queue
  /\ GameState.fuel (after h)
     = Z.max 0 (GameState.fuel state - arrows_before_quit queue)
  /\ Z.of_nat (thrusts h) = GameState.fuel state - GameState.fuel (after h)
  /\ (GameState.score (after h), GameState.terrain (after h),
      GameState.timeStart (after h), GameState.timeElapsed (after h),
      Lander.X (GameState.lander (after h)),
      Lander.Y (GameState.lander (after h)))
     = (GameState.score state, GameState.terrain state,
        GameState.timeStart state, GameState.timeElapsed state,
        Lander.X (GameState.lander state), Lander.Y (GameState.lander state)).
Proof.
  intros queue state.
  apply (handleEvents_accounts_for_fuel queue state).
  vm_compute. split; [discriminate|reflexivity].
Defined.

(** With an empty tank no key changes anything and no sound is played. *)
Theorem empty_tank_ignores_keys (queue : list Event) (state : GameState.t) :
  GameState.fuel state = 0 ->
  after (handleEvents queue state) = state
  /\ thrusts (handleEvents queue state) = 0%nat.
Proof.
  intros Hfuel. unfold handleEvents.
  enough (H : forall sounds : nat,
             after (handleEvents_loop queue state sounds) = state
             /\ thrusts (handleEvents_loop queue state sounds) = sounds)
    by apply H.
  induction queue as [|e queue' IH]; intros sounds.
  - split; reflexivity.
  - destruct e as [|sym|]; cbn [handleEvents_loop].
    + split; reflexivity.
    + assert (Hkey : handleKey state sym = (state, 0%nat)).
      { destruct sym; unfold handleKey, thrust; try rewrite Hfuel;
          reflexivity. }
      rewrite Hkey, Nat.add_0_r. apply IH.
    + apply IH.
Qed.

Lemma empty_tank_ignores_keys_witness :
  let queue := [SDL_KEYDOWN SDLK_UP; SDL_KEYDOWN SDLK_LEFT] in
  let state := state_of (lander_at 100 375 Float32.zero Float32.zero) []
                        (repeat 50 900) 0 0 in
  after (handleEvents queue state) = state
  /\ thrusts (handleEvents queue state) = 0%nat.
Proof.
  intros queue state.
  apply (empty_tank_ignores_keys queue state). reflexivity.
Defined.

(** ** After a collision *)

Lemma respawned_lander_value :
  respawned_lander
  = Lander.mk (Float32.of_int LANDER_X_START) (Float32.of_int LANDER_Y_START)
      100 375 20 25 (Float32.of_int 0) (Float32.of_int 0).
Proof. vm_compute. reflexivity. Qed.

Lemma reset_camera_value :
  reset_camera
  = Camera.mk 0 500 (Float32.of_int 0) (Float32.of_int WINDOW_HEIGHT).
Proof. vm_compute. reflexivity. Qed.

(** The fields [applyCollision] leaves alone. *)
Lemma applyCollision_frame (timeWaiting : Z) (state : GameState.t)
  (landingType : Z) :
  let s := applyCollision timeWaiting state landingType in
  GameState.lander s = GameState.lander state
  /\ GameState.levelWidth s = GameState.levelWidth state
  /\ GameState.levelHeight s = GameState.levelHeight state
  /\ GameState.terrain s = GameState.terrain state
  /\ GameState.timeElapsed s = GameState.timeElapsed state.
Proof.
  unfold applyCollision.
  destruct (landingType =? 1); [|destruct (landingType =? 2)];
    repeat split.
Qed.

(** Whatever the collision and the state, the turn of the loop of [main] in
    which a collision is detected ends with the lander and the focus point
    at their starting places and with a tank that is neither empty nor
    beyond [FUEL_START]: the game never goes on in a state which [gameOver]
    would end; the terrain is kept. *)
Theorem after_a_collision_the_game_goes_on (timeWaiting : Z) (g : game)
  (landingType0 : Z) :
  detected (collisionDetected (fst g) landingType0) = true ->
  let g' := fst (collision_block timeWaiting g landingType0) in
  GameState.lander (fst g') = respawned_lander
  /\ snd g' = reset_camera
  /\ 1 <= GameState.fuel (fst g') <= FUEL_START
  /\ gameOver (fst g') = false
  /\ GameState.terrain (fst g') = GameState.terrain (fst g).
Proof.
  intros Hdet. unfold collision_block. rewrite Hdet. cbn [fst].
  unfold resolve_collision.
  set (s := applyCollision timeWaiting (fst g)
              (landingType (collisionDetected (fst g) landingType0))).
  assert (Hterrain : GameState.terrain s = GameState.terrain (fst g))
    by apply applyCollision_frame.
  destruct (gameOver s) eqn:Hover.
  - unfold hardReset. cbn [fst snd GameState.lander GameState.fuel
                             GameState.terrain].
    repeat split; try exact Hterrain; unfold FUEL_START; lia.
  - unfold softReset, set_lander.
    cbn [fst snd GameState.lander GameState.fuel GameState.terrain].
    unfold gameOver in *. cbn [GameState.fuel].
    rewrite Hover. apply orb_false_iff in Hover. destruct Hover as [H0 H1].
    apply Z.leb_gt in H0. rewrite Z.gtb_ltb in H1. apply Z.ltb_ge in H1.
    repeat split; try exact Hterrain; lia.
Qed.

Lemma after_a_collision_the_game_goes_on_witness :
  let g' := fst (collision_block 0 (low_on_fuel, reset_camera) 0) in
  GameState.lander (fst g') = respawned_lander
  /\ snd g' = reset_camera
  /\ 1 <= GameState.fuel (fst g') <= FUEL_START
  /\ gameOver (fst g') = false
  /\ GameState.terrain (fst g') = GameState.terrain low_on_fuel.
Proof.
  apply (after_a_collision_the_game_goes_on 0 (low_on_fuel, reset_camera) 0).
  vm_compute. reflexivity.
Defined.

(** A crash, in a game whose tank holds at most [FUEL_START]: with 200
    units of fuel or less the whole game starts again, the score is lost, the
    tank is filled and the clock is reset; with more, the crash costs 200
    units, the score stays, and the clock is put back by the time the message
    was shown. *)
Theorem crash_restarts_or_respawns (timeWaiting : Z) (g : game)
  (landingType0 : Z) :
  detected (collisionDetected (fst g) landingType0) = true ->
  landingType (collisionDetected (fst g) landingType0) = 2 ->
  0 <= GameState.fuel (fst g) <= FUEL_START ->
  let s' := fst (fst (collision_block timeWaiting g landingType0)) in
  (GameState.fuel s', GameState.score s',
   GameState.timeStart s', GameState.timeElapsed s')
  = if GameState.fuel (fst g) <=? CRASH_FUEL_COST
    then (FUEL_START, 0, 4294967295, 0)
    else (GameState.fuel (fst g) - CRASH_FUEL_COST,
          GameState.score (fst g),
          to_Uint32 (GameState.timeStart (fst g) + timeWaiting),
          GameState.timeElapsed (fst g)).
Proof.
  intros Hdet Htype Hfuel. unfold collision_block. rewrite Hdet, Htype.
  cbn [fst]. unfold resolve_collision, applyCollision.
  change (2 =? 1) with false. change (2 =? 2) with true. cbv iota.
  unfold showCollisionMessage, gameOver, hardReset, softReset, set_lander.
  cbn [fst snd GameState.set_fuel GameState.set_timeStart GameState.fuel
         GameState.score GameState.timeStart GameState.timeElapsed
         GameState.lander GameState.levelWidth GameState.levelHeight
         GameState.terrain].
  unfold FUEL_START, CRASH_FUEL_COST, to_Uint16 in *.
  set (fuel := GameState.fuel (fst g)) in *.
  destruct (Z.leb_spec fuel 200) as [Hlow|Hhigh].
  - assert (Hover : ((fuel - 200) mod 65536 <=? 0)
                    || ((fuel - 200) mod 65536 >? 1000) = true).
    { destruct (Z.eq_dec fuel 200) as [->|Hne]; [reflexivity|].
      replace ((fuel - 200) mod 65536) with (fuel + 65336)
        by (apply (Z.mod_unique_pos _ _ (-1)); lia).
      apply orb_true_iff. right. apply Z.gtb_gt. lia. }
    rewrite Hover. reflexivity.
  - rewrite (Z.mod_small (fuel - 200)) by lia.
    assert (Hover : (fuel - 200 <=? 0) || (fuel - 200 >? 1000) = false).
    { apply orb_false_iff. split; [apply Z.leb_gt; lia|].
      rewrite Z.gtb_ltb. apply Z.ltb_ge. lia. }
    rewrite Hover. reflexivity.
Qed.

Lemma crash_restarts_or_respawns_witness :
  let g := (state_of (lander_at 100 50 (Float32.of_int 3) Float32.zero) []
                     (repeat 50 900) 300 150, reset_camera) in
  let s' := fst (fst (collision_block 40 g 0)) in
  (GameState.fuel s', GameState.score s',
   GameState.timeStart s', GameState.timeElapsed s')
  = (FUEL_START, 0, 4294967295, 0).
Proof.
  apply (crash_restarts_or_respawns 40
           (state_of (lander_at 100 50 (Float32.of_int 3) Float32.zero) []
                     (repeat 50 900) 300 150, reset_camera) 0).
  - vm_compute. reflexivity.
  - vm_compute. reflexivity.
  - vm_compute. split; discriminate.
Defined.

(** A landing, in a game whose tank holds at most [FUEL_START]: with fuel
    left, the score grows by 100 times the modifier of the strip found (as a
    [Uint16]) and the fuel stays; with the tank empty the whole game starts
    again and the score, award included, is lost. *)
Theorem landing_on_an_empty_tank_restarts (timeWaiting : Z) (g : game)
  (landingType0 : Z) :
  detected (collisionDetected (fst g) landingType0) = true ->
  landingType (collisionDetected (fst g) landingType0) = 1 ->
  0 <= GameState.fuel (fst g) <= FUEL_START ->
  let s' := fst (fst (collision_block timeWaiting g landingType0)) in
  let modifier :=
    match find_flat (Terrain.firstFlat (GameState.terrain (fst g)))
                    (Lander.X (GameState.lander (fst g))) with
    | Some f => Flat.scoreModifier f
    | None => 0
    end in
  (GameState.fuel s', GameState.score s')
  = if GameState.fuel (fst g) =? 0
    then (FUEL_START, 0)
    else (GameState.fuel (fst g),
          to_Uint16 (GameState.score (fst g) + SCORE_FOR_LANDING * modifier)).
Proof.
  intros Hdet Htype Hfuel. unfold collision_block. rewrite Hdet, Htype.
  cbn [fst]. unfold resolve_collision, applyCollision.
  change (1 =? 1) with true. cbv iota.
  unfold showCollisionMessage, gameOver, hardReset, softReset, set_lander.
  cbn [fst snd GameState.set_score GameState.set_timeStart GameState.fuel
         GameState.score GameState.timeStart GameState.timeElapsed
         GameState.lander GameState.levelWidth GameState.levelHeight
         GameState.terrain].
  unfold FUEL_START in *.
  set (fuel := GameState.fuel (fst g)) in *.
  destruct (Z.eqb_spec fuel 0) as [->|Hne].
  - reflexivity.
  - assert (Hover : (fuel <=? 0) || (fuel >? 1000) = false).
    { apply orb_false_iff. split; [apply Z.leb_gt; lia|].
      rewrite Z.gtb_ltb. apply Z.ltb_ge. lia. }
    rewrite Hover. reflexivity.
Qed.

Lemma landing_on_an_empty_tank_restarts_witness :
  let g := (state_of (lander_at 100 50 Float32.zero Float32.zero)
              [Flat.mk 10 50 24 5; Flat.mk 90 50 32 4; Flat.mk 200 50 24 5]
              (repeat 50 900) 300 0, reset_camera) in
  let s' := fst (fst (collision_block 40 g 0)) in
  (GameState.fuel s', GameState.score s') = (FUEL_START, 0).
Proof.
  apply (landing_on_an_empty_tank_restarts 40
           (state_of (lander_at 100 50 Float32.zero Float32.zero)
              [Flat.mk 10 50 24 5; Flat.mk 90 50 32 4; Flat.mk 200 50 24 5]
              (repeat 50 900) 300 0, reset_camera) 0).
  - vm_compute. reflexivity.
  - vm_compute. reflexivity.
  - vm_compute. split; discriminate.
Defined.

(** [hardReset] puts a game of the standard level size back into the state
    in which [initializeGameState] left it: the same terrain, and every other
    field as at the launch. *)
Theorem hardReset_is_the_initial_game (g : game) :
  GameState.levelWidth (fst g) = LEVEL_WIDTH ->
  GameState.levelHeight (fst g) = LEVEL_HEIGHT ->
  hardReset g = initial_game (GameState.terrain (fst g)).
Proof.
  intros Hw Hh. unfold hardReset, initial_game. cbv zeta.
  rewrite Hw, Hh, respawned_lander_value, reset_camera_value.
  reflexivity.
Qed.

Lemma hardReset_is_the_initial_game_witness :
  hardReset (low_on_fuel, reset_camera)
  = initial_game (GameState.terrain low_on_fuel).
Proof.
  apply (hardReset_is_the_initial_game (low_on_fuel, reset_camera));
    reflexivity.
Defined.

(** ** A level first segment and the scratch array *)

Lemma Uint16_exact_as_float :
  forallb exact_as_float (columns (Z.to_nat 65536) 0) = true.
Proof. vm_compute. reflexivity. Qed.

Lemma exact_as_float_spec (y : Z) :
  0 <= y < 65536 ->
  Float32.add (Float32.of_int y) Float32.zero = Float32.of_int y
  /\ to_Uint16 (Float64.ceil (Float64.of_float (Float32.of_int y))) = y
  /\ (0 < y ->
      Float32.div (Float32.of_int 0) (Float32.of_int y) = Float32.zero).
Proof.
  intros Hy.
  pose proof Uint16_exact_as_float as H. rewrite forallb_forall in H.
  specialize (H y). rewrite In_columns in H. specialize (H ltac:(lia)).
  unfold exact_as_float in H.
  destruct (Float32.of_int y) as [[|]|[|]| |[|] m e] eqn:E; try discriminate.
  - apply Z.eqb_eq in H. subst y.
    split; [reflexivity|]. split; [reflexivity|]. lia.
  - apply andb_true_iff in H. destruct H as [H1 H2].
    apply Z.eqb_eq in H1.
    split; [reflexivity|]. split; [exact H1|].
    intros _.
    destruct (Float32.div (Float32.of_int 0) (S754_finite false m e))
      as [[|]|[|]| |[|] m' e']; try discriminate.
    reflexivity.
Qed.

(** The cells left of the second vertex once [buildSlopeMap] is through,
    when the first two vertices are in different columns and no later vertex
    lies left of the second: the slope of the first segment, and the scratch
    array as it was. *)
Lemma first_segment_cells (levelWidth : Z) (first next : Vertex.t)
  (post : list Vertex.t) (slopeMap0 fHeightMap0 slopeMap fHeightMap : array) :
  Vertex.X first = 0 ->
  0 < Vertex.X next ->
  Forall (fun v => Vertex.X next <= Vertex.X v) post ->
  buildSlopeMap slopeMap0 fHeightMap0 (first :: next :: post) levelWidth
  = Ok (slopeMap, fHeightMap) ->
  forall j, j < Vertex.X next ->
            fHeightMap j = fHeightMap0 j
            /\ (0 <= j -> slopeMap j = slope_between first next).
Proof.
  intros H0 Hn Hpost. unfold buildSlopeMap. cbn [buildSlopeMap_from].
  destruct (Z.eqb_spec (Vertex.X first) (Vertex.X next)); [lia|].
  cbn [fst snd]. intros Hrun j Hj.
  destruct (buildSlopeMap_loops_below levelWidth (Vertex.X next) post Hpost)
    as [Hbelow _].
  specialize (Hbelow next
                (fill_range slopeMap0 (Vertex.X first) (Vertex.X next)
                   (slope_between first next), fHeightMap0)
                (Z.le_refl _)).
  rewrite Hrun in Hbelow. cbn [cells_below_kept fst snd] in Hbelow.
  destruct (Hbelow j Hj) as [-> ->]. split; [reflexivity|].
  intros Hj0. apply fill_range_inside. lia.
Qed.

(** With a level first segment that covers columns 1 and 2, if the cell
    [fHeightMap[2]], which nothing has written, happens to hold -1, the
    loop of [buildFHeightMap] takes column 1 for the foot of a vertical run
    and steps over it: the height of column 1 is whatever the cell
    [fHeightMap[1]], which nothing has written either, happens to hold. *)
Theorem level_start_reads_unwritten_cells (levelWidth : Z)
  (first next : Vertex.t) (post : list Vertex.t)
  (fHeightMap0 slopeMap0 : array) (heightMap : list Z) :
  Vertex.X first = 0 ->
  Vertex.Y next = Vertex.Y first ->
  3 <= Vertex.X next < 65536 ->
  Forall (fun v => Vertex.X next <= Vertex.X v) post ->
  3 <= levelWidth ->
  fHeightMap0 2 = Float32.minus_one ->
  heightMap_of_vertices (first :: next :: post) levelWidth
                        fHeightMap0 slopeMap0 = Ok heightMap ->
  heightAt heightMap 1
  = to_Uint16 (Float64.ceil (Float64.of_float (fHeightMap0 1))).
Proof.
  intros H0 HY Hn Hpost Hw Hmark. unfold heightMap_of_vertices.
  destruct (buildSlopeMap slopeMap0 fHeightMap0 (first :: next :: post)
              levelWidth) as [[slopeMap fHeightMap]| |] eqn:Hmaps;
    try discriminate.
  cbn [bind buildFHeightMap fst snd]. rewrite H0.
  change (negb (0 =? 0)) with false. cbv iota. cbn [bind].
  intros [= <-].
  pose proof (first_segment_cells levelWidth first next post slopeMap0
                fHeightMap0 slopeMap fHeightMap H0 ltac:(lia) Hpost Hmaps)
    as Hcells.
  assert (Hslope : slope_between first next = Float32.zero).
  { unfold slope_between. rewrite HY, H0, Z.sub_diag, Z.sub_0_r.
    apply exact_as_float_spec; lia. }
  unfold heightAt. change (Z.to_nat 1) with 1%nat.
  rewrite nth_round_columns by lia. do 3 f_equal.
  change (0 + Z.of_nat 1) with 1.
  destruct (Z.to_nat levelWidth) as [|fuel] eqn:Hfuel; [lia|].
  cbn [buildFHeightMap_loop].
  destruct (Z.ltb_spec 1 levelWidth); [|lia].
  assert (Htest : undefined_slope_at levelWidth 1 slopeMap
                    (store fHeightMap 0 (Float32.of_int (Vertex.Y first)))
                  = true).
  { unfold undefined_slope_at. change (1 + 1) with 2.
    rewrite (proj2 (Hcells 1 ltac:(lia)) ltac:(lia)), Hslope.
    rewrite store_other by lia.
    rewrite (proj1 (Hcells 2 ltac:(lia))), Hmark.
    destruct (Z.ltb_spec 1 (levelWidth - 1)); [reflexivity|lia]. }
  rewrite Htest. rewrite buildFHeightMap_loop_below by lia.
  rewrite !store_other by lia. apply Hcells. lia.
Qed.

Lemma level_start_reads_unwritten_cells_witness :
  let fHeightMap0 : array :=
    fun j => if j =? 2 then Float32.minus_one else Float32.of_int 123 in
  let heightMap :=
    match heightMap_of_vertices [Vertex.mk 0 0; Vertex.mk 899 0] 900
            fHeightMap0 zeros with
    | Ok heightMap => heightMap
    | _ => []
    end in
  heightAt heightMap 1
  = to_Uint16 (Float64.ceil (Float64.of_float (fHeightMap0 1))).
Proof.
  intros fHeightMap0 heightMap.
  apply (level_start_reads_unwritten_cells 900 (Vertex.mk 0 0)
           (Vertex.mk 899 0) [] fHeightMap0 zeros heightMap).
  - reflexivity.
  - reflexivity.
  - cbn. lia.
  - constructor.
  - lia.
  - reflexivity.
  - vm_compute. reflexivity.
Defined.

(** The loop of [buildFHeightMap] along a level stretch whose cells ahead do
    not hold -1: every column up to the last but one of the stretch gets the
    height [h] of the column before it. *)
Lemma buildFHeightMap_loop_level (levelWidth n : Z) (slopeMap : array)
  (h : spec_float) (fuel : nat) :
  n <= levelWidth ->
  Float32.add h Float32.zero = h ->
  (forall j, 0 <= j < n -> slopeMap j = Float32.zero) ->
  forall (x : Z) (fHeightMap : array),
  1 <= x ->
  levelWidth <= x + Z.of_nat fuel ->
  fHeightMap (x - 1) = h ->
  (forall j, x + 1 <= j < n ->
             Float32.eqb (fHeightMap j) Float32.minus_one = false) ->
  forall j, x <= j < n - 1 ->
            buildFHeightMap_loop fuel levelWidth x slopeMap fHeightMap j = h.
Proof.
  intros Hn Hadd Hslope. induction fuel as [|fuel IH];
    intros x fHeightMap Hx Hfuel Hprev Hahead j Hj; [lia|].
  cbn [buildFHeightMap_loop].
  destruct (Z.ltb_spec x levelWidth); [|lia].
  assert (Htest : undefined_slope_at levelWidth x slopeMap fHeightMap = false).
  { unfold undefined_slope_at. rewrite (Hahead (x + 1)) by lia.
    apply andb_false_r. }
  rewrite Htest, Hprev, (Hslope (x - 1)) by lia. rewrite Hadd.
  destruct (Z.eq_dec j x) as [->|Hne].
  - rewrite buildFHeightMap_loop_below by lia. apply store_same.
  - apply IH; try lia.
    + replace (x + 1 - 1) with x by lia. apply store_same.
    + intros k Hk. rewrite store_other by lia. apply Hahead. lia.
Qed.

(** With a level first segment from column 0 to column [n], at a height
    [y] that fits a [Uint16], the height map is [y] in every column up to
    [n - 2], provided none of the cells [fHeightMap[2]], ...,
    [fHeightMap[n - 1]], which nothing has written, happens to hold -1. *)
Theorem level_start_is_level (levelWidth : Z)
  (first next : Vertex.t) (post : list Vertex.t)
  (fHeightMap0 slopeMap0 : array) (heightMap : list Z) :
  Vertex.X first = 0 ->
  Vertex.Y next = Vertex.Y first ->
  0 <= Vertex.Y first < 65536 ->
  0 < Vertex.X next < 65536 ->
  Vertex.X next <= levelWidth ->
  Forall (fun v => Vertex.X next <= Vertex.X v) post ->
  (forall j, 2 <= j < Vertex.X next ->
             Float32.eqb (fHeightMap0 j) Float32.minus_one = false) ->
  heightMap_of_vertices (first :: next :: post) levelWidth
                        fHeightMap0 slopeMap0 = Ok heightMap ->
  forall j, 0 <= j < Vertex.X next - 1 ->
            heightAt heightMap j = Vertex.Y first.
Proof.
  intros H0 HY Hy Hn Hw Hpost Hscratch. unfold heightMap_of_vertices.
  destruct (buildSlopeMap slopeMap0 fHeightMap0 (first :: next :: post)
              levelWidth) as [[slopeMap fHeightMap]| |] eqn:Hmaps;
    try discriminate.
  cbn [bind buildFHeightMap fst snd]. rewrite H0.
  change (negb (0 =? 0)) with false. cbv iota. cbn [bind].
  intros [= <-] j Hj.
  pose proof (first_segment_cells levelWidth first next post slopeMap0
                fHeightMap0 slopeMap fHeightMap H0 ltac:(lia) Hpost Hmaps)
    as Hcells.
  destruct (exact_as_float_spec (Vertex.Y first) Hy) as [Hadd [Hread _]].
  assert (Hslope : slope_between first next = Float32.zero).
  { unfold slope_between. rewrite HY, H0, Z.sub_diag, Z.sub_0_r.
    apply exact_as_float_spec; lia. }
  unfold heightAt.
  rewrite nth_round_columns by lia.
  rewrite Z.add_0_l, Z2Nat.id by lia.
  rewrite <- Hread at 2. do 3 f_equal.
  destruct (Z.eq_dec j 0) as [->|Hj0].
  - rewrite buildFHeightMap_loop_below by lia. apply store_same.
  - apply (buildFHeightMap_loop_level levelWidth (Vertex.X next)); try lia.
    + exact Hadd.
    + intros k Hk. rewrite (proj2 (Hcells k ltac:(lia)) ltac:(lia)).
      exact Hslope.
    + apply store_same.
    + intros k Hk. rewrite store_other by lia.
      rewrite (proj1 (Hcells k ltac:(lia))). apply Hscratch. lia.
Qed.

Lemma level_start_is_level_witness :
  heightAt
    (match heightMap_of_vertices
             [Vertex.mk 0 40; Vertex.mk 72 40; Vertex.mk 100 50;
              Vertex.mk 899 40] 900 zeros zeros with
     | Ok heightMap => heightMap
     | _ => []
     end) 70 = 40.
Proof.
  apply (level_start_is_level 900 (Vertex.mk 0 40) (Vertex.mk 72 40)
           [Vertex.mk 100 50; Vertex.mk 899 40] zeros zeros).
  - reflexivity.
  - reflexivity.
  - cbn. lia.
  - cbn. lia.
  - cbn. lia.
  - repeat (constructor; [cbn; lia|]). constructor.
  - intros j _. reflexivity.
  - vm_compute. reflexivity.
  - cbn. lia.
Defined.

(** ** The outline drawn *)

Lemma drawTerrain_skip_leading (focusPointX : Z) (pre : list Vertex.t) :
  forall (prev : option Vertex.t) (p c : Vertex.t) (post : list Vertex.t),
  Forall (fun v => Vertex.X v <= focusPointX) (pre ++ [p]) ->
  focusPointX < Vertex.X c ->
  drawTerrain_skip focusPointX prev (pre ++ p :: c :: post)
  = (Some p, c :: post).
Proof.
  induction pre as [|v pre IH]; intros prev p c post Hpre Hc.
  - cbn [app] in Hpre. apply Forall_inv in Hpre. cbn beta in Hpre.
    cbn [app drawTerrain_skip].
    destruct (Z.leb_spec (Vertex.X p) focusPointX); [|lia].
    destruct (Z.leb_spec (Vertex.X c) focusPointX); [lia|reflexivity].
  - cbn [app drawTerrain_skip]. cbn [app] in Hpre.
    pose proof (Forall_inv Hpre) as Hv. cbn beta in Hv.
    apply Forall_inv_tail in Hpre.
    destruct (Z.leb_spec (Vertex.X v) focusPointX); [|lia].
    apply IH; assumption.
Qed.

Lemma drawTerrain_lines_outline (g : game) (rightEdge : Z)
  (current : list Vertex.t) :
  Camera.focusPointX (snd g) = 0 ->
  forall prev : Vertex.t,
  Forall (fun v => Vertex.X v <= rightEdge) (prev :: current) ->
  drawTerrain_lines g 0 (fun p => Vertex.X p <=? rightEdge) prev current
  = outline (Camera.focusPointY (snd g)) prev current.
Proof.
  intros Hfx. induction current as [|c next IH]; intros prev Hall.
  - reflexivity.
  - cbn [drawTerrain_lines outline].
    pose proof (Forall_inv Hall) as Hp. cbn beta in Hp.
    apply Forall_inv_tail in Hall.
    destruct (Z.leb_spec (Vertex.X prev) rightEdge); [|lia].
    rewrite (IH c Hall). unfold line_between. rewrite Hfx.
    rewrite !Z.sub_0_r, !Z.add_0_r. reflexivity.
Qed.

(** With the focus point in column 0, where both resets put it, and every
    vertex inside the level, [drawTerrain] starts at the last of the leading
    vertices that are in column 0 and draws one line for each pair of
    neighbours from there on, to the end of the list, each once; the
    vertices before that one, a cliff in column 0, are not drawn. *)
Theorem drawTerrain_from_the_left_edge (g : game)
  (pre post : list Vertex.t) (p c : Vertex.t) :
  Camera.focusPointX (snd g) = 0 ->
  Terrain.firstVertex (GameState.terrain (fst g)) = pre ++ p :: c :: post ->
  Forall (fun v => Vertex.X v = 0) (pre ++ [p]) ->
  0 < Vertex.X c ->
  Forall (fun v => 0 <= Vertex.X v < GameState.levelWidth (fst g))
         (c :: post) ->
  drawTerrain g = Ok (outline (Camera.focusPointY (snd g)) p (c :: post)).
Proof.
  intros Hfx Hvs Hpre Hc Hall.
  assert (Hw : 0 < GameState.levelWidth (fst g))
    by (apply Forall_inv in Hall; lia).
  assert (Hskip : drawTerrain_skip 0 None (pre ++ p :: c :: post)
                  = (Some p, c :: post)).
  { apply drawTerrain_skip_leading; [|exact Hc].
    eapply Forall_impl; [|exact Hpre]. cbn beta. intros; lia. }
  assert (Hfirst : exists first after_first,
             pre ++ p :: c :: post = first :: after_first
             /\ Vertex.X first = 0).
  { destruct pre as [|v pre]; cbn [app] in *.
    - exists p, (c :: post). split; [reflexivity|].
      apply Forall_inv in Hpre. exact Hpre.
    - exists v, (pre ++ p :: c :: post). split; [reflexivity|].
      apply Forall_inv in Hpre. exact Hpre. }
  assert (Hp : Vertex.X p = 0).
  { apply Forall_app in Hpre. destruct Hpre as [_ Hpre].
    apply Forall_inv in Hpre. exact Hpre. }
  destruct Hfirst as [first [after_first [E Hfirst0]]].
  unfold drawTerrain. cbv zeta. rewrite Hvs, Hfx, Hskip, E.
  destruct (Z.eqb_spec (GameState.levelWidth (fst g)) 0); [lia|].
  rewrite (drawTerrain_lines_outline g _ (c :: post) Hfx p).
  - destruct (Z.leb_spec (Z.rem (0 + WINDOW_WIDTH)
                                (GameState.levelWidth (fst g))) 0)
      as [Hwrap|Hwrap]; [|reflexivity].
    assert (Hrem : 0 <= Z.rem (0 + WINDOW_WIDTH)
                               (GameState.levelWidth (fst g))).
    { apply Z.rem_nonneg; [lia|]. unfold WINDOW_WIDTH. lia. }
    destruct after_first as [|second after_second];
      cbn [drawTerrain_lines]; [rewrite app_nil_r; reflexivity|].
    destruct (Z.ltb_spec (Vertex.X first)
                (Z.rem (0 + WINDOW_WIDTH) (GameState.levelWidth (fst g))));
      [lia|].
    rewrite app_nil_r. reflexivity.
  - assert (Hmax : GameState.levelWidth (fst g)
                   <= Int.max (0 + WINDOW_WIDTH)
                              (GameState.levelWidth (fst g))).
    { unfold Int.max. rewrite Z.geb_leb.
      destruct (Z.leb_spec (GameState.levelWidth (fst g))
                           (0 + WINDOW_WIDTH)); lia. }
    constructor.
    + lia.
    + eapply Forall_impl; [|exact Hall]. cbn beta. intros v Hv. lia.
Qed.

Lemma drawTerrain_from_the_left_edge_witness :
  drawTerrain
    (GameState.mk respawned_lander 900 500
       (Terrain.mk [Vertex.mk 0 5; Vertex.mk 0 9; Vertex.mk 899 5] [] [])
       0 0 0 1000,
     reset_camera)
  = Ok [mkLine 0 491 899 495].
Proof.
  apply (drawTerrain_from_the_left_edge
           (GameState.mk respawned_lander 900 500
              (Terrain.mk [Vertex.mk 0 5; Vertex.mk 0 9; Vertex.mk 899 5]
                          [] [])
              0 0 0 1000,
            reset_camera)
           [Vertex.mk 0 5] [] (Vertex.mk 0 9) (Vertex.mk 899 5)).
  - reflexivity.
  - reflexivity.
  - repeat constructor.
  - reflexivity.
  - repeat constructor; cbn; lia.
Defined.

(** ** The scratch arrays, for any two contents *)

(** For a vertex list that passes the check [well_recorded] (run on arrays
    filled with a marker, [buildSlopeMap] writes every cell of [slopeMap] up
    to column [levelWidth - 2], and every column of slope zero whose next
    cell of [fHeightMap] it marks with -1 lies next to a height it wrote and
    away from the last column), two runs of the terrain builder give the same
    outcome whatever the two automatic arrays hold on entry, as long as, in
    both runs, none of the cells of [fHeightMap] that are compared with -1
    before anything is written into them ([compared_cells]) holds -1.  The
    check fails for some lists the reader returns, a vertical run in column
    [levelWidth - 2] among them; nothing is said of those. *)
Theorem height_map_whatever_the_scratch (first : list Vertex.t)
  (levelWidth : Z) (slopeMapN fHeightMapN : array)
  (fHeightMap0 slopeMap0 fHeightMap1 slopeMap1 : array) :
  buildSlopeMap unrecorded unrecorded first levelWidth
  = Ok (slopeMapN, fHeightMapN) ->
  well_recorded levelWidth slopeMapN fHeightMapN = true ->
  (forall j, In j (compared_cells levelWidth slopeMapN fHeightMapN) ->
             Float32.eqb (fHeightMap0 j) Float32.minus_one = false) ->
  (forall j, In j (compared_cells levelWidth slopeMapN fHeightMapN) ->
             Float32.eqb (fHeightMap1 j) Float32.minus_one = false) ->
  heightMap_of_vertices first levelWidth fHeightMap0 slopeMap0
  = heightMap_of_vertices first levelWidth fHeightMap1 slopeMap1.
Proof.
  intros HN Hwell H0 H1.
  rewrite (heights_independent_of_scratch first levelWidth fHeightMap0
             slopeMap0 slopeMapN fHeightMapN HN Hwell H0).
  rewrite (heights_independent_of_scratch first levelWidth fHeightMap1
             slopeMap1 slopeMapN fHeightMapN HN Hwell H1).
  reflexivity.
Qed.

Lemma height_map_whatever_the_scratch_witness :
  heightMap_of_vertices [Vertex.mk 0 0; Vertex.mk 72 0; Vertex.mk 100 50;
                         Vertex.mk 899 0] 900
    zeros zeros
  = heightMap_of_vertices [Vertex.mk 0 0; Vertex.mk 72 0; Vertex.mk 100 50;
                           Vertex.mk 899 0] 900
      (fun _ => Float32.of_int 7) (fun _ => Float32.minus_one).
Proof.
  assert (HN : exists maps,
             buildSlopeMap unrecorded unrecorded
               [Vertex.mk 0 0; Vertex.mk 72 0; Vertex.mk 100 50;
                Vertex.mk 899 0] 900 = Ok maps).
  { eexists. reflexivity. }
  destruct HN as [[slopeMapN fHeightMapN] HN].
  apply (height_map_whatever_the_scratch
           [Vertex.mk 0 0; Vertex.mk 72 0; Vertex.mk 100 50; Vertex.mk 899 0]
           900 slopeMapN fHeightMapN _ _ _ _ HN).
  - injection HN as <- <-. vm_compute. reflexivity.
  - intros j _. reflexivity.
  - intros j _. reflexivity.
Defined.

(** ** A vertical run next to the last vertex *)

Lemma fill_range_above (a : array) (lo hi : Z) (v : spec_float) (j : Z) :
  hi <= j -> fill_range a lo hi v j = a j.
Proof.
  intros H. unfold fill_range. rewrite fill_spec.
  destruct (Z.leb_spec lo j); [|reflexivity].
  destruct (Z.ltb_spec j (lo + Z.of_nat (Z.to_nat (hi - lo))));
    [lia|reflexivity].
Qed.

(** The cell [slopeMap[j]] is left alone when every vertex but the last lies
    left of column [j] and the last one lies in it or left of it. *)
Lemma buildSlopeMap_loops_keep_slope (levelWidth j : Z)
  (front : list Vertex.t) :
  forall (current lastv : Vertex.t) (maps : array * array),
  Forall (fun v => Vertex.X v < j) (current :: front) ->
  Vertex.X lastv <= j ->
  match buildSlopeMap_from levelWidth current (front ++ [lastv]) maps with
  | Ok r => fst r j = fst maps j
  | _ => True
  end
  /\ (forall maxY : Z,
      match buildSlopeMap_run levelWidth maxY current (front ++ [lastv]) maps
      with
      | Ok r => fst r j = fst maps j
      | _ => True
      end).
Proof.
  induction front as [|next front IH]; intros current lastv maps Hall Hlast.
  - pose proof (Forall_inv Hall) as Hc. cbn beta in Hc.
    cbn [app buildSlopeMap_from buildSlopeMap_run].
    destruct (Vertex.X current =? Vertex.X lastv); split; try exact I;
      try (intros maxY; exact I).
    + cbn [fst]. apply fill_range_above. exact Hlast.
    + intros maxY. destruct maps as [sM fH]. unfold end_of_run. cbn [fst].
      rewrite fill_range_above by exact Hlast. apply store_other. lia.
  - pose proof (Forall_inv Hall) as Hc. cbn beta in Hc.
    pose proof (Forall_inv_tail Hall) as Hall'.
    pose proof (Forall_inv Hall') as Hn. cbn beta in Hn.
    cbn [app buildSlopeMap_from buildSlopeMap_run].
    destruct (Vertex.X current =? Vertex.X next); split.
    + apply (IH next lastv maps Hall' Hlast).
    + intros maxY. apply (IH next lastv maps Hall' Hlast).
    + destruct (IH next lastv
                  (fill_range (fst maps) (Vertex.X current) (Vertex.X next)
                     (slope_between current next), snd maps) Hall' Hlast)
        as [H _].
      destruct (buildSlopeMap_from levelWidth next (front ++ [lastv]) _)
        as [r| |]; try exact I.
      rewrite H. cbn [fst]. apply fill_range_above. lia.
    + intros maxY.
      destruct (IH next lastv (end_of_run levelWidth maxY current next maps)
                  Hall' Hlast) as [H _].
      destruct (buildSlopeMap_from levelWidth next (front ++ [lastv]) _)
        as [r| |]; try exact I.
      rewrite H. destruct maps as [sM fH]. unfold end_of_run. cbn [fst].
      rewrite fill_range_above by lia. apply store_other. lia.
Qed.

(** A vertical run in a column [c >= 1], entered from a vertex with another
    [X], whose next vertex is the last of the list and lies in column
    [c + 1], every earlier vertex lying in column [c] or left of it (for a
    list the reader returns, a run in column [levelWidth - 2] followed by the
    closing vertex): the slope of column [c + 1] is never written, and the
    height of column [c + 1] is the greatest [Y] of the run, as a [float],
    plus whatever the cell [slopeMap[c + 1]] holds on entry, rounded up. *)
Theorem run_before_the_last_vertex_reads_unwritten_slope (levelWidth : Z)
  (pre mid : list Vertex.t) (first r1 r2 closing : Vertex.t)
  (fHeightMap0 slopeMap0 : array) (heightMap : list Z) :
  let c := Vertex.X r1 in
  let top := Float32.of_int (greatest_Y r1 (r2 :: mid)) in
  1 <= c < levelWidth - 1 ->
  Forall (fun v => Vertex.X v <= c) (first :: pre) ->
  Vertex.X (last pre first) <> c ->
  Vertex.X r2 = c ->
  Forall (fun v => Vertex.X v = c) mid ->
  Vertex.X closing = c + 1 ->
  0 <= Vertex.Y r1 ->
  heightMap_of_vertices (first :: pre ++ r1 :: r2 :: mid ++ [closing])
                        levelWidth fHeightMap0 slopeMap0
  = Ok heightMap ->
  heightAt heightMap (c + 1)
  = to_Uint16
      (Float64.ceil
         (Float64.of_float (Float32.add top (slopeMap0 (c + 1))))).
Proof.
  intros c top Hc Hleft Hpre Hr2 Hmid Hclosing HY.
  unfold heightMap_of_vertices.
  destruct (buildSlopeMap slopeMap0 fHeightMap0
              (first :: pre ++ r1 :: r2 :: mid ++ [closing]) levelWidth)
    as [[slopeMap fHeightMap]| |] eqn:Hrun; cbn [bind]; try discriminate.
  (* the slope of column c + 1 is the one found on entry *)
  assert (Hkeep : slopeMap (c + 1) = slopeMap0 (c + 1)).
  { unfold buildSlopeMap in Hrun.
    replace (pre ++ r1 :: r2 :: mid ++ [closing])
      with ((pre ++ r1 :: r2 :: mid) ++ [closing]) in Hrun
      by (rewrite <- app_assoc; reflexivity).
    destruct (buildSlopeMap_loops_keep_slope levelWidth (c + 1)
                (pre ++ r1 :: r2 :: mid) first closing
                (slopeMap0, fHeightMap0)) as [H _].
    - apply Forall_cons; [apply Forall_inv in Hleft; cbn beta in Hleft; lia|].
      apply Forall_app. split.
      + apply Forall_inv_tail in Hleft.
        eapply Forall_impl; [|exact Hleft]. cbn beta. intros v Hv. lia.
      + apply Forall_cons; [fold c; lia|].
        apply Forall_cons; [lia|].
        eapply Forall_impl; [|exact Hmid]. cbn beta. intros v Hv. lia.
    - lia.
    - rewrite Hrun in H. exact H. }
  (* the cells the run leaves in columns c and c + 1 *)
  assert (Hcells : slopeMap c = Float32.zero
                   /\ fHeightMap c = top
                   /\ fHeightMap (c + 1) = Float32.minus_one).
  { unfold buildSlopeMap in Hrun.
    destruct (buildSlopeMap_reaches levelWidth r1 pre) as [Hreach _].
    destruct (Hreach first (slopeMap0, fHeightMap0) Hpre) as [maps Hmaps].
    rewrite Hmaps in Hrun. cbn [buildSlopeMap_from] in Hrun.
    destruct (Z.eqb_spec (Vertex.X r1) (Vertex.X r2));
      [|fold c in n; congruence].
    rewrite buildSlopeMap_run_scan in Hrun;
      [ | eapply Forall_impl; [|exact Hmid]; cbn beta; intros; congruence
        | fold c in Hclosing; lia ].
    replace (if Vertex.Y r1 >=? Vertex.Y r2 then Vertex.Y r1 else Vertex.Y r2)
      with (Z.max (Vertex.Y r1) (Vertex.Y r2)) in Hrun
      by (rewrite Z.geb_leb;
          destruct (Z.leb_spec (Vertex.Y r2) (Vertex.Y r1)); lia).
    change (fold_left Z.max (map Vertex.Y mid)
              (Z.max (Vertex.Y r1) (Vertex.Y r2)))
      with (greatest_Y r1 (r2 :: mid)) in Hrun.
    assert (Hlast : Vertex.X (last mid r2) = c).
    { clear - Hr2 Hmid. revert r2 Hr2.
      induction Hmid as [|v mid Hv _ IH]; intros r2 Hr2; [exact Hr2|].
      rewrite last_cons. apply IH, Hv. }
    cbn [buildSlopeMap_from] in Hrun. injection Hrun as Hrun.
    destruct maps as [sM fH]. unfold end_of_run in Hrun.
    rewrite Hlast in Hrun.
    destruct (Z.ltb_spec c (levelWidth - 1)); [|lia].
    injection Hrun as Hs Hf.
    rewrite <- Hs, <- Hf. repeat split.
    - rewrite fill_range_below by lia. apply store_same.
    - rewrite store_other by lia. apply store_same.
    - apply store_same. }
  destruct Hcells as [Hs0 [Hf0 Hf1]].
  unfold buildFHeightMap. cbn [fst snd].
  destruct (negb (Vertex.X first =? 0)); cbn [bind]; [discriminate|].
  intros [= <-].
  assert (Htop : Float32.eqb top Float32.minus_one = false).
  { apply of_int_not_minus_one. unfold greatest_Y.
    assert (Hmax : forall l m, m <= fold_left Z.max l m).
    { induction l as [|y l IHl]; intros m; cbn [fold_left]; [lia|].
      specialize (IHl (Z.max m y)). lia. }
    specialize (Hmax (map Vertex.Y (r2 :: mid)) (Vertex.Y r1)). lia. }
  assert (Hzero : Float32.eqb (slopeMap c) Float32.zero = true)
    by (rewrite Hs0; reflexivity).
  assert (Hc1 : 1 <= 1 <= c) by lia.
  assert (Hfuel : levelWidth <= 1 + Z.of_nat (Z.to_nat levelWidth)) by lia.
  assert (Hcolumn : c < levelWidth - 1) by lia.
  destruct (buildFHeightMap_loop_through_run levelWidth c slopeMap top
              (Z.to_nat levelWidth) Hcolumn Hzero Htop 1
              (store fHeightMap 0 (Float32.of_int (Vertex.Y first)))
              Hc1 Hfuel) as [_ Hnext].
  - rewrite store_other by lia. exact Hf0.
  - rewrite store_other by lia. exact Hf1.
  - unfold heightAt. rewrite nth_round_columns by lia.
    rewrite Z.add_0_l, Z2Nat.id by lia.
    rewrite Hnext, Hkeep. reflexivity.
Qed.

(** The list of ["0 3\n898 3\n898 9\n"] has such a run in column 898: with
    2.5 in the cell [slopeMap[899]] on entry, the height of column 899 is
    9 + 2.5 rounded up. *)
Lemma run_before_the_last_vertex_reads_unwritten_slope_witness :
  heightAt
    (match heightMap_of_vertices
             [Vertex.mk 0 3; Vertex.mk 898 3; Vertex.mk 898 9;
              Vertex.mk 899 3] 900 zeros
             (fun _ => Float32.div (Float32.of_int 5) (Float32.of_int 2))
     with
     | Ok heightMap => heightMap
     | _ => []
     end) 899 = 12.
Proof.
  refine (eq_trans
            (run_before_the_last_vertex_reads_unwritten_slope 900
               [] [] (Vertex.mk 0 3) (Vertex.mk 898 3)
               (Vertex.mk 898 9) (Vertex.mk 899 3) zeros
               (fun _ => Float32.div (Float32.of_int 5) (Float32.of_int 2))
               _ _ _ _ _ _ _ _ _) _).
  - cbn. lia.
  - repeat constructor; cbn; lia.
  - cbn. lia.
  - reflexivity.
  - constructor.
  - reflexivity.
  - cbn. lia.
  - vm_compute. reflexivity.
  - vm_compute. reflexivity.
Defined.

(** ** The game at its start *)

Lemma buildTerrain_heightMap_length (file : string) (levelWidth : Z)
  (fHeightMap0 slopeMap0 : array) (terrain : Terrain.t) :
  buildTerrain file levelWidth fHeightMap0 slopeMap0 = Ok terrain ->
  List.length (Terrain.heightMap terrain) = Z.to_nat levelWidth.
Proof.
  intros Hbuilt.
  destruct (buildTerrain_Ok _ _ _ _ _ Hbuilt) as [_ [_ Hmap]].
  unfold heightMap_of_vertices in Hmap.
  destruct (buildSlopeMap slopeMap0 fHeightMap0
              (Terrain.firstVertex terrain) levelWidth) as [maps| |];
    try discriminate.
  cbn [bind] in Hmap.
  destruct (buildFHeightMap (snd maps) (fst maps)
              (Terrain.firstVertex terrain) levelWidth) as [fH| |];
    try discriminate.
  cbn [bind] in Hmap. injection Hmap as <-.
  apply length_round_columns.
Qed.

(** What [initializeGameState] delivers, when it returns: a terrain read and
    built from the file, with a height map of [LEVEL_WIDTH] cells and the
    strips of its vertex list; a full tank and no score; a state which
    [gameOver] does not end and which both resets leave as it is. *)
Theorem initial_game_is_ready (fileName : string)
  (fHeightMap0 slopeMap0 : array) (g : game) :
  initializeGameState fileName fHeightMap0 slopeMap0 = Ok g ->
  readVertexList fileName LEVEL_WIDTH
  = Ok (Terrain.firstVertex (GameState.terrain (fst g)))
  /\ Terrain.firstFlat (GameState.terrain (fst g))
     = findLandingStrips (Terrain.firstVertex (GameState.terrain (fst g)))
  /\ List.length (Terrain.heightMap (GameState.terrain (fst g)))
     = Z.to_nat LEVEL_WIDTH
  /\ GameState.fuel (fst g) = FUEL_START
  /\ GameState.score (fst g) = 0
  /\ gameOver (fst g) = false
  /\ hardReset g = g
  /\ softReset g = g.
Proof.
  unfold initializeGameState.
  destruct (buildTerrain fileName LEVEL_WIDTH fHeightMap0 slopeMap0)
    as [terrain| |] eqn:Hbuilt; try discriminate.
  cbn [bind]. intros [= <-].
  destruct (buildTerrain_Ok _ _ _ _ _ Hbuilt) as [Hread [Hflats Hmap]].
  unfold initial_game.
  cbn [fst snd GameState.terrain GameState.fuel GameState.score].
  split; [exact Hread|]. split; [exact Hflats|]. split.
  - exact (buildTerrain_heightMap_length _ _ _ _ _ Hbuilt).
  - split; [reflexivity|]. split; [reflexivity|]. split; [reflexivity|].
    unfold hardReset, softReset, set_lander.
    cbn [fst snd GameState.levelWidth GameState.levelHeight
           GameState.terrain GameState.timeStart GameState.timeElapsed
           GameState.score GameState.fuel].
    rewrite respawned_lander_value, reset_camera_value.
    split; reflexivity.
Qed.

Lemma initial_game_is_ready_witness :
  let g :=
    initial_game
      (Terrain.mk [Vertex.mk 0 0; Vertex.mk 100 7; Vertex.mk 899 0] []
         (match heightMap_of_vertices
                  [Vertex.mk 0 0; Vertex.mk 100 7; Vertex.mk 899 0] 900
                  zeros zeros with
          | Ok heightMap => heightMap
          | _ => []
          end)) in
  readVertexList hill_file LEVEL_WIDTH
  = Ok (Terrain.firstVertex (GameState.terrain (fst g)))
  /\ Terrain.firstFlat (GameState.terrain (fst g))
     = findLandingStrips (Terrain.firstVertex (GameState.terrain (fst g)))
  /\ List.length (Terrain.heightMap (GameState.terrain (fst g)))
     = Z.to_nat LEVEL_WIDTH
  /\ GameState.fuel (fst g) = FUEL_START
  /\ GameState.score (fst g) = 0
  /\ gameOver (fst g) = false
  /\ hardReset g = g
  /\ softReset g = g.
Proof.
  intros g.
  apply (initial_game_is_ready hill_file zeros zeros g).
  vm_compute. reflexivity.
Defined.
